(** * metadb: the metadata ledger of [metadb/data.py], the script runner of
    [metadb/db.py] and the export tool [dump_unprocessed.py]

    The relational store is embedded as a record of tables, every table the
    list of its rows in insertion order.  A SQL statement of the source is a
    function on that record: an INSERT appends a row, an UPDATE maps over the
    rows its WHERE clause selects, a SELECT filters and joins.  A function of
    [data.py] that takes a [connection] is a computation in the monad [Conn]
    (store passing plus Python exceptions), and [with db.engine.begin()] is
    [begin]: commit when the body returns, roll back when it raises.

    The schema scripts are not among the sources, so the tables carry the
    columns the statements name and no constraint of their own; what keeps a
    table free of duplicates is the check the code makes before it inserts.
    [rowcount] of a SELECT is the number of rows it matched.  Identifiers and
    texts are strings, compared as the store compares them. *)

From Stdlib Require Import ZArith List String Ascii Bool Lia DecimalString.
Import ListNotations.

#[local] Set Warnings "-register-all,-notation-for-abbreviation".
Local Open Scope string_scope.
Local Open Scope Z_scope.

(** ** Python values *)

Module Py.

(** [datetime.datetime]; [tzinfo] is the UTC offset in whole minutes of an
    aware datetime and [None] for a naive one. *)
Record datetime := {
  year : Z; month : Z; day : Z; hour : Z; minute : Z; second : Z;
  microsecond : Z; tzinfo : option Z }.

(** The payloads a scraper hands to [add_item]: what [json.dumps] with
    [JsonDateTimeEncoder] accepts (floats left out), dictionaries with
    string keys in insertion order.  A [string] is a sequence of code points
    below 256. *)
Inductive pyvalue :=
| PyNone
| PyBool (b : bool)
| PyInt (n : Z)
| PyStr (s : string)
| PyDatetime (d : datetime)
| PyList (l : list pyvalue)
| PyDict (kvs : list (string * pyvalue)).

(** [bool(v)], the test of [if data:]. *)
Definition truthy (v : pyvalue) : bool :=
  match v with
  | PyNone => false
  | PyBool b => b
  | PyInt n => negb (n =? 0)
  | PyStr s => negb (s =? "")%string
  | PyDatetime _ => true
  | PyList l => match l with [] => false | _ => true end
  | PyDict kvs => match kvs with [] => false | _ => true end
  end.

(** [isinstance(data, dict) or isinstance(data, list)]. *)
Definition is_dict_or_list (v : pyvalue) : bool :=
  match v with
  | PyDict _ | PyList _ => true
  | _ => false
  end.

(** [str(n)] of an integer. *)
Definition str_of_int (n : Z) : string := NilZero.string_of_int (Z.to_int n).

Fixpoint zeros (k : nat) : string :=
  match k with
  | O => ""
  | S k' => String "0" (zeros k')
  end.

(** ["%0<w>d" % n] for [0 <= n]. *)
Definition zero_padded (w : nat) (n : Z) : string :=
  let d := str_of_int n in
  zeros (w - String.length d) ++ d.

(** [_format_offset]: [+HH:MM] or [-HH:MM]. *)
Definition format_offset (off : option Z) : string :=
  match off with
  | None => ""
  | Some m =>
      let sign := if m <? 0 then "-" else "+" in
      let a := Z.abs m in
      sign ++ zero_padded 2 (a / 60) ++ ":" ++ zero_padded 2 (a mod 60)
  end.

(** [datetime.isoformat()]. *)
Definition isoformat (d : datetime) : string :=
  zero_padded 4 (year d) ++ "-" ++ zero_padded 2 (month d) ++ "-"
  ++ zero_padded 2 (day d) ++ "T"
  ++ zero_padded 2 (hour d) ++ ":" ++ zero_padded 2 (minute d) ++ ":"
  ++ zero_padded 2 (second d)
  ++ (if microsecond d =? 0 then "" else "." ++ zero_padded 6 (microsecond d))
  ++ format_offset (tzinfo d).

Definition hex_digit (n : N) : ascii :=
  ascii_of_N (if (n <? 10)%N then 48 + n else 87 + n)%N.

Definition dquote : string := String (ascii_of_nat 34) "".
Definition backslash : string := String (ascii_of_nat 92) "".

(** One character under [py_encode_basestring_ascii]: the backslash and the
    double quote are escaped, printable ASCII stands for itself, and every
    other code point becomes a short escape or [\u00xx]. *)
Definition escape_char (c : ascii) : string :=
  let n := N_of_ascii c in
  if (n =? 92)%N then backslash ++ backslash
  else if (n =? 34)%N then backslash ++ dquote
  else if ((32 <=? n) && (n <=? 126))%N then String c ""
  else if (n =? 8)%N then backslash ++ "b"
  else if (n =? 12)%N then backslash ++ "f"
  else if (n =? 10)%N then backslash ++ "n"
  else if (n =? 13)%N then backslash ++ "r"
  else if (n =? 9)%N then backslash ++ "t"
  else backslash ++ "u00"
       ++ String (hex_digit (n / 16)) (String (hex_digit (n mod 16)) "").

Fixpoint escape (s : string) : string :=
  match s with
  | EmptyString => ""
  | String c s' => escape_char c ++ escape s'
  end.

(** A JSON string literal. *)
Definition json_string (s : string) : string := dquote ++ escape s ++ dquote.

(** [JsonDateTimeEncoder.default] answers a datetime with its [isoformat()],
    which the encoder then writes as a string. *)
Definition JsonDateTimeEncoder_default (d : datetime) : string := isoformat d.

(** [json.dumps(v, cls=JsonDateTimeEncoder)], with the default separators. *)
Fixpoint json_dumps (v : pyvalue) : string :=
  match v with
  | PyNone => "null"
  | PyBool true => "true"
  | PyBool false => "false"
  | PyInt n => str_of_int n
  | PyStr s => json_string s
  | PyDatetime d => json_string (JsonDateTimeEncoder_default d)
  | PyList l => "[" ++ String.concat ", " (map json_dumps l) ++ "]"
  | PyDict kvs =>
      "{" ++ String.concat ", "
               (map (fun kv => json_string (fst kv) ++ ": " ++ json_dumps (snd kv)) kvs)
          ++ "}"
  end.

End Py.

(** ** The store *)

Module Sql.

(** An MBID as the store compares it (the [mbid] columns). *)
Definition mbid := string.

(** A timezone-aware [datetime]: the instant it denotes, in microseconds
    since the epoch.  Aware datetimes compare by instant, so reading a
    column [AT TIME ZONE 'UTC'] and putting [tzinfo=utc] back on gives the
    instant that was stored. *)
Definition timestamp := Z.

Record token_row := { tk_token : string; tk_admin : bool }.
Record source_row := { src_id : Z; src_name : string }.
Record scraper_row := {
  sc_id : Z; sc_source_id : Z; sc_module : string; sc_mb_type : string;
  sc_version : Z; sc_description : string }.
Record redirect_row := { rr_mbid : mbid; rr_new_mbid : mbid }.
Record recording_meta_row := {
  rm_mbid : mbid; rm_name : string; rm_artist_credit : string;
  rm_last_updated : timestamp }.
Record release_group_meta_row := {
  rgm_mbid : mbid; rgm_name : string; rgm_artist_credit : string;
  rgm_first_release_date : string; rgm_last_updated : timestamp }.
Record link_row := { lk_recording_mbid : mbid; lk_release_group_mbid : mbid }.
Record item_row := { it_id : Z; it_scraper_id : Z; it_mbid : mbid }.
(** [itd_data] is the value [add_item] binds to [:data] in its INSERT; what
    a later SELECT reads back for it depends on the type of the column. *)
Record item_data_row := { itd_item_id : Z; itd_data : Py.pyvalue }.

(** The tables [data.py] reads and writes, with the three sequences behind
    its [RETURNING id] clauses.  Columns the code never writes ([added]) are
    left to the store and are not part of the rows. *)
Record Store := {
  tbl_token : list token_row;
  tbl_source : list source_row;
  seq_source_id : Z;
  tbl_scraper : list scraper_row;
  seq_scraper_id : Z;
  tbl_recording : list mbid;
  tbl_recording_redirect : list redirect_row;
  tbl_recording_meta : list recording_meta_row;
  tbl_release_group : list mbid;
  tbl_release_group_meta : list release_group_meta_row;
  tbl_recording_release_group : list link_row;
  tbl_item : list item_row;
  seq_item_id : Z;
  tbl_item_data : list item_data_row }.

Definition empty_store : Store :=
  {| tbl_token := []; tbl_source := []; seq_source_id := 0;
     tbl_scraper := []; seq_scraper_id := 0;
     tbl_recording := []; tbl_recording_redirect := [];
     tbl_recording_meta := []; tbl_release_group := [];
     tbl_release_group_meta := []; tbl_recording_release_group := [];
     tbl_item := []; seq_item_id := 0; tbl_item_data := [] |}.

Definition with_token (f : list token_row -> list token_row) (s : Store) : Store :=
  {| tbl_token := f (tbl_token s); tbl_source := tbl_source s;
     seq_source_id := seq_source_id s; tbl_scraper := tbl_scraper s;
     seq_scraper_id := seq_scraper_id s; tbl_recording := tbl_recording s;
     tbl_recording_redirect := tbl_recording_redirect s;
     tbl_recording_meta := tbl_recording_meta s;
     tbl_release_group := tbl_release_group s;
     tbl_release_group_meta := tbl_release_group_meta s;
     tbl_recording_release_group := tbl_recording_release_group s;
     tbl_item := tbl_item s; seq_item_id := seq_item_id s;
     tbl_item_data := tbl_item_data s |}.

Definition with_source (f : list source_row -> list source_row) (id : Z) (s : Store) : Store :=
  {| tbl_token := tbl_token s; tbl_source := f (tbl_source s);
     seq_source_id := id; tbl_scraper := tbl_scraper s;
     seq_scraper_id := seq_scraper_id s; tbl_recording := tbl_recording s;
     tbl_recording_redirect := tbl_recording_redirect s;
     tbl_recording_meta := tbl_recording_meta s;
     tbl_release_group := tbl_release_group s;
     tbl_release_group_meta := tbl_release_group_meta s;
     tbl_recording_release_group := tbl_recording_release_group s;
     tbl_item := tbl_item s; seq_item_id := seq_item_id s;
     tbl_item_data := tbl_item_data s |}.

Definition with_scraper (f : list scraper_row -> list scraper_row) (id : Z) (s : Store) : Store :=
  {| tbl_token := tbl_token s; tbl_source := tbl_source s;
     seq_source_id := seq_source_id s; tbl_scraper := f (tbl_scraper s);
     seq_scraper_id := id; tbl_recording := tbl_recording s;
     tbl_recording_redirect := tbl_recording_redirect s;
     tbl_recording_meta := tbl_recording_meta s;
     tbl_release_group := tbl_release_group s;
     tbl_release_group_meta := tbl_release_group_meta s;
     tbl_recording_release_group := tbl_recording_release_group s;
     tbl_item := tbl_item s; seq_item_id := seq_item_id s;
     tbl_item_data := tbl_item_data s |}.

Definition with_recording (f : list mbid -> list mbid) (s : Store) : Store :=
  {| tbl_token := tbl_token s; tbl_source := tbl_source s;
     seq_source_id := seq_source_id s; tbl_scraper := tbl_scraper s;
     seq_scraper_id := seq_scraper_id s; tbl_recording := f (tbl_recording s);
     tbl_recording_redirect := tbl_recording_redirect s;
     tbl_recording_meta := tbl_recording_meta s;
     tbl_release_group := tbl_release_group s;
     tbl_release_group_meta := tbl_release_group_meta s;
     tbl_recording_release_group := tbl_recording_release_group s;
     tbl_item := tbl_item s; seq_item_id := seq_item_id s;
     tbl_item_data := tbl_item_data s |}.

Definition with_recording_redirect (f : list redirect_row -> list redirect_row) (s : Store) : Store :=
  {| tbl_token := tbl_token s; tbl_source := tbl_source s;
     seq_source_id := seq_source_id s; tbl_scraper := tbl_scraper s;
     seq_scraper_id := seq_scraper_id s; tbl_recording := tbl_recording s;
     tbl_recording_redirect := f (tbl_recording_redirect s);
     tbl_recording_meta := tbl_recording_meta s;
     tbl_release_group := tbl_release_group s;
     tbl_release_group_meta := tbl_release_group_meta s;
     tbl_recording_release_group := tbl_recording_release_group s;
     tbl_item := tbl_item s; seq_item_id := seq_item_id s;
     tbl_item_data := tbl_item_data s |}.

Definition with_recording_meta (f : list recording_meta_row -> list recording_meta_row) (s : Store) : Store :=
  {| tbl_token := tbl_token s; tbl_source := tbl_source s;
     seq_source_id := seq_source_id s; tbl_scraper := tbl_scraper s;
     seq_scraper_id := seq_scraper_id s; tbl_recording := tbl_recording s;
     tbl_recording_redirect := tbl_recording_redirect s;
     tbl_recording_meta := f (tbl_recording_meta s);
     tbl_release_group := tbl_release_group s;
     tbl_release_group_meta := tbl_release_group_meta s;
     tbl_recording_release_group := tbl_recording_release_group s;
     tbl_item := tbl_item s; seq_item_id := seq_item_id s;
     tbl_item_data := tbl_item_data s |}.

Definition with_release_group (f : list mbid -> list mbid) (s : Store) : Store :=
  {| tbl_token := tbl_token s; tbl_source := tbl_source s;
     seq_source_id := seq_source_id s; tbl_scraper := tbl_scraper s;
     seq_scraper_id := seq_scraper_id s; tbl_recording := tbl_recording s;
     tbl_recording_redirect := tbl_recording_redirect s;
     tbl_recording_meta := tbl_recording_meta s;
     tbl_release_group := f (tbl_release_group s);
     tbl_release_group_meta := tbl_release_group_meta s;
     tbl_recording_release_group := tbl_recording_release_group s;
     tbl_item := tbl_item s; seq_item_id := seq_item_id s;
     tbl_item_data := tbl_item_data s |}.

Definition with_release_group_meta
  (f : list release_group_meta_row -> list release_group_meta_row) (s : Store) : Store :=
  {| tbl_token := tbl_token s; tbl_source := tbl_source s;
     seq_source_id := seq_source_id s; tbl_scraper := tbl_scraper s;
     seq_scraper_id := seq_scraper_id s; tbl_recording := tbl_recording s;
     tbl_recording_redirect := tbl_recording_redirect s;
     tbl_recording_meta := tbl_recording_meta s;
     tbl_release_group := tbl_release_group s;
     tbl_release_group_meta := f (tbl_release_group_meta s);
     tbl_recording_release_group := tbl_recording_release_group s;
     tbl_item := tbl_item s; seq_item_id := seq_item_id s;
     tbl_item_data := tbl_item_data s |}.

Definition with_recording_release_group (f : list link_row -> list link_row) (s : Store) : Store :=
  {| tbl_token := tbl_token s; tbl_source := tbl_source s;
     seq_source_id := seq_source_id s; tbl_scraper := tbl_scraper s;
     seq_scraper_id := seq_scraper_id s; tbl_recording := tbl_recording s;
     tbl_recording_redirect := tbl_recording_redirect s;
     tbl_recording_meta := tbl_recording_meta s;
     tbl_release_group := tbl_release_group s;
     tbl_release_group_meta := tbl_release_group_meta s;
     tbl_recording_release_group := f (tbl_recording_release_group s);
     tbl_item := tbl_item s; seq_item_id := seq_item_id s;
     tbl_item_data := tbl_item_data s |}.

Definition with_item (f : list item_row -> list item_row) (id : Z) (s : Store) : Store :=
  {| tbl_token := tbl_token s; tbl_source := tbl_source s;
     seq_source_id := seq_source_id s; tbl_scraper := tbl_scraper s;
     seq_scraper_id := seq_scraper_id s; tbl_recording := tbl_recording s;
     tbl_recording_redirect := tbl_recording_redirect s;
     tbl_recording_meta := tbl_recording_meta s;
     tbl_release_group := tbl_release_group s;
     tbl_release_group_meta := tbl_release_group_meta s;
     tbl_recording_release_group := tbl_recording_release_group s;
     tbl_item := f (tbl_item s); seq_item_id := id;
     tbl_item_data := tbl_item_data s |}.

Definition with_item_data (f : list item_data_row -> list item_data_row) (s : Store) : Store :=
  {| tbl_token := tbl_token s; tbl_source := tbl_source s;
     seq_source_id := seq_source_id s; tbl_scraper := tbl_scraper s;
     seq_scraper_id := seq_scraper_id s; tbl_recording := tbl_recording s;
     tbl_recording_redirect := tbl_recording_redirect s;
     tbl_recording_meta := tbl_recording_meta s;
     tbl_release_group := tbl_release_group s;
     tbl_release_group_meta := tbl_release_group_meta s;
     tbl_recording_release_group := tbl_recording_release_group s;
     tbl_item := tbl_item s; seq_item_id := seq_item_id s;
     tbl_item_data := f (tbl_item_data s) |}.

(** *** Exceptions and connections *)

Inductive exn :=
| ValueError (msg : string)
| TypeError (msg : string)
| UnboundLocalError (name : string).

(** A computation on an open connection: it raises, or returns a value and
    the store as its statements left it. *)
Definition Conn (A : Type) : Type := Store -> exn + (A * Store).

Definition ret {A} (a : A) : Conn A := fun s => inr (a, s).
Definition bind {A B} (m : Conn A) (k : A -> Conn B) : Conn B :=
  fun s => match m s with
           | inl e => inl e
           | inr (a, s') => k a s'
           end.

(** [connection.execute] of a SELECT: the rows, the store untouched. *)
Definition query {A} (q : Store -> A) : Conn A := fun s => inr (q s, s).
(** [connection.execute] of an INSERT or UPDATE. *)
Definition execute (f : Store -> Store) : Conn unit := fun s => inr (tt, f s).

(** What a public operation of [data.py] hands its caller. *)
Inductive outcome (A : Type) :=
| Returned (a : A)
| Raised (e : exn).
Arguments Returned {A} a.
Arguments Raised {A} e.

(** [with db.engine.begin() as connection: body]: the transaction commits
    when the body returns and is rolled back when it raises. *)
Definition begin {A} (body : Conn A) (s : Store) : outcome A * Store :=
  match body s with
  | inr (a, s') => (Returned a, s')
  | inl e => (Raised e, s)
  end.

(** [result.fetchone()]. *)
Definition fetchone {A} (rows : list A) : option A := hd_error rows.
(** [result.rowcount] of a SELECT: the number of rows it matched. *)
Definition rowcount {A} (rows : list A) : nat := List.length rows.

(** *** Joins *)

Definition inner_join {A B} (on : A -> B -> bool) (l : list A) (r : list B)
  : list (A * B) :=
  flat_map (fun a => map (pair a) (filter (on a) r)) l.

(** LEFT JOIN: a left row with no partner is kept once, its right side NULL. *)
Definition left_join {A B} (on : A -> B -> bool) (l : list A) (r : list B)
  : list (A * option B) :=
  flat_map (fun a => match filter (on a) r with
                     | [] => [(a, None)]
                     | ms => map (fun b => (a, Some b)) ms
                     end) l.

(** [x IS NULL] on the right side of a LEFT JOIN. *)
Definition is_null {A} (o : option A) : bool :=
  match o with None => true | Some _ => false end.

Declare Scope conn_scope.
Delimit Scope conn_scope with conn.
Notation "x <- m ;; k" := (bind m (fun x => k))
  (at level 61, m at next level, right associativity) : conn_scope.
Notation "m ;; k" := (bind m (fun _ => k))
  (at level 61, right associativity) : conn_scope.

End Sql.

(** ** metadb/data.py *)

Module Data.
Import Sql.
Local Open Scope conn_scope.

(** The dictionaries the callers pass in.  A source and a scraper are the
    dictionaries [load_source] and [add_scraper] build, one key per column. *)
Definition source_dict := source_row.
Definition scraper_dict := scraper_row.

Record release_group_dict := {
  rg_mbid : mbid; rg_name : string; rg_artist_credit : string;
  rg_first_release_date : string; rg_last_updated : timestamp }.

(** [release_group_map] in the order [.values()] walks it. *)
Record recording_dict := {
  rec_mbid : mbid; rec_name : string; rec_artist_credit : string;
  rec_last_updated : timestamp;
  rec_release_group_map : list (mbid * release_group_dict) }.

(** [not result.rowcount]. *)
Definition no_rows {A} (rows : list A) : bool := Nat.eqb (rowcount rows) 0.

(** *** Tokens and sources *)

(** [add_token]; [token] is the [uuid.uuid4()] the call draws. *)
Definition add_token (token : string) (admin : bool) (s : Store)
  : outcome string * Store :=
  begin (execute (with_token (fun t =>
                    t ++ [{| tk_token := token; tk_admin := admin |}])%list) ;;
         ret token) s.

Section Uuid.
(** [uuid.UUID(token, version=4)] returns (does not raise [ValueError]). *)
Variable uuid_parses : string -> bool.

Definition remove_token (token : string) (s : Store) : outcome unit * Store :=
  if uuid_parses token then
    begin (execute (with_token
                      (filter (fun r => negb (tk_token r =? token)%string)))) s
  else (Returned tt, s).

End Uuid.

Definition add_source (name : string) (s : Store) : outcome source_dict * Store :=
  begin (fun s =>
           let id := seq_source_id s + 1 in
           let row := {| src_id := id; src_name := name |} in
           inr (row, with_source (fun t => t ++ [row])%list id s)) s.

Definition load_source (name : string) (s : Store) : option source_dict :=
  fetchone (filter (fun r => (src_name r =? name)%string) (tbl_source s)).

(** *** Recording identities *)

Fixpoint add_recording_mbids_loop (mbids : list mbid) (ret_ : list mbid)
  : Conn (list mbid) :=
  match mbids with
  | [] => ret ret_
  | mbid :: rest =>
      result <- query (fun s => filter (String.eqb mbid) (tbl_recording s)) ;;
      if no_rows result then
        execute (with_recording (fun t => t ++ [mbid])%list) ;;
        add_recording_mbids_loop rest (ret_ ++ [mbid])%list
      else add_recording_mbids_loop rest ret_
  end.

Definition _add_recording_mbids (mbids : list mbid) : Conn (list mbid) :=
  add_recording_mbids_loop mbids [].

Definition add_recording_mbids (mbids : list mbid) (s : Store)
  : outcome (list mbid) * Store :=
  begin (_add_recording_mbids mbids) s.

(** *** Scrapers *)

Definition add_scraper (source : source_dict) (module mb_type : string)
  (version : Z) (description : string) (s : Store)
  : outcome scraper_dict * Store :=
  if negb (existsb (String.eqb mb_type) ["recording"; "release_group"]) then
    (Raised (ValueError "Invalid mb_type. Must be one of [recording, release_group]"), s)
  else
    begin (fun s =>
             let id := seq_scraper_id s + 1 in
             let row := {| sc_id := id; sc_source_id := src_id source;
                           sc_module := module; sc_mb_type := mb_type;
                           sc_version := version;
                           sc_description := description |} in
             inr (row, with_scraper (fun t => t ++ [row])%list id s)) s.

(** *** Items *)

Definition insert_item (scraper_id : Z) (mbid : mbid) : Conn item_row :=
  fun s =>
    let id := seq_item_id s + 1 in
    let row := {| it_id := id; it_scraper_id := scraper_id; it_mbid := mbid |} in
    inr (row, with_item (fun t => t ++ [row])%list id s).

Definition _add_item_w_connection (scraper : scraper_dict) (mbid : mbid)
  (data : Py.pyvalue) : Conn bool :=
  check_result <- query (fun s =>
      filter (fun i => (it_mbid i =? mbid)%string
                       && (it_scraper_id i =? sc_id scraper))
             (tbl_item s)) ;;
  if no_rows check_result then
    row <- insert_item (sc_id scraper) mbid ;;
    let id := it_id row in
    (if Py.truthy data then
       let data := if Py.is_dict_or_list data
                   then Py.PyStr (Py.json_dumps data) else data in
       execute (with_item_data (fun t =>
                  t ++ [{| itd_item_id := id; itd_data := data |}])%list)
     else ret tt) ;;
    ret true
  else ret false.

Definition add_item (scraper : scraper_dict) (mbid : mbid) (data : Py.pyvalue)
  (s : Store) : outcome bool * Store :=
  begin (_add_item_w_connection scraper mbid data) s.

(** *** Redirects *)

Definition musicbrainz_check_mbid_redirect (query_mbid actual_mbid : mbid)
  (s : Store) : outcome unit * Store :=
  if (query_mbid =? actual_mbid)%string then (Returned tt, s)
  else
    begin (res <- query (fun s =>
               filter (fun r => (rr_mbid r =? query_mbid)%string
                                && (rr_new_mbid r =? actual_mbid)%string)
                      (tbl_recording_redirect s)) ;;
           if no_rows res then
             _add_recording_mbids [actual_mbid] ;;
             execute (with_recording_redirect (fun t =>
                        t ++ [{| rr_mbid := query_mbid;
                                 rr_new_mbid := actual_mbid |}])%list)
           else ret tt) s.

(** *** Recording metadata *)

Definition _get_recording_meta (recording_mbid : mbid)
  : Conn (option recording_meta_row) :=
  query (fun s => fetchone (filter (fun r => (rm_mbid r =? recording_mbid)%string)
                                   (tbl_recording_meta s))).

(** [UPDATE recording_meta SET name, artist_credit, last_updated WHERE mbid]
    on one row. *)
Definition update_recording_meta (recording : recording_dict)
  (r : recording_meta_row) : recording_meta_row :=
  if (rm_mbid r =? rec_mbid recording)%string then
    {| rm_mbid := rm_mbid r; rm_name := rec_name recording;
       rm_artist_credit := rec_artist_credit recording;
       rm_last_updated := rec_last_updated recording |}
  else r.

Definition recording_meta_of (recording : recording_dict) : recording_meta_row :=
  {| rm_mbid := rec_mbid recording; rm_name := rec_name recording;
     rm_artist_credit := rec_artist_credit recording;
     rm_last_updated := rec_last_updated recording |}.

Definition _add_recording_meta (recording : recording_dict) : Conn unit :=
  existing <- _get_recording_meta (rec_mbid recording) ;;
  match existing with
  | Some existing =>
      let existing_date := rm_last_updated existing in
      let current_date := rec_last_updated recording in
      if existing_date >=? current_date then ret tt
      else execute (with_recording_meta (map (update_recording_meta recording)))
  | None =>
      execute (with_recording_meta (fun t => t ++ [recording_meta_of recording])%list)
  end.

(** *** Release-group metadata *)

Definition _get_release_group_meta (release_group_mbid : mbid)
  : Conn (option release_group_meta_row) :=
  query (fun s => fetchone (filter (fun r => (rgm_mbid r =? release_group_mbid)%string)
                                   (tbl_release_group_meta s))).

Definition update_release_group_meta (release_group : release_group_dict)
  (r : release_group_meta_row) : release_group_meta_row :=
  if (rgm_mbid r =? rg_mbid release_group)%string then
    {| rgm_mbid := rgm_mbid r; rgm_name := rg_name release_group;
       rgm_artist_credit := rg_artist_credit release_group;
       rgm_first_release_date := rg_first_release_date release_group;
       rgm_last_updated := rg_last_updated release_group |}
  else r.

Definition release_group_meta_of (release_group : release_group_dict)
  : release_group_meta_row :=
  {| rgm_mbid := rg_mbid release_group; rgm_name := rg_name release_group;
     rgm_artist_credit := rg_artist_credit release_group;
     rgm_first_release_date := rg_first_release_date release_group;
     rgm_last_updated := rg_last_updated release_group |}.

Definition _add_release_group_meta (release_group : release_group_dict)
  : Conn unit :=
  existing_rg <- _get_release_group_meta (rg_mbid release_group) ;;
  match existing_rg with
  | Some existing_rg =>
      let existing_last_updated := rgm_last_updated existing_rg in
      let current_last_updated := rg_last_updated release_group in
      if existing_last_updated >=? current_last_updated then ret tt
      else execute (with_release_group_meta
                      (map (update_release_group_meta release_group)))
  | None =>
      execute (with_release_group (fun t => t ++ [rg_mbid release_group])%list) ;;
      execute (with_release_group_meta
                 (fun t => t ++ [release_group_meta_of release_group])%list)
  end.

Definition _add_link_recording_release_group
  (recording_mbid release_group_mbid : mbid) : Conn unit :=
  result_has_recording_rg <- query (fun s =>
      filter (fun l => (lk_recording_mbid l =? recording_mbid)%string
                       && (lk_release_group_mbid l =? release_group_mbid)%string)
             (tbl_recording_release_group s)) ;;
  if no_rows result_has_recording_rg then
    execute (with_recording_release_group (fun t =>
               t ++ [{| lk_recording_mbid := recording_mbid;
                        lk_release_group_mbid := release_group_mbid |}])%list)
  else ret tt.

Fixpoint cache_release_groups (recording_mbid : mbid)
  (rgs : list release_group_dict) : Conn unit :=
  match rgs with
  | [] => ret tt
  | rg :: rest =>
      _add_release_group_meta rg ;;
      _add_link_recording_release_group recording_mbid (rg_mbid rg) ;;
      cache_release_groups recording_mbid rest
  end.

Definition cache_musicbrainz_metadata (recording : recording_dict) (s : Store)
  : outcome unit * Store :=
  begin (_add_recording_meta recording ;;
         cache_release_groups (rec_mbid recording)
           (map snd (rec_release_group_map recording))) s.

(** *** The work queue *)

(** A result row of [get_unprocessed_recordings_for_scraper]. *)
Record unprocessed_recording := {
  ur_mbid : mbid; ur_name : string; ur_artist_credit : string }.

(** A result row of [get_unprocessed_release_groups_for_scraper]. *)
Record unprocessed_release_group := {
  urg_mbid : mbid; urg_name : string; urg_artist_credit : string;
  urg_first_release_date : string }.

(** [AND <table>.mbid = :mbid], appended when the caller gives an [mbid]. *)
Definition mbid_filter (mbid : option mbid) (m : Sql.mbid) : bool :=
  match mbid with
  | None => true
  | Some wanted => (m =? wanted)%string
  end.

(** The rows come in no promised order (the query has no ORDER BY); the
    list gives them in the order of the joined tables. *)
Definition get_unprocessed_recordings_for_scraper (scraper : scraper_dict)
  (mbid : option mbid) (s : Store) : list unprocessed_recording :=
  let with_meta :=
    inner_join (fun r m => (r =? rm_mbid m)%string)
               (tbl_recording s) (tbl_recording_meta s) in
  let with_rr :=
    left_join (fun rm rr => (fst rm =? rr_mbid rr)%string)
              with_meta (tbl_recording_redirect s) in
  let with_item :=
    left_join (fun row item => (fst (fst row) =? it_mbid item)%string
                               && (it_scraper_id item =? sc_id scraper))
              with_rr (tbl_item s) in
  map (fun row =>
         let m := snd (fst (fst row)) in
         {| ur_mbid := fst (fst (fst row)); ur_name := rm_name m;
            ur_artist_credit := rm_artist_credit m |})
      (filter (fun row => is_null (snd row) && is_null (snd (fst row))
                          && mbid_filter mbid (fst (fst (fst row))))
              with_item).

Definition get_unprocessed_release_groups_for_scraper (scraper : scraper_dict)
  (mbid : option mbid) (s : Store) : list unprocessed_release_group :=
  let with_meta :=
    inner_join (fun r m => (r =? rgm_mbid m)%string)
               (tbl_release_group s) (tbl_release_group_meta s) in
  let with_item :=
    left_join (fun row item => (fst row =? it_mbid item)%string
                               && (it_scraper_id item =? sc_id scraper))
              with_meta (tbl_item s) in
  map (fun row =>
         let m := snd (fst row) in
         {| urg_mbid := fst (fst row); urg_name := rgm_name m;
            urg_artist_credit := rgm_artist_credit m;
            urg_first_release_date := rgm_first_release_date m |})
      (filter (fun row => is_null (snd row) && mbid_filter mbid (fst (fst row)))
              with_item).

Definition get_recordings_missing_meta (s : Store) : list mbid :=
  let with_meta :=
    left_join (fun r m => (r =? rm_mbid m)%string)
              (tbl_recording s) (tbl_recording_meta s) in
  let with_rr :=
    left_join (fun row rr => (fst row =? rr_mbid rr)%string)
              with_meta (tbl_recording_redirect s) in
  map (fun row => fst (fst row))
      (filter (fun row => is_null (snd (fst row)) && is_null (snd row)) with_rr).

(** [load_latest_scraper_for_source]: ORDER BY version DESC LIMIT 1.  Among
    rows of equal version the store may answer any; this picks the first. *)
Definition latest (rows : list scraper_row) : option scraper_row :=
  fold_left (fun best r =>
               match best with
               | None => Some r
               | Some b => if sc_version b <? sc_version r then Some r else Some b
               end) rows None.

Definition load_latest_scraper_for_source (source : source_dict) (s : Store)
  : option scraper_dict :=
  latest (filter (fun r => sc_source_id r =? src_id source) (tbl_scraper s)).

(** *** Reachable stores *)

(** The calls of [data.py] that write to the store. *)
Inductive op :=
| AddToken (token : string) (admin : bool)
| RemoveToken (token : string)
| AddSource (name : string)
| AddRecordingMbids (mbids : list mbid)
| AddScraper (source : source_dict) (module mb_type : string) (version : Z)
    (description : string)
| AddItem (scraper : scraper_dict) (mbid : mbid) (data : Py.pyvalue)
| CheckMbidRedirect (query_mbid actual_mbid : mbid)
| CacheMusicbrainzMetadata (recording : recording_dict).

Section Reachability.
Variable uuid_parses : string -> bool.

(** The store a call leaves behind. *)
Definition run (o : op) (s : Store) : Store :=
  match o with
  | AddToken token admin => snd (add_token token admin s)
  | RemoveToken token => snd (remove_token uuid_parses token s)
  | AddSource name => snd (add_source name s)
  | AddRecordingMbids mbids => snd (add_recording_mbids mbids s)
  | AddScraper source module mb_type version description =>
      snd (add_scraper source module mb_type version description s)
  | AddItem scraper mbid data => snd (add_item scraper mbid data s)
  | CheckMbidRedirect q a => snd (musicbrainz_check_mbid_redirect q a s)
  | CacheMusicbrainzMetadata recording =>
      snd (cache_musicbrainz_metadata recording s)
  end.

(** The stores any sequence of calls leads to from [s]. *)
Inductive reachable_from (s : Store) : Store -> Prop :=
| reach_refl : reachable_from s s
| reach_step o s' : reachable_from s s' -> reachable_from s (run o s').

End Reachability.

End Data.

(** ** metadb/db.py *)

Module Db.

(** The DBAPI errors of [sqlalchemy.exc]. *)
Inductive error_class :=
| InterfaceError
| DataError
| OperationalError
| IntegrityError
| InternalError
| ProgrammingError
| NotSupportedError.

(** An exception the store raises: its class and [str(e)]. *)
Record store_error := { err_class : error_class; err_text : string }.

Definition is_ProgrammingError (e : store_error) : bool :=
  match err_class e with
  | ProgrammingError => true
  | _ => false
  end.

(** The line boundaries of [str.splitlines] among the code points below 256
    (a carriage return is handled apart, for [\r\n]). *)
Definition is_line_boundary (c : ascii) : bool :=
  let n := N_of_ascii c in
  ((n =? 10) || (n =? 11) || (n =? 12) || (n =? 28) || (n =? 29) || (n =? 30)
   || (n =? 133))%N.

Definition is_cr (c : ascii) : bool := (N_of_ascii c =? 13)%N.
Definition is_lf (c : ascii) : bool := (N_of_ascii c =? 10)%N.

(** [splitlines]: [cur] is the line read so far. *)
Fixpoint splitlines_from (s : string) (cur : string) : list string :=
  match s with
  | EmptyString => if (cur =? "")%string then [] else [cur]
  | String c s' =>
      if is_cr c then
        match s' with
        | String c2 s'' =>
            if is_lf c2 then cur :: splitlines_from s'' ""
            else cur :: splitlines_from s' ""
        | EmptyString => [cur]
        end
      else if is_line_boundary c then cur :: splitlines_from s' ""
      else splitlines_from s' (cur ++ String c "")
  end.

Definition splitlines (s : string) : list string := splitlines_from s "".

(** [line and not line.startswith("--")]. *)
Definition is_statement (line : string) : bool :=
  negb (line =? "")%string && negb (String.prefix "--" line).

Section Runner.
(** The backing store behind [engine.connect()], in autocommit mode: a
    statement changes it or raises. *)
Variable DB : Type.
Variable connection_execute : string -> DB -> store_error + DB.

(** The run of the [for] loop: the lines handed to [connection.execute], in
    order, the store they left, and the exception that ended the loop. *)
Record loop_run := {
  executed : list string;
  store_after : DB;
  raised : option store_error }.

Fixpoint run_lines (lines : list string) (done : list string) (d : DB)
  : loop_run :=
  match lines with
  | [] => {| executed := done; store_after := d; raised := None |}
  | line :: rest =>
      if is_statement line then
        match connection_execute line d with
        | inr d' => run_lines rest (done ++ [line])%list d'
        | inl e => {| executed := (done ++ [line])%list; store_after := d;
                      raised := Some e |}
        end
      else run_lines rest done d
  end.

(** How the call ends for its caller. *)
Inductive ending :=
| Returns (b : bool)
| Propagates (e : store_error).

(** Everything a call of [run_sql_script_without_transaction] does: the
    loop's run, what it printed, the isolation level and the open flag the
    [finally] clause leaves on the connection, and how it ends. *)
Record script_run := {
  loop : loop_run;
  printed : list string;
  isolation_level : Z;
  connection_open : bool;
  result : ending }.

(** [sql] is what [sql.read()] gives for the file at [sql_file_path]. *)
Definition run_sql_script_without_transaction (sql : string) (d : DB)
  : script_run :=
  let lines := splitlines sql in
  let r := run_lines lines [] d in
  match raised r with
  | Some e =>
      if is_ProgrammingError e then
        {| loop := r; printed := ["Error: " ++ err_text e];
           isolation_level := 1; connection_open := false;
           result := Returns false |}
      else
        {| loop := r; printed := []; isolation_level := 1;
           connection_open := false; result := Propagates e |}
  | None =>
      {| loop := r; printed := []; isolation_level := 1;
         connection_open := false; result := Returns true |}
  end.

End Runner.

Arguments executed {DB} _.
Arguments store_after {DB} _.
Arguments raised {DB} _.
Arguments loop {DB} _.
Arguments printed {DB} _.
Arguments isolation_level {DB} _.
Arguments connection_open {DB} _.
Arguments result {DB} _.
Arguments run_lines {DB} connection_execute lines done d.
Arguments run_sql_script_without_transaction {DB} connection_execute sql d.

End Db.

(** ** dump_unprocessed.py *)

Module DumpUnprocessed.
Import Sql Data.

(** [dict(r)] of a result row: column name to text. *)
Definition rowdict := list (string * string).

Definition dict_of_recording (r : unprocessed_recording) : rowdict :=
  [("mbid", ur_mbid r); ("name", ur_name r);
   ("artist_credit", ur_artist_credit r)].

Definition dict_of_release_group (r : unprocessed_release_group) : rowdict :=
  [("mbid", urg_mbid r); ("name", urg_name r);
   ("artist_credit", urg_artist_credit r);
   ("first_release_date", urg_first_release_date r)].

(** A file as [csv.DictWriter] fills it: the header row, then the records. *)
Record csv_file := {
  filename : string;
  header : list string;
  records : list (list string) }.

(** [rowdict.get(key, "")]. *)
Definition get (key : string) (d : rowdict) : string :=
  match find (fun kv => (fst kv =? key)%string) d with
  | Some kv => snd kv
  | None => ""
  end.

(** [DictWriter._dict_to_list]: a key outside [fieldnames] raises. *)
Definition dict_to_list (fieldnames : list string) (d : rowdict)
  : exn + list string :=
  if forallb (fun kv => existsb (String.eqb (fst kv)) fieldnames) d
  then inr (map (fun key => get key d) fieldnames)
  else inl (ValueError "dict contains fields not in fieldnames").

(** [writerows]: the rows written before a row raises stay written. *)
Fixpoint writerows (fieldnames : list string) (data : list rowdict)
  (written : list (list string)) : option exn * list (list string) :=
  match data with
  | [] => (None, written)
  | d :: rest =>
      match dict_to_list fieldnames d with
      | inl e => (Some e, written)
      | inr row => writerows fieldnames rest (written ++ [row])%list
      end
  end.

Definition dump_items (filename : string) (data : list rowdict)
  (keys : list string) : option exn * csv_file :=
  let w := writerows keys data [] in
  (fst w, {| filename := filename; header := keys; records := snd w |}).

Fixpoint chunks_fuel {A} (fuel : nat) (l : list A) (n : nat) : list (list A) :=
  match fuel with
  | O => []
  | S fuel' =>
      match l with
      | [] => []
      | _ => firstn n l :: chunks_fuel fuel' (skipn n l) n
      end
  end.

(** Modelled from the spec: [metadb.util.chunks] is not among the sources.
    The export splits its rows into consecutive chunks of at most [n] rows,
    in order, none of them empty. *)
Definition chunks {A} (l : list A) (n : nat) : list (list A) :=
  match n with
  | O => []
  | _ => chunks_fuel (List.length l) l n
  end.

(** The [for i, chunk in enumerate(..., 1)] loop. *)
Fixpoint dump_chunks (outname : string) (keys : list string) (i : Z)
  (cs : list (list rowdict)) : option exn * list csv_file :=
  match cs with
  | [] => (None, [])
  | chunk :: rest =>
      let filename := outname ++ "-" ++ Py.str_of_int i ++ ".csv" in
      match dump_items filename chunk keys with
      | (Some e, f) => (Some e, [f])
      | (None, f) =>
          let r := dump_chunks outname keys (i + 1) rest in
          (fst r, f :: snd r)
      end
  end.

(** [main], read with the colon that line 29 of the source lacks: as the
    file stands, [elif scraper["mb_type"] == "release_group"] ends without
    [:] and Python refuses the whole module with a [SyntaxError] before any
    of it runs.  [perfile] is the row limit as an integer; the files are
    listed in the order they are written. *)
Definition main (source_name outname : string) (perfile : option Z) (s : Store)
  : outcome unit * list csv_file :=
  match load_source source_name s with
  | None => (Raised (TypeError "'NoneType' object is not subscriptable"), [])
  | Some source =>
      match load_latest_scraper_for_source source s with
      | None => (Raised (TypeError "'NoneType' object is not subscriptable"), [])
      | Some scraper =>
          let bound :=
            if (sc_mb_type scraper =? "recording")%string then
              Some (["mbid"; "name"; "artist_credit"],
                    map dict_of_recording
                        (get_unprocessed_recordings_for_scraper scraper None s))
            else if (sc_mb_type scraper =? "release_group")%string then
              Some (["mbid"; "name"; "artist_credit"; "first_release_date"],
                    map dict_of_release_group
                        (get_unprocessed_release_groups_for_scraper scraper None s))
            else None in
          match bound with
          | None => (Raised (UnboundLocalError "data"), [])
          | Some (keys, data) =>
              let truthy :=
                match perfile with
                | None => false
                | Some n => negb (n =? 0)
                end in
              if truthy then
                let n := match perfile with Some n => n | None => 0 end in
                match dump_chunks outname keys 1 (chunks data (Z.to_nat n)) with
                | (Some e, files) => (Raised e, files)
                | (None, files) => (Returned tt, files)
                end
              else
                match dump_items (outname ++ ".csv") data keys with
                | (Some e, f) => (Raised e, [f])
                | (None, f) => (Returned tt, [f])
                end
          end
      end
  end.

End DumpUnprocessed.

(** ** metadb/data.py: the lookups *)

Module Lookups.
Import Sql Data.

Section Uuid.
(** [uuid.UUID(token, version=4)] returns (does not raise [ValueError]). *)
Variable uuid_parses : string -> bool.

(** [get_token]; [None] stands for the empty dictionary it returns for a
    malformed or unknown token. *)
Definition get_token (token : string) (s : Store) : option token_row :=
  if uuid_parses token then
    let result := filter (fun r => (tk_token r =? token)%string) (tbl_token s) in
    if negb (no_rows result) then fetchone result else None
  else None.

End Uuid.

Definition load_scrapers_for_source (source : source_dict) (s : Store)
  : list scraper_dict :=
  filter (fun r => sc_source_id r =? src_id source) (tbl_scraper s).

(** The dictionary [load_item] returns; [data] is [None] for an item without
    an [item_data] row.  The [added] stamp is the store's and is left out
    with the column. *)
Record item_dict := {
  item_id : Z; item_mbid : mbid; item_data : option Py.pyvalue }.

Section Column.
(** What a SELECT reads back from the column [item_data.data] for the value
    an INSERT bound to it.  The type of the column is the schema's, which is
    not among the sources: a text column gives a text back as it was
    written and a number as its digits, a JSON column gives back the value
    the text denotes. *)
Variable column_value : Py.pyvalue -> Py.pyvalue.

(** [load_item].  [load_source] answers [None] for an unknown name and
    [load_latest_scraper_for_source] then subscripts it; a source without
    scrapers gives the scraper [None], which [load_item] subscripts. *)
Definition load_item (mbid : mbid) (source_name : string) (s : Store)
  : outcome (option item_dict) :=
  match load_source source_name s with
  | None => Raised (TypeError "'NoneType' object is not subscriptable")
  | Some source =>
      match load_latest_scraper_for_source source s with
      | None => Raised (TypeError "'NoneType' object is not subscriptable")
      | Some scraper =>
          let joined :=
            left_join (fun i d => itd_item_id d =? it_id i)
                      (tbl_item s) (tbl_item_data s) in
          let rows :=
            filter (fun row => (it_mbid (fst row) =? mbid)%string
                               && (it_scraper_id (fst row) =? sc_id scraper))
                   joined in
          match fetchone rows with
          | Some row =>
              Returned (Some {| item_id := it_id (fst row);
                                item_mbid := it_mbid (fst row);
                                item_data :=
                                  option_map (fun d => column_value (itd_data d))
                                             (snd row) |})
          | None => Returned None
          end
      end
  end.

End Column.

Definition get_recording_meta (recording_mbid : mbid) (s : Store)
  : outcome (option recording_meta_row) * Store :=
  begin (_get_recording_meta recording_mbid) s.

(** [get_release_group_meta] reads on a plain connection. *)
Definition get_release_group_meta (release_group_mbid : mbid) (s : Store)
  : option release_group_meta_row :=
  fetchone (filter (fun r => (rgm_mbid r =? release_group_mbid)%string)
                   (tbl_release_group_meta s)).

Definition get_release_groups_for_recording (recording_mbid : mbid) (s : Store)
  : list mbid :=
  map lk_release_group_mbid
      (filter (fun l => (lk_recording_mbid l =? recording_mbid)%string)
              (tbl_recording_release_group s)).

End Lookups.

(** * Properties *)

Import Sql Data.
Local Open Scope conn_scope.

(** ** What the properties observe *)

(** The stored [recording_meta] rows of one mbid. *)
Definition recording_meta_rows (m : mbid) (s : Store) : list recording_meta_row :=
  filter (fun r => (rm_mbid r =? m)%string) (tbl_recording_meta s).

(** The stored [release_group_meta] rows of one mbid. *)
Definition release_group_meta_rows (m : mbid) (s : Store)
  : list release_group_meta_row :=
  filter (fun r => (rgm_mbid r =? m)%string) (tbl_release_group_meta s).

(** [s'] differs from [s] in the table [recording_meta] at most. *)
Definition only_recording_meta_changed (s s' : Store) : Prop :=
  s' = with_recording_meta (fun _ => tbl_recording_meta s') s.

(** [m] leaves the part [proj] of the store as it found it. *)
Definition unchanged {T A} (proj : Store -> T) (m : Conn A) : Prop :=
  forall s a s', m s = inr (a, s') -> proj s' = proj s.

(** [m] keeps the store inside [I]. *)
Definition keeps {A} (I : Store -> Prop) (m : Conn A) : Prop :=
  forall s a s', I s -> m s = inr (a, s') -> I s'.

(** Every [release_group_meta] row has its [release_group] identity row. *)
Definition release_group_identities_present (s : Store) : Prop :=
  forall row, In row (tbl_release_group_meta s) ->
              In (rgm_mbid row) (tbl_release_group s).

(** The [item] rows of one scraper and one mbid. *)
Definition item_rows (scraper : scraper_dict) (m : mbid) (s : Store) : list item_row :=
  filter (fun i => (it_mbid i =? m)%string && (it_scraper_id i =? sc_id scraper))
         (tbl_item s).

(** A payload with nothing in it: [None], the empty text, the empty list and
    the empty dictionary. *)
Definition empty_payload (data : Py.pyvalue) : bool :=
  match data with
  | Py.PyNone | Py.PyStr EmptyString | Py.PyList [] | Py.PyDict [] => true
  | _ => false
  end.

(** [sub] occurs in [text]. *)
Definition occurs_in (sub text : string) : Prop :=
  exists before after, text = (before ++ sub ++ after)%string.

(** The row dictionary [d] carries no key outside [keys]. *)
Definition declared (keys : list string) (d : DumpUnprocessed.rowdict) : Prop :=
  forallb (fun kv => existsb (String.eqb (fst kv)) keys) d = true.

(** The record [csv.DictWriter] writes for [d]. *)
Definition record_of (keys : list string) (d : DumpUnprocessed.rowdict)
  : list string :=
  map (fun key => DumpUnprocessed.get key d) keys.

(** The files the export loop writes for a list of chunks, numbered from [i]. *)
Fixpoint files_of (outname : string) (keys : list string) (i : Z)
  (cs : list (list DumpUnprocessed.rowdict)) : list DumpUnprocessed.csv_file :=
  match cs with
  | [] => []
  | chunk :: rest =>
      {| DumpUnprocessed.filename := outname ++ "-" ++ Py.str_of_int i ++ ".csv";
         DumpUnprocessed.header := keys;
         DumpUnprocessed.records := map (record_of keys) chunk |}
      :: files_of outname keys (i + 1) rest
  end.

(** ** Sample stores and calls *)

(** A store holding one recording with metadata stamped 10, and three
    updates of it: a newer one, an older one, and one of another mbid. *)
Definition sample_row : recording_meta_row :=
  {| rm_mbid := "r1"; rm_name := "Old"; rm_artist_credit := "Artist";
     rm_last_updated := 10 |}.
Definition sample_store : Store :=
  with_recording (fun _ => ["r1"])
    (with_recording_meta (fun _ => [sample_row]) empty_store).
Definition sample_newer : recording_dict :=
  {| rec_mbid := "r1"; rec_name := "New"; rec_artist_credit := "Artist2";
     rec_last_updated := 20; rec_release_group_map := [] |}.
Definition sample_older : recording_dict :=
  {| rec_mbid := "r1"; rec_name := "Older"; rec_artist_credit := "Artist0";
     rec_last_updated := 5; rec_release_group_map := [] |}.
Definition sample_other : recording_dict :=
  {| rec_mbid := "r2"; rec_name := "Two"; rec_artist_credit := "Artist";
     rec_last_updated := 1; rec_release_group_map := [] |}.

Definition queue_store : Store :=
  with_recording (fun _ => ["a"])
    (with_recording_meta
       (fun _ => [{| rm_mbid := "a"; rm_name := "Song"; rm_artist_credit := "Band";
                     rm_last_updated := 1 |}]) empty_store).
Definition queue_scraper : scraper_dict :=
  {| sc_id := 1; sc_source_id := 1; sc_module := "mod"; sc_mb_type := "recording";
     sc_version := 1; sc_description := "" |}.


Definition sample_release_group : release_group_dict :=
  {| rg_mbid := "g1"; rg_name := "Album"; rg_artist_credit := "Band";
     rg_first_release_date := "1999-01-02"; rg_last_updated := 7 |}.
Definition sample_release_group_older : release_group_dict :=
  {| rg_mbid := "g1"; rg_name := "Album (old)"; rg_artist_credit := "Band";
     rg_first_release_date := "1999"; rg_last_updated := 3 |}.
Definition sample_with_groups : recording_dict :=
  {| rec_mbid := "a"; rec_name := "Song"; rec_artist_credit := "Band";
     rec_last_updated := 2;
     rec_release_group_map := [("g1", sample_release_group)] |}.
Definition release_group_store : Store :=
  snd (cache_musicbrainz_metadata sample_with_groups empty_store).

Definition sample_datetime : Py.datetime :=
  {| Py.year := 2017; Py.month := 3; Py.day := 4; Py.hour := 5; Py.minute := 6;
     Py.second := 7; Py.microsecond := 0; Py.tzinfo := Some 0 |}.
Definition sample_payload : Py.pyvalue :=
  Py.PyDict [("title", Py.PyStr "Song"); ("fetched", Py.PyDatetime sample_datetime)].

(** A store that logs the statements it accepts, refuses every INSERT with
    an integrity error and every line it cannot parse with a programming
    error. *)
Definition picky_execute (line : string) (d : list string)
  : Db.store_error + list string :=
  if String.prefix "INSERT" line then
    inl {| Db.err_class := Db.IntegrityError;
           Db.err_text := "duplicate key value violates unique constraint" |}
  else if String.prefix "CREATE" line then inr (d ++ [line])%list
  else inl {| Db.err_class := Db.ProgrammingError;
              Db.err_text := "syntax error at or near " ++ line |}.

Definition newline : string := String (ascii_of_nat 10) "".

Definition script_with_insert : string :=
  "-- setup" ++ newline ++ "CREATE EXTENSION cube;" ++ newline ++ newline
  ++ "INSERT INTO source (name) VALUES (1);" ++ newline
  ++ "CREATE TABLE late (id INT);".

Definition script_with_typo : string :=
  "CREATE EXTENSION cube;" ++ newline ++ "CREATE EXTENSION cube;" ++ newline
  ++ "CRAETE TABLE t (id INT);" ++ newline ++ "CREATE TABLE late (id INT);".

Definition second_scraper : scraper_dict :=
  {| sc_id := 2; sc_source_id := 1; sc_module := "mod"; sc_mb_type := "recording";
     sc_version := 2; sc_description := "" |}.

(** A payload that counts as false: [None], [False], the number zero, the
    empty text, the empty list and the empty dictionary. *)
Definition falsy_payload (data : Py.pyvalue) : bool :=
  match data with
  | Py.PyNone | Py.PyBool false | Py.PyInt 0 | Py.PyStr EmptyString
  | Py.PyList [] | Py.PyDict [] => true
  | _ => false
  end.

(** [text] between two double quotes. *)
Definition quoted (text : string) : string :=
  String "034" (text ++ String "034" "").

(** A payload whose JSON text needs every kind of literal: a text with a
    double quote, a backslash and a line feed in it, [None], a boolean and a
    negative number. *)
Definition escaped_payload : Py.pyvalue :=
  Py.PyList [Py.PyStr ("a" ++ String "034" ("b" ++ String "092" ("c" ++ String "010" "d")));
             Py.PyNone; Py.PyBool true; Py.PyInt (-3)].

(** A column of type text, as far as the samples go: a text is read back as
    it was written and a number as its digits. *)
Definition text_column (v : Py.pyvalue) : Py.pyvalue :=
  match v with
  | Py.PyInt n => Py.PyStr (Py.str_of_int n)
  | _ => v
  end.

(** The registry the item samples are recorded under: the source
    [musicbrainz] with one scraper. *)
Definition item_store : Store :=
  snd (add_scraper {| src_id := 1; src_name := "musicbrainz" |} "mod" "recording" 1 ""
         (snd (add_source "musicbrainz" queue_store))).

(** ** Well-formed stores *)

(** [proj] reads none of the tables the call [o] writes. *)
Definition ignores {T} (proj : Store -> T) (o : op) : Prop :=
  match o with
  | AddToken _ _ | RemoveToken _ =>
      forall f s, proj (with_token f s) = proj s
  | AddSource _ =>
      forall f id s, proj (with_source f id s) = proj s
  | AddRecordingMbids _ =>
      forall f s, proj (with_recording f s) = proj s
  | AddScraper _ _ _ _ _ =>
      forall f id s, proj (with_scraper f id s) = proj s
  | AddItem _ _ _ =>
      (forall f id s, proj (with_item f id s) = proj s)
      /\ (forall f s, proj (with_item_data f s) = proj s)
  | CheckMbidRedirect _ _ =>
      (forall f s, proj (with_recording f s) = proj s)
      /\ (forall f s, proj (with_recording_redirect f s) = proj s)
  | CacheMusicbrainzMetadata _ =>
      (forall f s, proj (with_recording_meta f s) = proj s)
      /\ (forall f s, proj (with_release_group f s) = proj s)
      /\ (forall f s, proj (with_release_group_meta f s) = proj s)
      /\ (forall f s, proj (with_recording_release_group f s) = proj s)
  end.

(** The identity tables: no recording twice, no redirect pair twice, no
    redirect of an mbid to itself, every redirect target a known recording. *)
Definition identities_well_formed (s : Store) : Prop :=
  NoDup (tbl_recording s)
  /\ NoDup (tbl_recording_redirect s)
  /\ (forall r, In r (tbl_recording_redirect s) ->
        rr_mbid r <> rr_new_mbid r /\ In (rr_new_mbid r) (tbl_recording s)).

(** The metadata tables: one row per mbid, and the release-group identities
    are the mbids of the release-group metadata, row for row. *)
Definition metadata_well_formed (s : Store) : Prop :=
  NoDup (map rm_mbid (tbl_recording_meta s))
  /\ NoDup (map rgm_mbid (tbl_release_group_meta s))
  /\ tbl_release_group s = map rgm_mbid (tbl_release_group_meta s).

(** The item ledger: one item per scraper and mbid, ids drawn from the
    sequence and never reused, at most one payload per item, every payload
    attached to an item and none of them empty. *)
Definition ledger_well_formed (s : Store) : Prop :=
  NoDup (map (fun i => (it_scraper_id i, it_mbid i)) (tbl_item s))
  /\ NoDup (map it_id (tbl_item s))
  /\ 0 <= seq_item_id s
  /\ (forall i, In i (tbl_item s) -> 0 < it_id i <= seq_item_id s)
  /\ NoDup (map itd_item_id (tbl_item_data s))
  /\ (forall d, In d (tbl_item_data s) ->
        Py.truthy (itd_data d) = true
        /\ exists i, In i (tbl_item s) /\ it_id i = itd_item_id d).

(** The registry: source and scraper ids drawn from their sequences and
    never reused, every scraper of a supported kind. *)
Definition registry_well_formed (s : Store) : Prop :=
  NoDup (map src_id (tbl_source s))
  /\ 0 <= seq_source_id s
  /\ (forall r, In r (tbl_source s) -> 0 < src_id r <= seq_source_id s)
  /\ NoDup (map sc_id (tbl_scraper s))
  /\ 0 <= seq_scraper_id s
  /\ (forall r, In r (tbl_scraper s) ->
        0 < sc_id r <= seq_scraper_id s
        /\ (sc_mb_type r = "recording" \/ sc_mb_type r = "release_group")).

(** The association table: no link twice. *)
Definition associations_well_formed (s : Store) : Prop :=
  NoDup (tbl_recording_release_group s).

(** The first stored [recording_meta] row of [m] is stamped [t] or later. *)
Definition recording_meta_at_least (m : mbid) (t : timestamp) (s : Store) : Prop :=
  exists row rest, recording_meta_rows m s = row :: rest
                   /\ t <= rm_last_updated row.

(** The first stored [release_group_meta] row of [m] is stamped [t] or later. *)
Definition release_group_meta_at_least (m : mbid) (t : timestamp) (s : Store)
  : Prop :=
  exists row rest, release_group_meta_rows m s = row :: rest
                   /\ t <= rgm_last_updated row.

(** The recording [r] is linked to the release group [g]. *)
Definition linked (r g : mbid) (s : Store) : Prop :=
  In {| lk_recording_mbid := r; lk_release_group_mbid := g |}
     (tbl_recording_release_group s).

(** The table [proj] of [s'] is that of [s] with rows appended. *)
Definition grows {T} (proj : Store -> list T) (s s' : Store) : Prop :=
  exists extra, proj s' = (proj s ++ extra)%list.

(** The release group [rg'] says nothing newer than one of [rgs] does. *)
Definition covered (rgs : list release_group_dict) (rg' : release_group_dict)
  : Prop :=
  exists rg, In rg rgs /\ rg_mbid rg' = rg_mbid rg
             /\ rg_last_updated rg' <= rg_last_updated rg.

(** From [s] to [s'] nothing but tokens was lost: the identity, registry,
    link and item tables only had rows appended, and the stored metadata of
    an mbid is still there and stamped no earlier. *)
Definition nothing_lost (s s' : Store) : Prop :=
  grows tbl_source s s'
  /\ grows tbl_scraper s s'
  /\ grows tbl_recording s s'
  /\ grows tbl_recording_redirect s s'
  /\ grows tbl_release_group s s'
  /\ grows tbl_recording_release_group s s'
  /\ grows tbl_item s s'
  /\ grows tbl_item_data s s'
  /\ (forall m t, recording_meta_at_least m t s -> recording_meta_at_least m t s')
  /\ (forall m t, release_group_meta_at_least m t s ->
                  release_group_meta_at_least m t s').

(** ** Metadata reconciliation *)

Lemma filter_app_one {A} (p : A -> bool) (l : list A) (x : A) :
  filter p (l ++ [x])%list = (filter p l ++ (if p x then [x] else []))%list.
Proof.
  rewrite filter_app. simpl. destruct (p x); reflexivity.
Qed.

Lemma update_recording_meta_hit (recording : recording_dict) (r : recording_meta_row) :
  rm_mbid r = rec_mbid recording ->
  update_recording_meta recording r = recording_meta_of recording.
Proof.
  intros E. unfold update_recording_meta, recording_meta_of.
  rewrite E, String.eqb_refl. reflexivity.
Qed.

Lemma update_recording_meta_miss (recording : recording_dict) (r : recording_meta_row) :
  rm_mbid r <> rec_mbid recording ->
  update_recording_meta recording r = r.
Proof.
  intros N. unfold update_recording_meta.
  destruct (String.eqb_spec (rm_mbid r) (rec_mbid recording)); [contradiction | reflexivity].
Qed.

Lemma rows_after_update_same (recording : recording_dict) (t : list recording_meta_row) :
  filter (fun r => (rm_mbid r =? rec_mbid recording)%string)
         (map (update_recording_meta recording) t)
  = map (fun _ => recording_meta_of recording)
        (filter (fun r => (rm_mbid r =? rec_mbid recording)%string) t).
Proof.
  induction t as [|r t IH]; simpl; [reflexivity|].
  destruct (String.eqb_spec (rm_mbid r) (rec_mbid recording)) as [E|N].
  - rewrite (update_recording_meta_hit _ _ E). simpl.
    rewrite String.eqb_refl, IH. reflexivity.
  - rewrite (update_recording_meta_miss _ _ N).
    destruct (String.eqb_spec (rm_mbid r) (rec_mbid recording)); [contradiction | exact IH].
Qed.

Lemma rows_after_update_other (recording : recording_dict) (m : mbid)
  (t : list recording_meta_row) :
  m <> rec_mbid recording ->
  filter (fun r => (rm_mbid r =? m)%string) (map (update_recording_meta recording) t)
  = filter (fun r => (rm_mbid r =? m)%string) t.
Proof.
  intros Hm. induction t as [|r t IH]; simpl; [reflexivity|].
  destruct (String.eqb_spec (rm_mbid r) (rec_mbid recording)) as [E|N].
  - rewrite (update_recording_meta_hit _ _ E). simpl.
    destruct (String.eqb_spec (rec_mbid recording) m) as [E'|_]; [congruence|].
    destruct (String.eqb_spec (rm_mbid r) m) as [E'|_]; [congruence | exact IH].
  - rewrite (update_recording_meta_miss _ _ N), IH. reflexivity.
Qed.

(** A stale or duplicate recording update leaves the connection as it was. *)
Lemma add_recording_meta_stale (recording : recording_dict) (s : Store)
  (existing : recording_meta_row) (rest : list recording_meta_row) :
  recording_meta_rows (rec_mbid recording) s = existing :: rest ->
  rec_last_updated recording <= rm_last_updated existing ->
  _add_recording_meta recording s = inr (tt, s).
Proof.
  intros Hrows Hle.
  unfold _add_recording_meta, _get_recording_meta, bind, query.
  unfold recording_meta_rows in Hrows. rewrite Hrows. simpl.
  destruct (Z.geb_spec (rm_last_updated existing) (rec_last_updated recording));
    [reflexivity | lia].
Qed.

(** After any recording upsert the first stored row of the mbid is at least
    as new as the update. *)
Lemma add_recording_meta_stored (recording : recording_dict) (s : Store) :
  exists s' row rest,
    _add_recording_meta recording s = inr (tt, s')
    /\ recording_meta_rows (rec_mbid recording) s' = row :: rest
    /\ rec_last_updated recording <= rm_last_updated row.
Proof.
  unfold _add_recording_meta, _get_recording_meta, bind, query, recording_meta_rows.
  destruct (filter _ (tbl_recording_meta s)) as [|e rest] eqn:Hrows; simpl.
  - eexists _, _, _. split; [reflexivity|]. simpl.
    rewrite filter_app_one, Hrows. simpl. rewrite String.eqb_refl.
    split; [reflexivity | simpl; lia].
  - destruct (Z.geb_spec (rm_last_updated e) (rec_last_updated recording)).
    + eexists _, _, _. split; [reflexivity|]. split; [exact Hrows | lia].
    + eexists _, _, _. split; [reflexivity|]. simpl.
      rewrite rows_after_update_same, Hrows. simpl.
      split; [reflexivity | simpl; lia].
Qed.

(** C1: a recording-meta upsert inserts the record when the mbid has no
    stored row; leaves the store untouched, without raising, when the stored
    row is as new as the record or newer; and otherwise overwrites name,
    artist_credit and last_updated of the mbid's stored rows, every other
    row and table staying as it was. *)
Theorem add_recording_meta_upsert (recording : recording_dict) (s : Store) :
  (recording_meta_rows (rec_mbid recording) s = [] ->
   _add_recording_meta recording s
   = inr (tt, with_recording_meta
                (fun t => t ++ [{| rm_mbid := rec_mbid recording;
                                   rm_name := rec_name recording;
                                   rm_artist_credit := rec_artist_credit recording;
                                   rm_last_updated := rec_last_updated recording |}])%list
                s))
  /\ (forall existing rest,
        recording_meta_rows (rec_mbid recording) s = existing :: rest ->
        rm_last_updated existing >= rec_last_updated recording ->
        _add_recording_meta recording s = inr (tt, s))
  /\ (forall existing rest,
        recording_meta_rows (rec_mbid recording) s = existing :: rest ->
        rm_last_updated existing < rec_last_updated recording ->
        exists s',
          _add_recording_meta recording s = inr (tt, s')
          /\ only_recording_meta_changed s s'
          /\ List.length (tbl_recording_meta s') = List.length (tbl_recording_meta s)
          /\ recording_meta_rows (rec_mbid recording) s'
             = map (fun _ => {| rm_mbid := rec_mbid recording;
                                rm_name := rec_name recording;
                                rm_artist_credit := rec_artist_credit recording;
                                rm_last_updated := rec_last_updated recording |})
                   (existing :: rest)
          /\ (forall m, m <> rec_mbid recording ->
                recording_meta_rows m s' = recording_meta_rows m s)).
Proof.
  split; [|split].
  - intros Hrows.
    unfold _add_recording_meta, _get_recording_meta, bind, query.
    unfold recording_meta_rows in Hrows. rewrite Hrows. reflexivity.
  - intros existing rest Hrows Hge.
    apply (add_recording_meta_stale recording s existing rest Hrows). lia.
  - intros existing rest Hrows Hlt.
    exists (with_recording_meta (map (update_recording_meta recording)) s).
    split.
    + unfold _add_recording_meta, _get_recording_meta, bind, query.
      unfold recording_meta_rows in Hrows. rewrite Hrows. simpl.
      destruct (Z.geb_spec (rm_last_updated existing) (rec_last_updated recording));
        [lia | reflexivity].
    + split; [destruct s; reflexivity|].
      split; [simpl; apply length_map|].
      split.
      * unfold recording_meta_rows in *. simpl.
        rewrite rows_after_update_same, Hrows. reflexivity.
      * intros m Hm. unfold recording_meta_rows. simpl.
        apply rows_after_update_other; assumption.
Qed.

Lemma update_release_group_meta_hit (release_group : release_group_dict)
  (r : release_group_meta_row) :
  rgm_mbid r = rg_mbid release_group ->
  update_release_group_meta release_group r = release_group_meta_of release_group.
Proof.
  intros E. unfold update_release_group_meta, release_group_meta_of.
  rewrite E, String.eqb_refl. reflexivity.
Qed.

Lemma update_release_group_meta_miss (release_group : release_group_dict)
  (r : release_group_meta_row) :
  rgm_mbid r <> rg_mbid release_group ->
  update_release_group_meta release_group r = r.
Proof.
  intros N. unfold update_release_group_meta.
  destruct (String.eqb_spec (rgm_mbid r) (rg_mbid release_group));
    [contradiction | reflexivity].
Qed.

Lemma release_group_rows_after_update (release_group : release_group_dict)
  (t : list release_group_meta_row) :
  filter (fun r => (rgm_mbid r =? rg_mbid release_group)%string)
         (map (update_release_group_meta release_group) t)
  = map (fun _ => release_group_meta_of release_group)
        (filter (fun r => (rgm_mbid r =? rg_mbid release_group)%string) t).
Proof.
  induction t as [|r t IH]; simpl; [reflexivity|].
  destruct (String.eqb_spec (rgm_mbid r) (rg_mbid release_group)) as [E|N].
  - rewrite (update_release_group_meta_hit _ _ E). simpl.
    rewrite String.eqb_refl, IH. reflexivity.
  - rewrite (update_release_group_meta_miss _ _ N).
    destruct (String.eqb_spec (rgm_mbid r) (rg_mbid release_group));
      [contradiction | exact IH].
Qed.

Lemma add_release_group_meta_stale (release_group : release_group_dict) (s : Store)
  (existing : release_group_meta_row) (rest : list release_group_meta_row) :
  release_group_meta_rows (rg_mbid release_group) s = existing :: rest ->
  rg_last_updated release_group <= rgm_last_updated existing ->
  _add_release_group_meta release_group s = inr (tt, s).
Proof.
  intros Hrows Hle.
  unfold _add_release_group_meta, _get_release_group_meta, bind, query.
  unfold release_group_meta_rows in Hrows. rewrite Hrows. simpl.
  destruct (Z.geb_spec (rgm_last_updated existing) (rg_last_updated release_group));
    [reflexivity | lia].
Qed.

Lemma add_release_group_meta_stored (release_group : release_group_dict) (s : Store) :
  exists s' row rest,
    _add_release_group_meta release_group s = inr (tt, s')
    /\ release_group_meta_rows (rg_mbid release_group) s' = row :: rest
    /\ rg_last_updated release_group <= rgm_last_updated row.
Proof.
  unfold _add_release_group_meta, _get_release_group_meta, bind, query,
    release_group_meta_rows.
  destruct (filter _ (tbl_release_group_meta s)) as [|e rest] eqn:Hrows; simpl.
  - eexists _, _, _. split; [reflexivity|]. simpl.
    rewrite filter_app_one, Hrows. simpl. rewrite String.eqb_refl.
    split; [reflexivity | simpl; lia].
  - destruct (Z.geb_spec (rgm_last_updated e) (rg_last_updated release_group)).
    + eexists _, _, _. split; [reflexivity|]. split; [exact Hrows | lia].
    + eexists _, _, _. split; [reflexivity|]. simpl.
      rewrite release_group_rows_after_update, Hrows. simpl.
      split; [reflexivity | simpl; lia].
Qed.

(** C2: for one mbid, an upsert with the newer timestamp followed by one
    with an older timestamp leaves what the newer one alone leaves, and an
    upsert applied twice leaves what it leaves applied once; for recording
    metadata and for release-group metadata. *)
Theorem upsert_stale_rejection_and_idempotence :
  (forall (older newer : recording_dict) (s : Store),
      rec_mbid older = rec_mbid newer ->
      rec_last_updated older < rec_last_updated newer ->
      (_add_recording_meta newer ;; _add_recording_meta older) s
      = _add_recording_meta newer s)
  /\ (forall (recording : recording_dict) (s : Store),
        (_add_recording_meta recording ;; _add_recording_meta recording) s
        = _add_recording_meta recording s)
  /\ (forall (older newer : release_group_dict) (s : Store),
        rg_mbid older = rg_mbid newer ->
        rg_last_updated older < rg_last_updated newer ->
        (_add_release_group_meta newer ;; _add_release_group_meta older) s
        = _add_release_group_meta newer s)
  /\ (forall (release_group : release_group_dict) (s : Store),
        (_add_release_group_meta release_group ;;
         _add_release_group_meta release_group) s
        = _add_release_group_meta release_group s).
Proof.
  repeat split.
  - intros older newer s Hmbid Hlt.
    destruct (add_recording_meta_stored newer s) as (s' & row & rest & E & Hrows & Hle).
    unfold bind. rewrite E.
    apply (add_recording_meta_stale older s' row rest); [rewrite Hmbid; exact Hrows | lia].
  - intros recording s.
    destruct (add_recording_meta_stored recording s) as (s' & row & rest & E & Hrows & Hle).
    unfold bind. rewrite E.
    apply (add_recording_meta_stale recording s' row rest); assumption.
  - intros older newer s Hmbid Hlt.
    destruct (add_release_group_meta_stored newer s)
      as (s' & row & rest & E & Hrows & Hle).
    unfold bind. rewrite E.
    apply (add_release_group_meta_stale older s' row rest);
      [rewrite Hmbid; exact Hrows | lia].
  - intros release_group s.
    destruct (add_release_group_meta_stored release_group s)
      as (s' & row & rest & E & Hrows & Hle).
    unfold bind. rewrite E.
    apply (add_release_group_meta_stale release_group s' row rest); assumption.
Qed.

Lemma add_recording_meta_upsert_witness :
  _add_recording_meta sample_other sample_store
  = inr (tt, with_recording_meta
               (fun t => t ++ [{| rm_mbid := "r2"; rm_name := "Two";
                                  rm_artist_credit := "Artist";
                                  rm_last_updated := 1 |}])%list sample_store)
  /\ _add_recording_meta sample_older sample_store = inr (tt, sample_store)
  /\ exists s',
       _add_recording_meta sample_newer sample_store = inr (tt, s')
       /\ recording_meta_rows "r1" s'
          = [{| rm_mbid := "r1"; rm_name := "New"; rm_artist_credit := "Artist2";
                rm_last_updated := 20 |}].
Proof.
  split; [|split].
  - exact (proj1 (add_recording_meta_upsert sample_other sample_store) eq_refl).
  - apply (proj1 (proj2 (add_recording_meta_upsert sample_older sample_store))
             sample_row [] eq_refl).
    simpl; lia.
  - destruct (proj2 (proj2 (add_recording_meta_upsert sample_newer sample_store))
                sample_row [] eq_refl ltac:(simpl; lia))
      as (s' & E & _ & _ & Hrows & _).
    exists s'. split; assumption.
Defined.

Lemma upsert_stale_rejection_and_idempotence_witness :
  (_add_recording_meta sample_newer ;; _add_recording_meta sample_older) sample_store
  = _add_recording_meta sample_newer sample_store
  /\ (_add_release_group_meta sample_release_group ;;
      _add_release_group_meta sample_release_group_older) empty_store
     = _add_release_group_meta sample_release_group empty_store.
Proof.
  split.
  - apply (proj1 upsert_stale_rejection_and_idempotence sample_older sample_newer
             sample_store eq_refl).
    simpl; lia.
  - apply (proj1 (proj2 (proj2 upsert_stale_rejection_and_idempotence))
             sample_release_group_older sample_release_group empty_store eq_refl).
    simpl; lia.
Defined.

(** ** Frames and invariants along a connection *)

Section Frames.
Context {T : Type} (proj : Store -> T).

Lemma unchanged_ret {A} (a : A) : unchanged proj (ret a).
Proof. intros s a' s' H. inversion H. reflexivity. Qed.

Lemma unchanged_query {A} (q : Store -> A) : unchanged proj (query q).
Proof. intros s a' s' H. inversion H. reflexivity. Qed.

Lemma unchanged_execute (f : Store -> Store) :
  (forall s, proj (f s) = proj s) -> unchanged proj (execute f).
Proof. intros Hf s a' s' H. inversion H. apply Hf. Qed.

Lemma unchanged_bind {A B} (m : Conn A) (k : A -> Conn B) :
  unchanged proj m -> (forall a, unchanged proj (k a)) -> unchanged proj (bind m k).
Proof.
  intros Hm Hk s b s' H. unfold bind in H.
  destruct (m s) as [e|[a s1]] eqn:E; [discriminate|].
  rewrite (Hk a _ _ _ H). exact (Hm _ _ _ E).
Qed.

Lemma unchanged_begin {A} (m : Conn A) (s : Store) :
  unchanged proj m -> proj (snd (begin m s)) = proj s.
Proof.
  intros Hm. unfold begin.
  destruct (m s) as [e|[a s1]] eqn:E; simpl; [reflexivity|].
  exact (Hm _ _ _ E).
Qed.

End Frames.

Section Invariants.
Context (I : Store -> Prop).

Lemma keeps_ret {A} (a : A) : keeps I (ret a).
Proof. intros s a' s' Hs H. inversion H. subst. exact Hs. Qed.

Lemma keeps_query {A} (q : Store -> A) : keeps I (query q).
Proof. intros s a' s' Hs H. inversion H. subst. exact Hs. Qed.

Lemma keeps_execute (f : Store -> Store) :
  (forall s, I s -> I (f s)) -> keeps I (execute f).
Proof. intros Hf s a' s' Hs H. inversion H. subst. apply Hf, Hs. Qed.

Lemma keeps_bind {A B} (m : Conn A) (k : A -> Conn B) :
  keeps I m -> (forall a, keeps I (k a)) -> keeps I (bind m k).
Proof.
  intros Hm Hk s b s' Hs H. unfold bind in H.
  destruct (m s) as [e|[a s1]] eqn:E; [discriminate|].
  exact (Hk a _ _ _ (Hm _ _ _ Hs E) H).
Qed.

Lemma keeps_begin {A} (m : Conn A) (s : Store) :
  keeps I m -> I s -> I (snd (begin m s)).
Proof.
  intros Hm Hs. unfold begin.
  destruct (m s) as [e|[a s1]] eqn:E; simpl; [exact Hs|].
  exact (Hm _ _ _ Hs E).
Qed.

End Invariants.

(** Solves [unchanged proj m] for a body built from queries and statements
    that write other tables. *)
Ltac frame :=
  repeat first
    [ apply unchanged_ret
    | apply unchanged_query
    | apply unchanged_execute; intros ?; reflexivity
    | apply unchanged_bind; [|intros ?]
    | match goal with
      | |- unchanged _ (if ?b then _ else _) => destruct b
      | |- unchanged _ (match ?o with Some _ => _ | None => _ end) => destruct o
      | |- unchanged _ (fun _ => inr _) =>
          let H := fresh in intros ? ? ? H; inversion H; reflexivity
      end
    | assumption ].

Lemma add_recording_mbids_frame {T} (proj : Store -> T) (mbids : list mbid) :
  (forall f s, proj (with_recording f s) = proj s) ->
  unchanged proj (_add_recording_mbids mbids).
Proof.
  intros Hf. unfold _add_recording_mbids. generalize (@nil mbid) as acc.
  induction mbids as [|m rest IH]; intros acc; simpl.
  - apply unchanged_ret.
  - apply unchanged_bind; [apply unchanged_query|]. intros rows.
    destruct (no_rows rows); [|apply IH].
    apply unchanged_bind; [|intros ?; apply IH].
    apply unchanged_execute. intros s. apply Hf.
Qed.

Lemma add_recording_meta_frame {T} (proj : Store -> T) (recording : recording_dict) :
  (forall f s, proj (with_recording_meta f s) = proj s) ->
  unchanged proj (_add_recording_meta recording).
Proof.
  intros Hf. unfold _add_recording_meta, _get_recording_meta.
  apply unchanged_bind; [apply unchanged_query|]. intros [existing|].
  - destruct (_ >=? _); [apply unchanged_ret|].
    apply unchanged_execute. intros s. apply Hf.
  - apply unchanged_execute. intros s. apply Hf.
Qed.

Lemma add_release_group_meta_frame {T} (proj : Store -> T)
  (release_group : release_group_dict) :
  (forall f s, proj (with_release_group f s) = proj s) ->
  (forall f s, proj (with_release_group_meta f s) = proj s) ->
  unchanged proj (_add_release_group_meta release_group).
Proof.
  intros Hrg Hrgm. unfold _add_release_group_meta, _get_release_group_meta.
  apply unchanged_bind; [apply unchanged_query|]. intros [existing|].
  - destruct (_ >=? _); [apply unchanged_ret|].
    apply unchanged_execute. intros s. apply Hrgm.
  - apply unchanged_bind; [|intros ?]; apply unchanged_execute; intros s;
      [apply Hrg | apply Hrgm].
Qed.

Lemma add_link_frame {T} (proj : Store -> T) (r g : mbid) :
  (forall f s, proj (with_recording_release_group f s) = proj s) ->
  unchanged proj (_add_link_recording_release_group r g).
Proof.
  intros Hf. unfold _add_link_recording_release_group.
  apply unchanged_bind; [apply unchanged_query|]. intros rows.
  destruct (no_rows rows); [|apply unchanged_ret].
  apply unchanged_execute. intros s. apply Hf.
Qed.

Lemma cache_release_groups_frame {T} (proj : Store -> T) (r : mbid)
  (rgs : list release_group_dict) :
  (forall f s, proj (with_release_group f s) = proj s) ->
  (forall f s, proj (with_release_group_meta f s) = proj s) ->
  (forall f s, proj (with_recording_release_group f s) = proj s) ->
  unchanged proj (cache_release_groups r rgs).
Proof.
  intros Hrg Hrgm Hl. induction rgs as [|rg rest IH]; simpl.
  - apply unchanged_ret.
  - apply unchanged_bind; [apply add_release_group_meta_frame; assumption|].
    intros _. apply unchanged_bind; [apply add_link_frame; assumption|].
    intros _. exact IH.
Qed.

Lemma add_item_frame {T} (proj : Store -> T) (scraper : scraper_dict) (m : mbid)
  (data : Py.pyvalue) :
  (forall f id s, proj (with_item f id s) = proj s) ->
  (forall f s, proj (with_item_data f s) = proj s) ->
  unchanged proj (_add_item_w_connection scraper m data).
Proof.
  intros Hi Hd. unfold _add_item_w_connection.
  apply unchanged_bind; [apply unchanged_query|]. intros rows.
  destruct (no_rows rows); [|apply unchanged_ret].
  apply unchanged_bind.
  - intros s a s' H. unfold insert_item in H. inversion H. apply Hi.
  - intros row. apply unchanged_bind; [|intros ?; apply unchanged_ret].
    destruct (Py.truthy data); [|apply unchanged_ret].
    apply unchanged_execute. intros s. apply Hd.
Qed.

(** No call of [data.py] removes or rewrites a redirect row. *)
Lemma run_keeps_redirects (uuid_parses : string -> bool) (o : op) (s : Store)
  (r : redirect_row) :
  In r (tbl_recording_redirect s) ->
  In r (tbl_recording_redirect (run uuid_parses o s)).
Proof.
  intros Hr. destruct o; cbn [run].
  - unfold add_token. rewrite (unchanged_begin tbl_recording_redirect); [exact Hr | frame].
  - unfold remove_token. destruct (uuid_parses token); [|exact Hr].
    rewrite (unchanged_begin tbl_recording_redirect); [exact Hr | frame].
  - unfold add_source. rewrite (unchanged_begin tbl_recording_redirect); [exact Hr | frame].
  - unfold add_recording_mbids.
    rewrite (unchanged_begin tbl_recording_redirect); [exact Hr | apply add_recording_mbids_frame; reflexivity].
  - unfold add_scraper. destruct (negb _); [exact Hr|].
    rewrite (unchanged_begin tbl_recording_redirect); [exact Hr | frame].
  - unfold add_item.
    rewrite (unchanged_begin tbl_recording_redirect); [exact Hr | apply add_item_frame; reflexivity].
  - unfold musicbrainz_check_mbid_redirect.
    destruct (query_mbid =? actual_mbid)%string; [exact Hr|].
    apply (keeps_begin (fun s => In r (tbl_recording_redirect s))); [|exact Hr].
    apply keeps_bind; [apply keeps_query|]. intros rows.
    destruct (no_rows rows); [|apply keeps_ret].
    apply keeps_bind.
    + intros s0 a s' H0 H.
      rewrite (add_recording_mbids_frame tbl_recording_redirect [actual_mbid]
                 ltac:(reflexivity) _ _ _ H).
      exact H0.
    + intros _. apply keeps_execute. intros s0 H0. simpl.
      apply in_or_app. left. exact H0.
  - unfold cache_musicbrainz_metadata. rewrite (unchanged_begin tbl_recording_redirect); [exact Hr|].
    apply unchanged_bind; [apply add_recording_meta_frame; reflexivity|].
    intros _. apply cache_release_groups_frame; reflexivity.
Qed.

Lemma reachable_keeps_redirects (uuid_parses : string -> bool) (s s' : Store)
  (r : redirect_row) :
  reachable_from uuid_parses s s' ->
  In r (tbl_recording_redirect s) -> In r (tbl_recording_redirect s').
Proof.
  intros Hreach Hr. induction Hreach as [|o s' _ IH]; [exact Hr|].
  apply run_keeps_redirects, IH.
Qed.

Lemma filter_nil_iff {A} (p : A -> bool) (l : list A) :
  filter p l = [] <-> forall x, In x l -> p x = false.
Proof.
  induction l as [|a l IH]; simpl.
  - split; [intros _ x [] | reflexivity].
  - destruct (p a) eqn:E; split.
    + discriminate.
    + intros H. rewrite (H a (or_introl eq_refl)) in E. discriminate.
    + intros H x [<-|Hx]; [exact E | apply IH; assumption].
    + intros H. apply IH. intros x Hx. apply H. right. exact Hx.
Qed.

Lemma in_inner_join {A B} (on : A -> B -> bool) (l : list A) (r : list B)
  (a : A) (b : B) :
  In (a, b) (inner_join on l r) <-> In a l /\ In b r /\ on a b = true.
Proof.
  unfold inner_join. rewrite in_flat_map. split.
  - intros (a' & Ha' & Hin). apply in_map_iff in Hin as (b' & E & Hb').
    inversion E; subst. apply filter_In in Hb'. tauto.
  - intros (Ha & Hb & Hon). exists a. split; [exact Ha|].
    apply in_map. apply filter_In. tauto.
Qed.

Lemma in_left_join_null {A B} (on : A -> B -> bool) (l : list A) (r : list B)
  (a : A) :
  In (a, None) (left_join on l r)
  <-> In a l /\ forall b, In b r -> on a b = false.
Proof.
  unfold left_join. rewrite in_flat_map. split.
  - intros (a' & Ha' & Hin).
    destruct (filter (on a') r) as [|b0 ms] eqn:E.
    + destruct Hin as [Heq|[]]. inversion Heq; subst.
      split; [exact Ha' | apply filter_nil_iff; exact E].
    + apply in_map_iff in Hin as (b' & Heq & _). discriminate.
  - intros (Ha & Hnone). exists a. split; [exact Ha|].
    apply filter_nil_iff in Hnone. rewrite Hnone. left. reflexivity.
Qed.

(** What a row of the work queue says about the store: its mbid is a known
    recording with metadata, no redirect row has it as source, and the
    scraper has no item for it. *)
Lemma unprocessed_recording_inv (scraper : scraper_dict) (wanted : option mbid)
  (s : Store) (x : unprocessed_recording) :
  In x (get_unprocessed_recordings_for_scraper scraper wanted s) ->
  In (ur_mbid x) (tbl_recording s)
  /\ (exists m, In m (tbl_recording_meta s) /\ rm_mbid m = ur_mbid x)
  /\ (forall rr, In rr (tbl_recording_redirect s) -> rr_mbid rr <> ur_mbid x)
  /\ (forall it, In it (tbl_item s) ->
        ~ (it_mbid it = ur_mbid x /\ it_scraper_id it = sc_id scraper)).
Proof.
  unfold get_unprocessed_recordings_for_scraper. intros Hx.
  apply in_map_iff in Hx as ([[[r m] orr] oit] & <- & Hrow). simpl.
  apply filter_In in Hrow as [Hrow Hwhere]. simpl in Hwhere.
  apply andb_prop in Hwhere as [Hwhere _].
  apply andb_prop in Hwhere as [Hit Hrr].
  destruct oit as [it|]; [discriminate|]. destruct orr as [rr|]; [discriminate|].
  apply in_left_join_null in Hrow as [Hrow Hitems]. simpl in Hitems.
  apply in_left_join_null in Hrow as [Hrow Hredirects]. simpl in Hredirects.
  apply in_inner_join in Hrow as (Hr & Hm & Hon).
  apply String.eqb_eq in Hon.
  repeat split.
  - exact Hr.
  - exists m. split; [exact Hm | symmetry; exact Hon].
  - intros rr Hin E. specialize (Hredirects rr Hin).
    rewrite E, String.eqb_refl in Hredirects. discriminate.
  - intros it Hin [E1 E2]. specialize (Hitems it Hin).
    rewrite E1, E2, String.eqb_refl, Z.eqb_refl in Hitems. discriminate.
Qed.

(** After [musicbrainz_check_mbid_redirect(A, B)] with [A <> B] the store
    holds a redirect row whose source is [A]. *)
Lemma redirect_recorded (A B : mbid) (s : Store) :
  A <> B ->
  exists r, In r (tbl_recording_redirect (snd (musicbrainz_check_mbid_redirect A B s)))
            /\ rr_mbid r = A /\ rr_new_mbid r = B.
Proof.
  intros Hne. unfold musicbrainz_check_mbid_redirect.
  destruct (String.eqb_spec A B) as [E|_]; [contradiction|].
  unfold begin, bind, query.
  destruct (filter _ (tbl_recording_redirect s)) as [|r0 rows] eqn:Hrows.
  - cbn [no_rows rowcount List.length Nat.eqb].
    unfold _add_recording_mbids, add_recording_mbids_loop, bind, query, execute, ret.
    destruct (no_rows _); simpl;
      (eexists; split; [apply in_or_app; right; left; reflexivity | split; reflexivity]).
  - cbn [no_rows rowcount List.length Nat.eqb ret snd].
    assert (Hin : In r0 (filter (fun r => (rr_mbid r =? A)%string
                                          && (rr_new_mbid r =? B)%string)
                                (tbl_recording_redirect s)))
      by (rewrite Hrows; left; reflexivity).
    apply filter_In in Hin as [Hin Hmatch].
    apply andb_prop in Hmatch as [H1 H2].
    apply String.eqb_eq in H1, H2.
    exists r0. repeat split; assumption.
Qed.

(** C3: once [musicbrainz_check_mbid_redirect(A, B)] has run for distinct
    [A] and [B], no store reachable afterwards lists [A] in the unprocessed
    recordings of any scraper, with or without an mbid filter, whatever
    items exist for [B]. *)
Theorem redirected_mbid_never_unprocessed (uuid_parses : string -> bool)
  (A B : mbid) (s s' : Store) (scraper : scraper_dict) (wanted : option mbid) :
  A <> B ->
  reachable_from uuid_parses (snd (musicbrainz_check_mbid_redirect A B s)) s' ->
  ~ In A (map ur_mbid (get_unprocessed_recordings_for_scraper scraper wanted s')).
Proof.
  intros Hne Hreach Hin.
  destruct (redirect_recorded A B s Hne) as (r & Hr & HA & _).
  apply (reachable_keeps_redirects uuid_parses _ _ r Hreach) in Hr.
  apply in_map_iff in Hin as (x & Hx & Hrow).
  apply unprocessed_recording_inv in Hrow as (_ & _ & Hnone & _).
  apply (Hnone r Hr). congruence.
Qed.

(** Before any redirect the sample recording is in the work queue. *)
Example queue_store_lists_a :
  map ur_mbid (get_unprocessed_recordings_for_scraper queue_scraper None queue_store)
  = ["a"].
Proof. reflexivity. Qed.

Lemma redirected_mbid_never_unprocessed_witness :
  ~ In "a"
      (map ur_mbid
         (get_unprocessed_recordings_for_scraper queue_scraper None
            (run (fun _ => true) (AddItem queue_scraper "b" Py.PyNone)
               (snd (musicbrainz_check_mbid_redirect "a" "b" queue_store))))).
Proof.
  apply (redirected_mbid_never_unprocessed (fun _ => true) "a" "b" queue_store).
  - discriminate.
  - apply reach_step, reach_refl.
Defined.

(** ** Recordings without metadata *)

(** C6: a known recording with no [recording_meta] row and no redirect row
    is in no scraper's list of unprocessed recordings, and
    [get_recordings_missing_meta] reports it. *)
Theorem recording_without_meta_is_diagnosed (R : mbid) (s : Store)
  (scraper : scraper_dict) (wanted : option mbid) :
  In R (tbl_recording s) ->
  (forall m, In m (tbl_recording_meta s) -> rm_mbid m <> R) ->
  (forall rr, In rr (tbl_recording_redirect s) -> rr_mbid rr <> R) ->
  ~ In R (map ur_mbid (get_unprocessed_recordings_for_scraper scraper wanted s))
  /\ In R (get_recordings_missing_meta s).
Proof.
  intros HR Hmeta Hredirect. split.
  - intros Hin. apply in_map_iff in Hin as (x & Hx & Hrow).
    apply unprocessed_recording_inv in Hrow as (_ & (m & Hm & E) & _).
    apply (Hmeta m Hm). congruence.
  - unfold get_recordings_missing_meta.
    apply in_map_iff. exists ((R, None), None). split; [reflexivity|].
    apply filter_In. split; [|reflexivity].
    apply in_left_join_null. split.
    + apply in_left_join_null. split; [exact HR|].
      intros m Hm. apply String.eqb_neq. intros E. apply (Hmeta m Hm). congruence.
    + intros rr Hrr. simpl. apply String.eqb_neq. intros E.
      apply (Hredirect rr Hrr). congruence.
Qed.

Lemma recording_without_meta_is_diagnosed_witness :
  ~ In "R1" (map ur_mbid (get_unprocessed_recordings_for_scraper queue_scraper None
                            (with_recording (fun t => t ++ ["R1"])%list queue_store)))
  /\ In "R1" (get_recordings_missing_meta
                (with_recording (fun t => t ++ ["R1"])%list queue_store)).
Proof.
  apply (recording_without_meta_is_diagnosed "R1").
  - simpl. right. left. reflexivity.
  - simpl. intros m [<-|[]]. discriminate.
  - simpl. intros rr [].
Defined.

(** ** Release-group identities *)

Lemma unchanged_keeps_identities {A} (m : Conn A) :
  unchanged tbl_release_group m -> unchanged tbl_release_group_meta m ->
  keeps release_group_identities_present m.
Proof.
  intros Hrg Hrgm s a s' HI H row Hrow.
  rewrite (Hrg _ _ _ H). rewrite (Hrgm _ _ _ H) in Hrow. apply HI, Hrow.
Qed.

Lemma update_release_group_meta_mbid (release_group : release_group_dict)
  (r : release_group_meta_row) :
  rgm_mbid (update_release_group_meta release_group r) = rgm_mbid r.
Proof.
  unfold update_release_group_meta.
  destruct (rgm_mbid r =? rg_mbid release_group)%string; reflexivity.
Qed.

Lemma add_release_group_meta_keeps_identities (release_group : release_group_dict) :
  keeps release_group_identities_present (_add_release_group_meta release_group).
Proof.
  unfold _add_release_group_meta, _get_release_group_meta.
  apply keeps_bind; [apply keeps_query|]. intros [existing|].
  - destruct (_ >=? _); [apply keeps_ret|].
    apply keeps_execute. intros s HI row Hrow. simpl in *.
    apply in_map_iff in Hrow as (r & <- & Hr).
    rewrite update_release_group_meta_mbid. apply HI, Hr.
  - intros s a s' HI H row Hrow.
    unfold bind, execute in H. inversion H; subst; clear H. simpl in *.
    apply in_app_or in Hrow as [Hrow|[<-|[]]].
    + apply in_or_app. left. apply HI, Hrow.
    + apply in_or_app. right. left. reflexivity.
Qed.

Lemma cache_release_groups_keeps_identities (r : mbid)
  (rgs : list release_group_dict) :
  keeps release_group_identities_present (cache_release_groups r rgs).
Proof.
  induction rgs as [|rg rest IH]; simpl.
  - apply keeps_ret.
  - apply keeps_bind; [apply add_release_group_meta_keeps_identities|].
    intros _. apply keeps_bind; [|intros _; exact IH].
    apply unchanged_keeps_identities; apply add_link_frame; reflexivity.
Qed.

Lemma run_keeps_identities (uuid_parses : string -> bool) (o : op) (s : Store) :
  release_group_identities_present s ->
  release_group_identities_present (run uuid_parses o s).
Proof.
  intros HI. destruct o; cbn [run];
    unfold add_token, remove_token, add_source, add_recording_mbids, add_scraper,
      add_item, musicbrainz_check_mbid_redirect, cache_musicbrainz_metadata.
  - apply (keeps_begin release_group_identities_present); [|exact HI].
    apply unchanged_keeps_identities; frame.
  - destruct (uuid_parses token); [|exact HI].
    apply (keeps_begin release_group_identities_present); [|exact HI].
    apply unchanged_keeps_identities; frame.
  - apply (keeps_begin release_group_identities_present); [|exact HI].
    apply unchanged_keeps_identities; frame.
  - apply (keeps_begin release_group_identities_present); [|exact HI].
    apply unchanged_keeps_identities; apply add_recording_mbids_frame; reflexivity.
  - destruct (negb _); [exact HI|].
    apply (keeps_begin release_group_identities_present); [|exact HI].
    apply unchanged_keeps_identities; frame.
  - apply (keeps_begin release_group_identities_present); [|exact HI].
    apply unchanged_keeps_identities; apply add_item_frame; reflexivity.
  - destruct (query_mbid =? actual_mbid)%string; [exact HI|].
    apply (keeps_begin release_group_identities_present); [|exact HI].
    apply unchanged_keeps_identities;
      (apply unchanged_bind; [apply unchanged_query|]; intros rows;
       destruct (no_rows rows); [|apply unchanged_ret];
       apply unchanged_bind; [apply add_recording_mbids_frame; reflexivity|];
       intros _; frame).
  - apply (keeps_begin release_group_identities_present); [|exact HI].
    apply keeps_bind; [|intros _; apply cache_release_groups_keeps_identities].
    apply unchanged_keeps_identities; apply add_recording_meta_frame; reflexivity.
Qed.

(** C7: a release-group upsert that finds no stored meta row appends the
    identity row and the meta row in the same call; one that finds a stored
    row leaves the identity table as it was; and in every store reachable
    from the empty one, every meta row has its identity row. *)
Theorem release_group_identity_with_meta (uuid_parses : string -> bool)
  (release_group : release_group_dict) (s : Store) :
  (release_group_meta_rows (rg_mbid release_group) s = [] ->
   exists s',
     _add_release_group_meta release_group s = inr (tt, s')
     /\ tbl_release_group s' = (tbl_release_group s ++ [rg_mbid release_group])%list
     /\ tbl_release_group_meta s'
        = (tbl_release_group_meta s ++ [release_group_meta_of release_group])%list)
  /\ (release_group_meta_rows (rg_mbid release_group) s <> [] ->
      exists s',
        _add_release_group_meta release_group s = inr (tt, s')
        /\ tbl_release_group s' = tbl_release_group s
        /\ List.length (tbl_release_group_meta s')
           = List.length (tbl_release_group_meta s))
  /\ (reachable_from uuid_parses empty_store s ->
      release_group_identities_present s).
Proof.
  split; [|split].
  - intros Hrows. unfold release_group_meta_rows in Hrows.
    unfold _add_release_group_meta, _get_release_group_meta, bind, query.
    rewrite Hrows. simpl. eexists. split; [reflexivity|]. split; reflexivity.
  - intros Hrows. unfold release_group_meta_rows in Hrows.
    unfold _add_release_group_meta, _get_release_group_meta, bind, query.
    destruct (filter _ (tbl_release_group_meta s)) as [|e rest];
      [contradiction|]. simpl.
    destruct (_ >=? _); eexists; (split; [reflexivity|]); simpl;
      (split; [reflexivity|]); [reflexivity | apply length_map].
  - intros Hreach. induction Hreach as [|o s' _ IH].
    + intros row [].
    + apply run_keeps_identities, IH.
Qed.

Lemma release_group_identity_with_meta_witness :
  (exists s',
      _add_release_group_meta sample_release_group empty_store = inr (tt, s')
      /\ tbl_release_group s' = ["g1"]
      /\ tbl_release_group_meta s' = [release_group_meta_of sample_release_group])
  /\ (exists s',
        _add_release_group_meta sample_release_group_older release_group_store
        = inr (tt, s')
        /\ tbl_release_group s' = ["g1"]
        /\ List.length (tbl_release_group_meta s') = 1%nat)
  /\ release_group_identities_present release_group_store.
Proof.
  split; [|split].
  - exact (proj1 (release_group_identity_with_meta (fun _ => true)
                    sample_release_group empty_store) eq_refl).
  - apply (proj1 (proj2 (release_group_identity_with_meta (fun _ => true)
                           sample_release_group_older release_group_store))).
    discriminate.
  - apply (proj2 (proj2 (release_group_identity_with_meta (fun _ => true)
                           sample_release_group release_group_store))).
    apply (reach_step (fun _ => true) empty_store
             (CacheMusicbrainzMetadata sample_with_groups)), reach_refl.
Defined.

(** ** Redirects and the identity table *)

Lemma add_recording_mbids_one (a : mbid) (s : Store) :
  exists s',
    (exists added, _add_recording_mbids [a] s = inr (added, s'))
    /\ s' = with_recording (fun _ => tbl_recording s') s
    /\ (tbl_recording s' = tbl_recording s
        \/ tbl_recording s' = (tbl_recording s ++ [a])%list)
    /\ In a (tbl_recording s').
Proof.
  unfold _add_recording_mbids, add_recording_mbids_loop, bind, query, execute, ret.
  destruct (filter (String.eqb a) (tbl_recording s)) as [|x rows] eqn:E.
  - eexists. split; [eexists; reflexivity|]. simpl.
    split; [destruct s; reflexivity|].
    split; [right; reflexivity | apply in_or_app; right; left; reflexivity].
  - exists s. split; [eexists; reflexivity|].
    split; [destruct s; reflexivity|]. split; [left; reflexivity|].
    assert (Hin : In x (filter (String.eqb a) (tbl_recording s)))
      by (rewrite E; left; reflexivity).
    apply filter_In in Hin as [Hin Heq]. apply String.eqb_eq in Heq.
    subst x. exact Hin.
Qed.

(** The [recording] table after a redirect call: as before, or with the
    target appended. *)
Lemma redirect_recordings (q a : mbid) (s : Store) (s' : Store) :
  s' = snd (musicbrainz_check_mbid_redirect q a s) ->
  tbl_recording s' = tbl_recording s
  \/ tbl_recording s' = (tbl_recording s ++ [a])%list.
Proof.
  intros H. unfold musicbrainz_check_mbid_redirect in H.
  destruct (q =? a)%string; [left; subst; reflexivity|].
  unfold begin, bind at 1, query in H.
  destruct (no_rows _); [|left; subst; reflexivity].
  destruct (add_recording_mbids_one a s) as (s1 & (added & E) & _ & Hcases & _).
  unfold bind in H. rewrite E in H. simpl in H. subst s'. exact Hcases.
Qed.

(** C10: [musicbrainz_check_mbid_redirect(query_mbid, actual_mbid)] with
    distinct arguments leaves the membership of [query_mbid] in the
    [recording] table as it was, while [actual_mbid] is a known recording
    once a new redirect row has been written; a store reachable from the
    empty one holds a redirect row whose source is no known recording. *)
Theorem redirect_never_registers_source (uuid_parses : string -> bool) :
  (forall (query_mbid actual_mbid : mbid) (s : Store),
      query_mbid <> actual_mbid ->
      let s' := snd (musicbrainz_check_mbid_redirect query_mbid actual_mbid s) in
      (In query_mbid (tbl_recording s') <-> In query_mbid (tbl_recording s))
      /\ ((forall r, In r (tbl_recording_redirect s) ->
             ~ (rr_mbid r = query_mbid /\ rr_new_mbid r = actual_mbid)) ->
          In actual_mbid (tbl_recording s')))
  /\ (exists s r,
        reachable_from uuid_parses empty_store s
        /\ In r (tbl_recording_redirect s)
        /\ ~ In (rr_mbid r) (tbl_recording s)).
Proof.
  split.
  - intros q a s Hne s'. split.
    + destruct (redirect_recordings q a s s' eq_refl) as [E|E]; rewrite E.
      * reflexivity.
      * rewrite in_app_iff. simpl. split; [|tauto].
        intros [H|[H|[]]]; [exact H | congruence].
    + intros Hnew. subst s'. unfold musicbrainz_check_mbid_redirect.
      destruct (String.eqb_spec q a) as [E|_]; [contradiction|].
      unfold begin, bind at 1, query.
      assert (Hrows : filter (fun r => (rr_mbid r =? q)%string
                                       && (rr_new_mbid r =? a)%string)
                             (tbl_recording_redirect s) = []).
      { apply filter_nil_iff. intros r Hr. apply andb_false_iff.
        destruct (String.eqb_spec (rr_mbid r) q) as [E1|_]; [|left; reflexivity].
        destruct (String.eqb_spec (rr_new_mbid r) a) as [E2|_]; [|right; reflexivity].
        exfalso. apply (Hnew r Hr). split; assumption. }
      rewrite Hrows. cbn [no_rows rowcount List.length Nat.eqb].
      destruct (add_recording_mbids_one a s) as (s1 & (added & E) & _ & _ & Hin).
      unfold bind. rewrite E. simpl. exact Hin.
  - exists (run uuid_parses (CheckMbidRedirect "old" "new") empty_store).
    exists {| rr_mbid := "old"; rr_new_mbid := "new" |}.
    split; [apply reach_step, reach_refl|].
    split; [left; reflexivity|].
    simpl. intros [H|[]]. discriminate.
Qed.

Lemma redirect_never_registers_source_witness :
  (In "old" (tbl_recording
               (snd (musicbrainz_check_mbid_redirect "old" "new" queue_store)))
   <-> In "old" (tbl_recording queue_store))
  /\ In "new" (tbl_recording
                 (snd (musicbrainz_check_mbid_redirect "old" "new" queue_store))).
Proof.
  destruct (proj1 (redirect_never_registers_source (fun _ => true))
              "old" "new" queue_store ltac:(discriminate)) as [Hsrc Htgt].
  split; [exact Hsrc|]. apply Htgt. intros r [].
Defined.

(** ** The item ledger *)

Lemma append_assoc (a b c : string) : ((a ++ b) ++ c = a ++ (b ++ c))%string.
Proof. induction a as [|x a IH]; simpl; [reflexivity | rewrite IH; reflexivity]. Qed.

Lemma append_nil_r (a : string) : (a ++ "" = a)%string.
Proof. induction a as [|x a IH]; simpl; [reflexivity | rewrite IH; reflexivity]. Qed.

Lemma occurs_in_concat (sep x : string) (l : list string) :
  In x l -> occurs_in x (String.concat sep l).
Proof.
  induction l as [|y l IH]; intros Hin; [destruct Hin|].
  destruct Hin as [->|Hin].
  - destruct l as [|z l]; simpl.
    + exists "", "". simpl. rewrite append_nil_r. reflexivity.
    + exists "", (sep ++ String.concat sep (z :: l))%string. reflexivity.
  - destruct l as [|z l]; [destruct Hin|].
    destruct (IH Hin) as (before & after & E).
    exists (y ++ sep ++ before)%string, after.
    change (String.concat sep (y :: z :: l))
      with (y ++ sep ++ String.concat sep (z :: l))%string.
    rewrite E, !append_assoc. reflexivity.
Qed.

Lemma occurs_in_wrap (a b sub text : string) :
  occurs_in sub text -> occurs_in sub (a ++ text ++ b).
Proof.
  intros (before & after & ->).
  exists (a ++ before)%string, (after ++ b)%string.
  rewrite !append_assoc. reflexivity.
Qed.

(** In the JSON text of a list or a dictionary every datetime appears as the
    string literal of its [isoformat()]. *)
Lemma json_dumps_datetime (d : Py.datetime) :
  (forall l, In (Py.PyDatetime d) l ->
             occurs_in (Py.json_string (Py.isoformat d)) (Py.json_dumps (Py.PyList l)))
  /\ (forall kvs k, In (k, Py.PyDatetime d) kvs ->
        occurs_in (Py.json_string k ++ ": " ++ Py.json_string (Py.isoformat d))
                  (Py.json_dumps (Py.PyDict kvs))).
Proof.
  split.
  - intros l Hin. cbn [Py.json_dumps]. apply occurs_in_wrap, occurs_in_concat.
    change (Py.json_string (Py.isoformat d)) with (Py.json_dumps (Py.PyDatetime d)).
    apply in_map, Hin.
  - intros kvs k Hin. cbn [Py.json_dumps]. apply occurs_in_wrap, occurs_in_concat.
    apply in_map_iff. exists (k, Py.PyDatetime d). split; [reflexivity | exact Hin].
Qed.

(** For the payloads a scraper records (nothing, a text, a list, a
    dictionary, a datetime) [if data:] asks whether the payload is non-empty;
    a bare number or boolean passes it when it is not zero or false. *)
Lemma truthy_nonempty (data : Py.pyvalue) :
  (forall b, data <> Py.PyBool b) -> (forall n, data <> Py.PyInt n) ->
  Py.truthy data = negb (empty_payload data).
Proof.
  intros Hb Hn. destruct data as [|b|n|s|d|l|kvs]; simpl; try reflexivity.
  - destruct (Hb b eq_refl).
  - destruct (Hn n eq_refl).
  - destruct s; reflexivity.
  - destruct l; reflexivity.
  - destruct kvs; reflexivity.
Qed.

(** The characters of a decimal numeral stand for themselves in a JSON
    string, and so do those of [isoformat()]. *)
Lemma escape_app (a b : string) :
  Py.escape (a ++ b) = (Py.escape a ++ Py.escape b)%string.
Proof.
  induction a as [|c a IH]; simpl; [reflexivity|].
  rewrite IH, append_assoc. reflexivity.
Qed.

Lemma escape_digits (u : Decimal.uint) :
  Py.escape (NilEmpty.string_of_uint u) = NilEmpty.string_of_uint u.
Proof. induction u; simpl; [reflexivity | rewrite IHu; reflexivity ..]. Qed.

Lemma escape_uint (u : Decimal.uint) :
  Py.escape (NilZero.string_of_uint u) = NilZero.string_of_uint u.
Proof. destruct u; [reflexivity | apply escape_digits ..]. Qed.

Lemma escape_str_of_int (n : Z) : Py.escape (Py.str_of_int n) = Py.str_of_int n.
Proof.
  unfold Py.str_of_int. destruct (Z.to_int n) as [u|u];
    cbn [NilZero.string_of_int Py.escape]; rewrite escape_uint; reflexivity.
Qed.

Lemma escape_zero_padded (w : nat) (n : Z) :
  Py.escape (Py.zero_padded w n) = Py.zero_padded w n.
Proof.
  unfold Py.zero_padded. rewrite escape_app, escape_str_of_int. f_equal.
  induction (w - String.length (Py.str_of_int n))%nat as [|k IH]; simpl;
    [reflexivity | rewrite IH; reflexivity].
Qed.

Lemma escape_isoformat (d : Py.datetime) :
  Py.escape (Py.isoformat d) = Py.isoformat d.
Proof.
  unfold Py.isoformat, Py.format_offset.
  destruct (Py.microsecond d =? 0); destruct (Py.tzinfo d) as [off|];
    try destruct (off <? 0);
    repeat (rewrite escape_app || rewrite escape_zero_padded);
    reflexivity.
Qed.

(** In the JSON text of a list or a dictionary every datetime appears as its
    [isoformat()] between double quotes. *)
Lemma json_dumps_datetime_quoted (d : Py.datetime) :
  (forall l, In (Py.PyDatetime d) l ->
             occurs_in (quoted (Py.isoformat d)) (Py.json_dumps (Py.PyList l)))
  /\ (forall kvs k, In (k, Py.PyDatetime d) kvs ->
        occurs_in (Py.json_string k ++ ": " ++ quoted (Py.isoformat d))
                  (Py.json_dumps (Py.PyDict kvs))).
Proof.
  assert (E : Py.json_string (Py.isoformat d) = quoted (Py.isoformat d)).
  { unfold Py.json_string, quoted. rewrite escape_isoformat. reflexivity. }
  rewrite <- E. apply json_dumps_datetime.
Qed.

(** [if data:] is false for the six values of [falsy_payload] and for no
    other. *)
Lemma truthy_not_falsy (data : Py.pyvalue) :
  Py.truthy data = negb (falsy_payload data).
Proof.
  destruct data as [|[|]|[|p|p]|[|c t]|d|[|v l]|[|kv kvs]]; reflexivity.
Qed.

(** C4, as the code has it: [add_item] for a scraper and an mbid that
    already have an item row returns [False] and leaves the store as it was;
    otherwise it appends one item row with a fresh id and returns [True],
    and it appends one [item_data] row for that id exactly when the payload
    is none of [None], [False], the number zero, the empty text, the empty
    list and the empty dictionary: a dictionary or a list as its JSON text,
    in which every datetime is written as its ISO-8601 text between double
    quotes, any other payload as it is.  A second call for the same pair
    finds the row and writes nothing. *)
Theorem add_item_once (scraper : scraper_dict) (m : mbid) (data : Py.pyvalue)
  (s : Store) :
  (item_rows scraper m s <> [] -> add_item scraper m data s = (Returned false, s))
  /\ (item_rows scraper m s = [] ->
      let id := seq_item_id s + 1 in
      let stored :=
        match data with
        | Py.PyDict _ | Py.PyList _ => Py.PyStr (Py.json_dumps data)
        | _ => data
        end in
      add_item scraper m data s
      = (Returned true,
         with_item_data
           (fun t => t ++ (if falsy_payload data
                           then []
                           else [{| itd_item_id := id; itd_data := stored |}]))%list
           (with_item
              (fun t => t ++ [{| it_id := id; it_scraper_id := sc_id scraper;
                                 it_mbid := m |}])%list id s)))
  /\ (forall data2,
        let s1 := snd (add_item scraper m data s) in
        add_item scraper m data2 s1 = (Returned false, s1))
  /\ (forall d,
        (forall l, In (Py.PyDatetime d) l ->
           occurs_in (quoted (Py.isoformat d)) (Py.json_dumps (Py.PyList l)))
        /\ (forall kvs k, In (k, Py.PyDatetime d) kvs ->
              occurs_in (Py.json_string k ++ ": " ++ quoted (Py.isoformat d))
                        (Py.json_dumps (Py.PyDict kvs)))).
Proof.
  assert (Hexists : forall s0 d0, item_rows scraper m s0 <> [] ->
                                  add_item scraper m d0 s0 = (Returned false, s0)).
  { intros s0 d0 Hrows. unfold item_rows in Hrows.
    unfold add_item, begin, _add_item_w_connection, bind, query.
    destruct (filter _ (tbl_item s0)) as [|i rows]; [contradiction | reflexivity]. }
  assert (Hnew : item_rows scraper m s = [] ->
                 add_item scraper m data s
                 = (Returned true,
                    with_item_data
                      (fun t => t ++ (if falsy_payload data
                                      then []
                                      else [{| itd_item_id := seq_item_id s + 1;
                                               itd_data :=
                                                 match data with
                                                 | Py.PyDict _ | Py.PyList _ =>
                                                     Py.PyStr (Py.json_dumps data)
                                                 | _ => data
                                                 end |}]))%list
                      (with_item
                         (fun t => t ++ [{| it_id := seq_item_id s + 1;
                                            it_scraper_id := sc_id scraper;
                                            it_mbid := m |}])%list
                         (seq_item_id s + 1) s))).
  { intros Hrows. unfold item_rows in Hrows.
    unfold add_item, begin, _add_item_w_connection, bind, query.
    rewrite Hrows. cbn [no_rows rowcount List.length Nat.eqb].
    unfold insert_item. cbn [it_id].
    rewrite truthy_not_falsy.
    destruct (falsy_payload data) eqn:Hf; cbn [negb].
    - unfold ret. f_equal. destruct s; unfold with_item_data, with_item; simpl.
      rewrite app_nil_r. reflexivity.
    - destruct data; reflexivity. }
  split; [apply Hexists|]. split; [exact Hnew|].
  split; [|apply json_dumps_datetime_quoted].
  intros data2 s1. apply Hexists. subst s1.
  destruct (item_rows scraper m s) as [|i rows] eqn:Hrows.
  - rewrite (Hnew eq_refl). unfold item_rows. simpl.
    rewrite filter_app_one. simpl. rewrite String.eqb_refl, Z.eqb_refl. simpl.
    intros E. apply app_eq_nil in E as [_ E]. discriminate.
  - rewrite Hexists by (rewrite Hrows; discriminate). simpl.
    rewrite Hrows. discriminate.
Qed.

(** C4 with non-empty for its test: not so.  The number zero is a payload
    with something in it, and [add_item] stores no [item_data] row for it
    ([False] fares the same). *)
Lemma add_item_skips_zero_payload :
  ~ (forall (scraper : scraper_dict) (m : mbid) (data : Py.pyvalue) (s : Store),
        item_rows scraper m s = [] ->
        (exists row, tbl_item_data (snd (add_item scraper m data s))
                     = (tbl_item_data s ++ [row])%list)
        <-> empty_payload data = false).
Proof.
  intros H.
  destruct (proj2 (H queue_scraper "a" (Py.PyInt 0) queue_store eq_refl) eq_refl)
    as [row E].
  discriminate E.
Qed.

Lemma add_item_once_witness :
  add_item queue_scraper "a" sample_payload
    (snd (add_item queue_scraper "a" Py.PyNone queue_store))
  = (Returned false, snd (add_item queue_scraper "a" Py.PyNone queue_store))
  /\ (exists s',
         add_item queue_scraper "a" sample_payload queue_store = (Returned true, s')
         /\ tbl_item s' = [{| it_id := 1; it_scraper_id := 1; it_mbid := "a" |}]
         /\ tbl_item_data s'
            = [{| itd_item_id := 1;
                  itd_data :=
                    Py.PyStr ("{" ++ quoted "title" ++ ": " ++ quoted "Song" ++ ", "
                              ++ quoted "fetched" ++ ": "
                              ++ quoted "2017-03-04T05:06:07+00:00" ++ "}") |}])
  /\ (exists s',
         add_item queue_scraper "a" escaped_payload queue_store = (Returned true, s')
         /\ tbl_item_data s'
            = [{| itd_item_id := 1;
                  itd_data :=
                    Py.PyStr ("[" ++ quoted ("a" ++ String "092" (String "034"
                                               ("b" ++ String "092" (String "092"
                                                  ("c" ++ String "092" "nd")))))
                              ++ ", null, true, -3]") |}])
  /\ (exists s',
         add_item queue_scraper "a" (Py.PyStr "plain") queue_store = (Returned true, s')
         /\ tbl_item_data s'
            = [{| itd_item_id := 1; itd_data := Py.PyStr "plain" |}])
  /\ (exists s',
         add_item queue_scraper "a" (Py.PyDict []) queue_store = (Returned true, s')
         /\ tbl_item s' = [{| it_id := 1; it_scraper_id := 1; it_mbid := "a" |}]
         /\ tbl_item_data s' = [])
  /\ (exists s',
         add_item queue_scraper "a" (Py.PyInt 0) queue_store = (Returned true, s')
         /\ tbl_item_data s' = [])
  /\ occurs_in (Py.json_string "fetched" ++ ": " ++ quoted "2017-03-04T05:06:07+00:00")
               (Py.json_dumps sample_payload).
Proof.
  split; [|split; [|split; [|split; [|split; [|split]]]]].
  - apply (proj1 (add_item_once queue_scraper "a" sample_payload
                    (snd (add_item queue_scraper "a" Py.PyNone queue_store)))).
    discriminate.
  - eexists. split.
    + exact (proj1 (proj2 (add_item_once queue_scraper "a" sample_payload queue_store))
               eq_refl).
    + split; reflexivity.
  - eexists. split.
    + exact (proj1 (proj2 (add_item_once queue_scraper "a" escaped_payload queue_store))
               eq_refl).
    + reflexivity.
  - eexists. split.
    + exact (proj1 (proj2 (add_item_once queue_scraper "a" (Py.PyStr "plain")
                             queue_store)) eq_refl).
    + reflexivity.
  - eexists. split.
    + exact (proj1 (proj2 (add_item_once queue_scraper "a" (Py.PyDict []) queue_store))
               eq_refl).
    + split; reflexivity.
  - eexists. split.
    + exact (proj1 (proj2 (add_item_once queue_scraper "a" (Py.PyInt 0) queue_store))
               eq_refl).
    + reflexivity.
  - apply (proj2 (proj2 (proj2 (proj2 (add_item_once queue_scraper "a" sample_payload
                                         queue_store))) sample_datetime)).
    right. left. reflexivity.
Defined.

(** ** Scraper registration *)

(** C5: [add_scraper] with an [mb_type] other than [recording] and
    [release_group] raises [ValueError] and the store is as it was before
    the call. *)
Theorem add_scraper_rejects_unknown_mb_type (source : source_dict)
  (module mb_type : string) (version : Z) (description : string) (s : Store) :
  mb_type <> "recording" -> mb_type <> "release_group" ->
  add_scraper source module mb_type version description s
  = (Raised (ValueError "Invalid mb_type. Must be one of [recording, release_group]"),
     s).
Proof.
  intros H1 H2. unfold add_scraper. simpl.
  destruct (String.eqb_spec mb_type "recording"); [contradiction|].
  destruct (String.eqb_spec mb_type "release_group"); [contradiction|].
  reflexivity.
Qed.

Lemma add_scraper_rejects_unknown_mb_type_witness :
  add_scraper {| src_id := 1; src_name := "musicbrainz" |} "mod" "album" 1 "" empty_store
  = (Raised (ValueError "Invalid mb_type. Must be one of [recording, release_group]"),
     empty_store).
Proof.
  apply add_scraper_rejects_unknown_mb_type; discriminate.
Defined.

(** ** The script runner *)

Section RunnerFacts.
Import Db.
Variable DB : Type.
Variable connection_execute : string -> DB -> store_error + DB.

Lemma is_statement_iff (line : string) :
  is_statement line = true <-> line <> "" /\ String.prefix "--" line = false.
Proof.
  unfold is_statement. rewrite andb_true_iff, !negb_true_iff, String.eqb_neq.
  reflexivity.
Qed.

(** The loop executes the statements of the script in order, up to the
    first one the store refuses. *)
Lemma run_lines_prefix (lines done : list string) (d : DB) :
  let r := run_lines connection_execute lines done d in
  exists ex rest,
    executed r = (done ++ ex)%list
    /\ filter is_statement lines = (ex ++ rest)%list
    /\ (raised r = None -> rest = [])
    /\ (forall e, raised r = Some e ->
          exists pre line,
            ex = (pre ++ [line])%list
            /\ connection_execute line (store_after r) = inl e).
Proof.
  revert done d. induction lines as [|line lines IH]; intros done d; simpl.
  - exists [], []. rewrite app_nil_r.
    split; [reflexivity|]. split; [reflexivity|]. split; [reflexivity | discriminate].
  - destruct (is_statement line) eqn:Hst.
    + destruct (connection_execute line d) as [e|d'] eqn:Hexec.
      * exists [line], (filter is_statement lines). simpl.
        split; [reflexivity|]. split; [reflexivity|]. split; [discriminate|].
        intros e' [= <-]. exists [], line. split; [reflexivity | exact Hexec].
      * destruct (IH (done ++ [line])%list d') as (ex & rest & He & Hf & Hnone & Hsome).
        exists (line :: ex), rest. rewrite He, <- app_assoc. simpl.
        split; [reflexivity|]. split; [rewrite Hf; reflexivity|].
        split; [exact Hnone|].
        intros e He'. destruct (Hsome e He') as (pre & l & -> & Hl).
        exists (line :: pre), l. split; [reflexivity | exact Hl].
    + apply IH.
Qed.

(** C8, for the error class the code catches: the runner hands to the store
    exactly the lines that are neither empty nor start with the comment
    marker, in order, and stops at the first one the store refuses; a
    [ProgrammingError] is printed and the runner returns [False]; an error
    of any other class reaches the caller; without an error the runner
    returns [True]; in every case the isolation level is reset and the
    connection closed. *)
Theorem script_runner_catches_programming_errors (sql : string) (d : DB) :
  let run := run_sql_script_without_transaction connection_execute sql d in
  (forall line, In line (executed (loop run)) ->
                line <> "" /\ String.prefix "--" line = false
                /\ In line (splitlines sql))
  /\ (exists rest,
        filter is_statement (splitlines sql)
        = (executed (loop run) ++ rest)%list
        /\ (raised (loop run) = None -> rest = []))
  /\ (forall e, raised (loop run) = Some e ->
        (exists pre line,
            executed (loop run) = (pre ++ [line])%list
            /\ connection_execute line (store_after (loop run)) = inl e)
        /\ (err_class e = ProgrammingError ->
            result run = Returns false
            /\ printed run = ["Error: " ++ err_text e]%string)
        /\ (err_class e <> ProgrammingError ->
            result run = Propagates e /\ printed run = []))
  /\ (raised (loop run) = None ->
      result run = Returns true /\ printed run = [])
  /\ isolation_level run = 1
  /\ connection_open run = false.
Proof.
  intros run.
  destruct (run_lines_prefix (splitlines sql) [] d)
    as (ex & rest & Hex & Hf & Hnone & Hsome).
  simpl in Hex.
  assert (Hloop : loop run = run_lines connection_execute (splitlines sql) [] d).
  { subst run. unfold run_sql_script_without_transaction.
    destruct (raised _) as [e|]; [destruct (is_ProgrammingError e)|]; reflexivity. }
  rewrite Hloop, Hex.
  split; [|split; [|split; [|split; [|split]]]].
  - intros line Hin.
    assert (Hst : In line (filter is_statement (splitlines sql)))
      by (rewrite Hf; apply in_or_app; left; exact Hin).
    apply filter_In in Hst as [Hin' Hst]. apply is_statement_iff in Hst. tauto.
  - exists rest. split; assumption.
  - intros e He. split; [apply Hsome; exact He|].
    subst run. unfold run_sql_script_without_transaction. rewrite He.
    unfold is_ProgrammingError. split.
    + intros ->. split; reflexivity.
    + intros Hne. destruct (err_class e); try (split; reflexivity). contradiction.
  - intros He. subst run. unfold run_sql_script_without_transaction. rewrite He.
    split; reflexivity.
  - subst run. unfold run_sql_script_without_transaction.
    destruct (raised _) as [e|]; [destruct (is_ProgrammingError e)|]; reflexivity.
  - subst run. unfold run_sql_script_without_transaction.
    destruct (raised _) as [e|]; [destruct (is_ProgrammingError e)|]; reflexivity.
Qed.

End RunnerFacts.

(** A script whose INSERT the sample store refuses: the run stops at that
    line and the integrity error leaves the runner. *)
Example script_with_insert_run :
  let run := Db.run_sql_script_without_transaction picky_execute
               script_with_insert [] in
  Db.executed (Db.loop run)
  = ["CREATE EXTENSION cube;"; "INSERT INTO source (name) VALUES (1);"]
  /\ Db.result run
     = Db.Propagates
         {| Db.err_class := Db.IntegrityError;
            Db.err_text := "duplicate key value violates unique constraint" |}
  /\ Db.printed run = [].
Proof. repeat split. Qed.

(** C8, for every class of store error: not so.  An integrity error raised
    by a line is neither reported nor turned into [False]; it reaches the
    caller. *)
Lemma script_runner_propagates_integrity_error :
  ~ (forall (DB : Type) (connection_execute : string -> DB -> Db.store_error + DB)
            (sql : string) (d : DB) (e : Db.store_error),
        let run := Db.run_sql_script_without_transaction connection_execute sql d in
        Db.raised (Db.loop run) = Some e ->
        Db.result run = Db.Returns false).
Proof.
  intros H.
  specialize (H (list string) picky_execute script_with_insert []
                {| Db.err_class := Db.IntegrityError;
                   Db.err_text := "duplicate key value violates unique constraint" |}
                eq_refl).
  discriminate H.
Qed.

Lemma script_runner_catches_programming_errors_witness :
  let run := Db.run_sql_script_without_transaction picky_execute
               script_with_typo [] in
  Db.result run = Db.Returns false
  /\ Db.printed run = ["Error: syntax error at or near CRAETE TABLE t (id INT);"]
  /\ Db.executed (Db.loop run)
     = ["CREATE EXTENSION cube;"; "CREATE EXTENSION cube;"; "CRAETE TABLE t (id INT);"].
Proof.
  intros run.
  destruct (script_runner_catches_programming_errors (list string) picky_execute
              script_with_typo []) as (_ & _ & Hraised & _).
  destruct (Hraised {| Db.err_class := Db.ProgrammingError;
                       Db.err_text := "syntax error at or near CRAETE TABLE t (id INT);" |}
              eq_refl) as (_ & Hcaught & _).
  destruct (Hcaught eq_refl) as [Hresult Hprinted].
  split; [exact Hresult|]. split; [exact Hprinted | reflexivity].
Defined.

(** ** The export tool *)

Section ExportTool.
Import DumpUnprocessed.

Lemma chunks_fuel_concat {A} (n fuel : nat) (l : list A) :
  (0 < n)%nat -> (List.length l <= fuel)%nat ->
  List.concat (chunks_fuel fuel l n) = l.
Proof.
  intros Hn. revert l. induction fuel as [|fuel IH]; intros l Hlen.
  - destruct l; [reflexivity | simpl in Hlen; lia].
  - destruct l as [|x l]; [reflexivity|].
    change (chunks_fuel (S fuel) (x :: l) n)
      with (firstn n (x :: l) :: chunks_fuel fuel (skipn n (x :: l)) n).
    cbn [List.concat]. rewrite IH.
    + apply firstn_skipn.
    + rewrite length_skipn. cbn [List.length] in *. lia.
Qed.

Lemma chunks_fuel_sizes {A} (n fuel : nat) (l : list A) :
  (0 < n)%nat ->
  Forall (fun c => (List.length c <= n)%nat /\ c <> []) (chunks_fuel fuel l n).
Proof.
  intros Hn. revert l. induction fuel as [|fuel IH]; intros l; [constructor|].
  destruct l as [|x l]; [constructor|].
  change (chunks_fuel (S fuel) (x :: l) n)
    with (firstn n (x :: l) :: chunks_fuel fuel (skipn n (x :: l)) n).
  constructor; [|apply IH]. split.
  - rewrite length_firstn. lia.
  - destruct n; [lia | discriminate].
Qed.

(** The chunks are consecutive, at most [n] rows long and not empty. *)
Lemma chunks_split {A} (l : list A) (n : nat) :
  (0 < n)%nat ->
  List.concat (chunks l n) = l
  /\ Forall (fun c => (List.length c <= n)%nat /\ c <> []) (chunks l n).
Proof.
  intros Hn. unfold chunks. destruct n; [lia|]. split.
  - apply chunks_fuel_concat; lia.
  - apply chunks_fuel_sizes; lia.
Qed.

Variable outname : string.
Variable keys : list string.

Lemma writerows_declared (data : list rowdict) (written : list (list string)) :
  Forall (declared keys) data ->
  writerows keys data written = (None, (written ++ map (record_of keys) data)%list).
Proof.
  intros H. revert written. induction H as [|d data Hd _ IH]; intros written; simpl.
  - rewrite app_nil_r. reflexivity.
  - unfold dict_to_list. unfold declared in Hd. rewrite Hd.
    rewrite IH, <- app_assoc. reflexivity.
Qed.

Lemma dump_chunks_declared (i : Z) (cs : list (list rowdict)) :
  Forall (Forall (declared keys)) cs ->
  dump_chunks outname keys i cs = (None, files_of outname keys i cs).
Proof.
  intros H. revert i. induction H as [|c cs Hc _ IH]; intros i; simpl;
    [reflexivity|].
  unfold dump_items. rewrite (writerows_declared c [] Hc). simpl.
  rewrite IH. reflexivity.
Qed.

Lemma files_of_names (cs : list (list rowdict)) (i : Z) (k : nat) (f : csv_file) :
  nth_error (files_of outname keys i cs) k = Some f ->
  filename f = (outname ++ "-" ++ Py.str_of_int (i + Z.of_nat k) ++ ".csv")%string
  /\ header f = keys.
Proof.
  revert i k. induction cs as [|c cs IH]; intros i k H.
  - destruct k; discriminate.
  - destruct k as [|k]; simpl in H.
    + inversion H; subst; simpl. rewrite Z.add_0_r. split; reflexivity.
    + apply IH in H. replace (i + Z.of_nat (S k)) with (i + 1 + Z.of_nat k) by lia.
      exact H.
Qed.

Lemma files_of_records (cs : list (list rowdict)) (i : Z) :
  map records (files_of outname keys i cs) = map (map (record_of keys)) cs.
Proof.
  revert i. induction cs as [|c cs IH]; intros i; simpl; [reflexivity|].
  rewrite IH. reflexivity.
Qed.

(** With a row limit [n] the loop writes the files [outname-1.csv],
    [outname-2.csv], ... in order, each with the header [keys] and between
    one and [n] records, and the records of the files put end to end are the
    rows of [data]. *)
Lemma dump_chunks_numbered (n : nat) (data : list rowdict) :
  (0 < n)%nat -> Forall (declared keys) data ->
  exists files,
    dump_chunks outname keys 1 (chunks data n) = (None, files)
    /\ (forall k f, nth_error files k = Some f ->
          filename f
          = (outname ++ "-" ++ Py.str_of_int (Z.of_nat k + 1) ++ ".csv")%string
          /\ header f = keys
          /\ (1 <= List.length (records f) <= n)%nat)
    /\ List.concat (map records files) = map (record_of keys) data.
Proof.
  intros Hn Hdata. destruct (chunks_split data n Hn) as [Hcat Hsizes].
  exists (files_of outname keys 1 (chunks data n)). split; [|split].
  - apply dump_chunks_declared. apply Forall_concat. rewrite Hcat. exact Hdata.
  - intros k f Hk. destruct (files_of_names _ _ _ _ Hk) as [Hname Hheader].
    split; [rewrite Hname, Z.add_comm; reflexivity|]. split; [exact Hheader|].
    assert (Hrec : nth_error (map records (files_of outname keys 1 (chunks data n))) k
                   = Some (records f)) by (rewrite nth_error_map, Hk; reflexivity).
    rewrite files_of_records, nth_error_map in Hrec.
    destruct (nth_error (chunks data n) k) as [c|] eqn:Hc; [|discriminate].
    inversion Hrec as [E]. rewrite length_map.
    apply nth_error_In in Hc.
    rewrite Forall_forall in Hsizes. destruct (Hsizes c Hc) as [Hle Hne].
    destruct c; [contradiction | simpl in *; lia].
  - rewrite files_of_records, <- concat_map, Hcat. reflexivity.
Qed.

End ExportTool.

(** C9, for the program the source spells apart from its missing colon:
    with a source and its latest scraper found and a positive row limit,
    [main] returns after writing [outname-1.csv], [outname-2.csv], ..., each
    headed by the keys of the scraper's [mb_type] and holding at most the
    limit of rows, the unprocessed rows in order. *)
Lemma main_writes_numbered_files (source_name outname : string) (n : Z)
  (s : Store) (source : source_dict) (scraper : scraper_dict) :
  load_source source_name s = Some source ->
  load_latest_scraper_for_source source s = Some scraper ->
  0 < n ->
  (sc_mb_type scraper = "recording" ->
   exists files,
     DumpUnprocessed.main source_name outname (Some n) s = (Returned tt, files)
     /\ (forall k f, nth_error files k = Some f ->
           DumpUnprocessed.filename f
           = (outname ++ "-" ++ Py.str_of_int (Z.of_nat k + 1) ++ ".csv")%string
           /\ DumpUnprocessed.header f = ["mbid"; "name"; "artist_credit"]
           /\ 1 <= Z.of_nat (List.length (DumpUnprocessed.records f)) <= n)
     /\ List.concat (map DumpUnprocessed.records files)
        = map (fun r => [ur_mbid r; ur_name r; ur_artist_credit r])
              (get_unprocessed_recordings_for_scraper scraper None s))
  /\ (sc_mb_type scraper = "release_group" ->
      exists files,
        DumpUnprocessed.main source_name outname (Some n) s = (Returned tt, files)
        /\ (forall k f, nth_error files k = Some f ->
              DumpUnprocessed.filename f
              = (outname ++ "-" ++ Py.str_of_int (Z.of_nat k + 1) ++ ".csv")%string
              /\ DumpUnprocessed.header f
                 = ["mbid"; "name"; "artist_credit"; "first_release_date"]
              /\ 1 <= Z.of_nat (List.length (DumpUnprocessed.records f)) <= n)
        /\ List.concat (map DumpUnprocessed.records files)
           = map (fun r => [urg_mbid r; urg_name r; urg_artist_credit r;
                            urg_first_release_date r])
                 (get_unprocessed_release_groups_for_scraper scraper None s)).
Proof.
  intros Hsource Hscraper Hn.
  assert (Hnat : (0 < Z.to_nat n)%nat) by lia.
  assert (Htruthy : negb (n =? 0) = true)
    by (apply negb_true_iff, Z.eqb_neq; lia).
  split; intros Htype.
  - destruct (dump_chunks_numbered outname ["mbid"; "name"; "artist_credit"]
                (Z.to_nat n)
                (map DumpUnprocessed.dict_of_recording
                     (get_unprocessed_recordings_for_scraper scraper None s)) Hnat)
      as (files & Hrun & Hfiles & Hrows).
    { apply Forall_forall. intros d Hd. apply in_map_iff in Hd as (r & <- & _).
      reflexivity. }
    exists files. unfold DumpUnprocessed.main.
    rewrite Hsource, Hscraper, Htype. cbn [String.eqb Ascii.eqb Bool.eqb].
    rewrite Htruthy, Hrun. split; [reflexivity|]. split.
    + intros k f Hk. destruct (Hfiles k f Hk) as (H1 & H2 & H3).
      split; [exact H1|]. split; [exact H2 | lia].
    + rewrite Hrows, map_map. reflexivity.
  - destruct (dump_chunks_numbered outname
                ["mbid"; "name"; "artist_credit"; "first_release_date"]
                (Z.to_nat n)
                (map DumpUnprocessed.dict_of_release_group
                     (get_unprocessed_release_groups_for_scraper scraper None s)) Hnat)
      as (files & Hrun & Hfiles & Hrows).
    { apply Forall_forall. intros d Hd. apply in_map_iff in Hd as (r & <- & _).
      reflexivity. }
    exists files. unfold DumpUnprocessed.main.
    rewrite Hsource, Hscraper, Htype. cbn [String.eqb Ascii.eqb Bool.eqb].
    rewrite Htruthy, Hrun. split; [reflexivity|]. split.
    + intros k f Hk. destruct (Hfiles k f Hk) as (H1 & H2 & H3).
      split; [exact H1|]. split; [exact H2 | lia].
    + rewrite Hrows, map_map. reflexivity.
Qed.

(** ** What a call leaves alone *)

Lemma run_unchanged {T} (proj : Store -> T) (uuid_parses : string -> bool)
  (o : op) (s : Store) :
  ignores proj o -> proj (run uuid_parses o s) = proj s.
Proof.
  intros H. destruct o; cbn [run ignores] in *;
    unfold add_token, remove_token, add_source, add_recording_mbids, add_scraper,
      add_item, musicbrainz_check_mbid_redirect, cache_musicbrainz_metadata.
  - apply unchanged_begin. apply unchanged_bind; [|intros ?; apply unchanged_ret].
    apply unchanged_execute. intros s0. apply H.
  - destruct (uuid_parses token); [|reflexivity].
    apply unchanged_begin. apply unchanged_execute. intros s0. apply H.
  - apply unchanged_begin. intros s0 a s' E. inversion E. apply H.
  - apply unchanged_begin. apply add_recording_mbids_frame. exact H.
  - destruct (negb _); [reflexivity|].
    apply unchanged_begin. intros s0 a s' E. inversion E. apply H.
  - destruct H as [Hi Hd]. apply unchanged_begin. apply add_item_frame; assumption.
  - destruct H as [Hr Hrr].
    destruct (query_mbid =? actual_mbid)%string; [reflexivity|].
    apply unchanged_begin.
    apply unchanged_bind; [apply unchanged_query|]. intros rows.
    destruct (no_rows rows); [|apply unchanged_ret].
    apply unchanged_bind; [apply add_recording_mbids_frame; exact Hr|].
    intros _. apply unchanged_execute. intros s0. apply Hrr.
  - destruct H as (Hm & Hrg & Hrgm & Hl). apply unchanged_begin.
    apply unchanged_bind; [apply add_recording_meta_frame; exact Hm|].
    intros _. apply cache_release_groups_frame; assumption.
Qed.

(** Discharges [ignores proj o] for a concrete table and call. *)
Ltac ignored := cbn [ignores]; repeat split; intros; reflexivity.

Lemma NoDup_snoc {A} (l : list A) (x : A) :
  NoDup l -> ~ In x l -> NoDup (l ++ [x]).
Proof.
  intros Hl Hx. apply NoDup_app; [exact Hl | repeat constructor; intros [] |].
  intros y Hy [<-|[]]. exact (Hx Hy).
Qed.

(** ** Registering recordings *)

Lemma with_recording_nil (s : Store) :
  with_recording (fun t => t ++ [])%list s = s.
Proof. destruct s; unfold with_recording; simpl. rewrite app_nil_r. reflexivity. Qed.

Lemma with_recording_snoc (m : mbid) (added : list mbid) (s : Store) :
  with_recording (fun t => t ++ added)%list
    (with_recording (fun t => t ++ [m])%list s)
  = with_recording (fun t => t ++ m :: added)%list s.
Proof.
  destruct s; unfold with_recording; simpl. rewrite <- app_assoc. reflexivity.
Qed.

Lemma filter_eqb_nil (m : mbid) (t : list mbid) :
  filter (String.eqb m) t = [] <-> ~ In m t.
Proof.
  rewrite filter_nil_iff. split.
  - intros H Hin. specialize (H m Hin). rewrite String.eqb_refl in H. discriminate.
  - intros H x Hx. apply String.eqb_neq. intros ->. exact (H Hx).
Qed.

Lemma no_rows_iff {A} (rows : list A) : no_rows rows = true <-> rows = [].
Proof. destruct rows; simpl; split; intros H; try reflexivity; discriminate. Qed.

Lemma add_recording_mbids_loop_spec (mbids : list mbid) :
  forall (acc : list mbid) (s : Store),
  exists added,
    add_recording_mbids_loop mbids acc s
    = inr ((acc ++ added)%list, with_recording (fun t => t ++ added)%list s)
    /\ NoDup added
    /\ (forall m, In m added <-> In m mbids /\ ~ In m (tbl_recording s)).
Proof.
  induction mbids as [|m rest IH]; intros acc s.
  - exists []. simpl. unfold ret. rewrite app_nil_r, with_recording_nil.
    split; [reflexivity|]. split; [constructor|]. intros x. tauto.
  - cbn [add_recording_mbids_loop]. unfold bind at 1, query.
    destruct (filter (String.eqb m) (tbl_recording s)) as [|x rows] eqn:Hrows.
    + apply filter_eqb_nil in Hrows. cbn [no_rows rowcount List.length Nat.eqb].
      unfold bind, execute.
      destruct (IH (acc ++ [m])%list (with_recording (fun t => t ++ [m])%list s))
        as (added & E & Hnd & Hiff).
      exists (m :: added). rewrite E, with_recording_snoc, <- app_assoc.
      split; [reflexivity|]. simpl in Hiff. split.
      * constructor; [|exact Hnd]. intros Hin. apply Hiff in Hin as [_ Hin].
        apply Hin, in_or_app. right. left. reflexivity.
      * intros y. simpl. rewrite Hiff, in_app_iff. simpl. split.
        -- intros [<-|[Hy Hn]]; [tauto|]. split; [tauto|]. intros Hy'. tauto.
        -- intros [[<-|Hy] Hn]; [tauto|].
           destruct (string_dec m y) as [->|Hne]; [tauto|]. right.
           split; [exact Hy|]. intros [H|[H|[]]]; [tauto | congruence].
    + assert (Hin : In m (tbl_recording s)).
      { destruct (in_dec string_dec m (tbl_recording s)) as [H|H]; [exact H|].
        apply filter_eqb_nil in H. rewrite H in Hrows. discriminate. }
      cbn [no_rows rowcount List.length Nat.eqb].
      destruct (IH acc s) as (added & E & Hnd & Hiff).
      exists added. split; [exact E|]. split; [exact Hnd|].
      intros y. rewrite Hiff. simpl. split; [tauto|].
      intros [[<-|Hy] Hn]; tauto.
Qed.

Lemma add_recording_mbids_effect (mbids : list mbid) (s : Store) :
  exists added,
    add_recording_mbids mbids s
    = (Returned added, with_recording (fun t => t ++ added)%list s)
    /\ NoDup added
    /\ (forall m, In m added <-> In m mbids /\ ~ In m (tbl_recording s)).
Proof.
  unfold add_recording_mbids, _add_recording_mbids, begin.
  destruct (add_recording_mbids_loop_spec mbids [] s) as (added & E & Hnd & Hiff).
  exists added. rewrite E. simpl. split; [reflexivity|]. split; assumption.
Qed.

(** [add_recording_mbids] appends exactly the requested mbids the table does
    not hold yet, each once, and returns them; afterwards every requested
    mbid is a known recording, and the same call again adds and returns
    nothing. *)
Theorem add_recording_mbids_registers_new (mbids : list mbid) (s : Store) :
  exists added,
    add_recording_mbids mbids s
    = (Returned added, with_recording (fun t => t ++ added)%list s)
    /\ NoDup added
    /\ (forall m, In m added <-> In m mbids /\ ~ In m (tbl_recording s))
    /\ (forall m, In m mbids ->
          In m (tbl_recording (snd (add_recording_mbids mbids s))))
    /\ add_recording_mbids mbids (snd (add_recording_mbids mbids s))
       = (Returned [], snd (add_recording_mbids mbids s)).
Proof.
  destruct (add_recording_mbids_effect mbids s) as (added & E & Hnd & Hiff).
  exists added. rewrite E. cbn [snd].
  assert (Hall : forall m, In m mbids ->
                 In m (tbl_recording (with_recording (fun t => t ++ added)%list s))).
  { intros m Hm. cbn [tbl_recording with_recording]. apply in_or_app.
    destruct (in_dec string_dec m (tbl_recording s)) as [H|H]; [left; exact H|].
    right. apply Hiff. tauto. }
  split; [reflexivity|]. split; [exact Hnd|]. split; [exact Hiff|].
  split; [exact Hall|].
  destruct (add_recording_mbids_effect mbids
              (with_recording (fun t => t ++ added)%list s))
    as (again & E2 & _ & Hiff2).
  rewrite E2. destruct again as [|m again].
  - rewrite with_recording_nil. reflexivity.
  - exfalso. destruct (proj1 (Hiff2 m) (or_introl eq_refl)) as [Hm Hn].
    exact (Hn (Hall m Hm)).
Qed.

(** ** Redirects *)

(** The store a redirect call leaves: the one it found when the two mbids
    are equal or the pair is already recorded, otherwise that store with the
    target registered if it was unknown and the pair appended. *)
Lemma check_mbid_redirect_effect (q a : mbid) (s : Store) :
  musicbrainz_check_mbid_redirect q a s
  = (Returned tt,
     if (q =? a)%string
        || negb (no_rows (filter (fun r => (rr_mbid r =? q)%string
                                           && (rr_new_mbid r =? a)%string)
                                 (tbl_recording_redirect s)))
     then s
     else with_recording_redirect
            (fun t => t ++ [{| rr_mbid := q; rr_new_mbid := a |}])%list
            (with_recording
               (fun t => t ++ (if in_dec string_dec a (tbl_recording s)
                               then [] else [a]))%list s)).
Proof.
  unfold musicbrainz_check_mbid_redirect.
  destruct (q =? a)%string; [reflexivity|]. simpl orb.
  unfold begin, bind at 1, query.
  destruct (no_rows _); [|reflexivity]. simpl negb. cbv iota.
  unfold _add_recording_mbids.
  destruct (add_recording_mbids_loop_spec [a] [] s) as (added & E & Hnd & Hiff).
  unfold bind, execute. rewrite E. f_equal. f_equal. f_equal.
  destruct (in_dec string_dec a (tbl_recording s)) as [Hin|Hout].
  - destruct added as [|x added]; [reflexivity|].
    destruct (proj1 (Hiff x) (or_introl eq_refl)) as [[<-|[]] Hn]. contradiction.
  - destruct added as [|x added].
    + exfalso. apply (proj2 (Hiff a)). split; [left; reflexivity | exact Hout].
    + destruct (proj1 (Hiff x) (or_introl eq_refl)) as [[<-|[]] _].
      destruct added as [|y added]; [reflexivity|].
      destruct (proj1 (Hiff y) (or_intror (or_introl eq_refl))) as [[<-|[]] _].
      inversion Hnd as [|? ? Hx _]. exfalso. apply Hx. left. reflexivity.
Qed.

(** A redirect call never raises; a redirect of an mbid to itself changes
    nothing; and the same call again changes nothing. *)
Theorem check_mbid_redirect_idempotent (q a : mbid) (s : Store) :
  fst (musicbrainz_check_mbid_redirect q a s) = Returned tt
  /\ musicbrainz_check_mbid_redirect q q s = (Returned tt, s)
  /\ musicbrainz_check_mbid_redirect q a
       (snd (musicbrainz_check_mbid_redirect q a s))
     = (Returned tt, snd (musicbrainz_check_mbid_redirect q a s)).
Proof.
  split; [rewrite check_mbid_redirect_effect; reflexivity|].
  split; [rewrite check_mbid_redirect_effect, String.eqb_refl; reflexivity|].
  rewrite (check_mbid_redirect_effect q a s). cbn [snd].
  rewrite check_mbid_redirect_effect. f_equal.
  destruct (q =? a)%string eqn:Hqa; [reflexivity|]. cbn [orb].
  destruct (no_rows (filter _ (tbl_recording_redirect s))) eqn:Hrows;
    cbn [negb]; [|rewrite Hrows; reflexivity].
  cbn [tbl_recording_redirect with_recording_redirect with_recording].
  rewrite filter_app_one. cbn [rr_mbid rr_new_mbid].
  rewrite !String.eqb_refl. cbn [andb].
  destruct (filter _ (tbl_recording_redirect s)); reflexivity.
Qed.

(** ** The identity tables along the calls *)

Lemma run_keeps_identities_well_formed (uuid_parses : string -> bool) (o : op)
  (s : Store) :
  identities_well_formed s -> identities_well_formed (run uuid_parses o s).
Proof.
  intros (Hrec & Hred & Hrows). unfold identities_well_formed.
  destruct o;
    try (rewrite (run_unchanged tbl_recording) by ignored;
         rewrite (run_unchanged tbl_recording_redirect) by ignored;
         repeat split; solve [assumption | apply Hrows; assumption]).
  - cbn [run].
    destruct (add_recording_mbids_effect mbids s) as (added & E & Hnd & Hiff).
    rewrite E. cbn [snd tbl_recording tbl_recording_redirect with_recording].
    split; [|split; [exact Hred|]].
    + apply NoDup_app; [exact Hrec | exact Hnd |].
      intros m Hm Hin. apply Hiff in Hin. tauto.
    + intros r Hr. destruct (Hrows r Hr) as [Hne Hin].
      split; [exact Hne | apply in_or_app; left; exact Hin].
  - cbn [run]. rewrite check_mbid_redirect_effect. cbn [snd].
    destruct (String.eqb_spec query_mbid actual_mbid) as [Heq|Hne]; cbn [orb];
      [repeat split; solve [assumption | apply Hrows; assumption]|].
    destruct (filter _ (tbl_recording_redirect s)) as [|r0 rows] eqn:Hpair;
      cbn [no_rows rowcount List.length Nat.eqb negb];
      [|repeat split; solve [assumption | apply Hrows; assumption]].
    cbn [tbl_recording tbl_recording_redirect with_recording_redirect with_recording].
    split; [|split].
    + destruct (in_dec string_dec actual_mbid (tbl_recording s)) as [Hin|Hout].
      * rewrite app_nil_r. exact Hrec.
      * apply NoDup_snoc; assumption.
    + apply NoDup_snoc; [exact Hred|]. intros Hin.
      rewrite filter_nil_iff in Hpair. specialize (Hpair _ Hin).
      cbn [rr_mbid rr_new_mbid] in Hpair.
      rewrite !String.eqb_refl in Hpair. discriminate.
    + intros r Hr. apply in_app_or in Hr as [Hr|[<-|[]]].
      * destruct (Hrows r Hr) as [Hne' Hin].
        split; [exact Hne' | apply in_or_app; left; exact Hin].
      * cbn [rr_mbid rr_new_mbid]. split; [exact Hne|].
        apply in_or_app.
        destruct (in_dec string_dec actual_mbid (tbl_recording s)) as [Hin|Hout];
          [left; exact Hin | right; left; reflexivity].
Qed.

(** In every store the calls of [data.py] lead to from the empty one, no
    recording and no redirect pair is stored twice, no mbid redirects to
    itself, and every redirect target is a known recording. *)
Theorem reachable_identities_well_formed (uuid_parses : string -> bool)
  (s : Store) :
  reachable_from uuid_parses empty_store s -> identities_well_formed s.
Proof.
  intros Hreach. induction Hreach as [|o s' _ IH].
  - split; [constructor|]. split; [constructor|]. intros r [].
  - apply run_keeps_identities_well_formed, IH.
Qed.

Lemma reachable_identities_well_formed_witness :
  identities_well_formed
    (run (fun _ => true) (CheckMbidRedirect "old" "new")
       (run (fun _ => true) (AddRecordingMbids ["new"; "x"; "new"]) empty_store)).
Proof.
  apply (reachable_identities_well_formed (fun _ => true)).
  apply reach_step, reach_step, reach_refl.
Defined.

(** ** The metadata tables along the calls *)

Lemma update_recording_meta_mbid (recording : recording_dict)
  (r : recording_meta_row) :
  rm_mbid (update_recording_meta recording r) = rm_mbid r.
Proof.
  unfold update_recording_meta.
  destruct (rm_mbid r =? rec_mbid recording)%string; reflexivity.
Qed.

Lemma map_snoc {A B} (f : A -> B) (l : list A) (x : A) :
  map f (l ++ [x]) = (map f l ++ [f x])%list.
Proof. rewrite map_app. reflexivity. Qed.

Lemma not_in_keys {A} (key : A -> mbid) (m : mbid) (t : list A) :
  filter (fun r => (key r =? m)%string) t = [] -> ~ In m (map key t).
Proof.
  intros Hnone Hin. apply in_map_iff in Hin as (r & <- & Hr).
  rewrite filter_nil_iff in Hnone. specialize (Hnone r Hr).
  rewrite String.eqb_refl in Hnone. discriminate.
Qed.

Lemma add_recording_meta_keeps_metadata (recording : recording_dict) :
  keeps metadata_well_formed (_add_recording_meta recording).
Proof.
  intros s a s' (Hrm & Hrgm & Hrg) E.
  unfold _add_recording_meta, _get_recording_meta, bind, query, execute, ret in E.
  destruct (filter _ (tbl_recording_meta s)) as [|e rest] eqn:Hrows;
    cbn [fetchone hd_error] in E.
  - inversion E; subst; clear E. unfold metadata_well_formed.
    cbn [tbl_recording_meta tbl_release_group_meta tbl_release_group
         with_recording_meta].
    split; [|split; assumption].
    rewrite map_snoc. apply NoDup_snoc; [exact Hrm|].
    apply not_in_keys. exact Hrows.
  - destruct (_ >=? _); inversion E; subst; clear E;
      [split; [|split]; assumption|].
    unfold metadata_well_formed.
    cbn [tbl_recording_meta tbl_release_group_meta tbl_release_group
         with_recording_meta].
    split; [|split; assumption].
    rewrite map_map.
    rewrite (map_ext _ rm_mbid (update_recording_meta_mbid recording)).
    exact Hrm.
Qed.

Lemma add_release_group_meta_keeps_metadata (release_group : release_group_dict) :
  keeps metadata_well_formed (_add_release_group_meta release_group).
Proof.
  intros s a s' (Hrm & Hrgm & Hrg) E.
  unfold _add_release_group_meta, _get_release_group_meta, bind, query, execute,
    ret in E.
  destruct (filter _ (tbl_release_group_meta s)) as [|e rest] eqn:Hrows;
    cbn [fetchone hd_error] in E.
  - inversion E; subst; clear E. unfold metadata_well_formed.
    cbn [tbl_recording_meta tbl_release_group_meta tbl_release_group
         with_release_group_meta with_release_group].
    split; [exact Hrm|]. rewrite map_snoc. split.
    + apply NoDup_snoc; [exact Hrgm|]. apply not_in_keys. exact Hrows.
    + rewrite Hrg. reflexivity.
  - destruct (_ >=? _); inversion E; subst; clear E;
      [split; [|split]; assumption|].
    unfold metadata_well_formed.
    cbn [tbl_recording_meta tbl_release_group_meta tbl_release_group
         with_release_group_meta].
    rewrite map_map.
    rewrite (map_ext _ rgm_mbid (update_release_group_meta_mbid release_group)).
    split; [|split]; assumption.
Qed.

Lemma add_link_keeps_associations (r g : mbid) :
  keeps associations_well_formed (_add_link_recording_release_group r g).
Proof.
  intros s a s' Hnd E.
  unfold _add_link_recording_release_group, bind, query, execute, ret in E.
  destruct (filter _ (tbl_recording_release_group s)) as [|e rest] eqn:Hrows;
    cbn [no_rows rowcount List.length Nat.eqb] in E;
    inversion E; subst; clear E; [|exact Hnd].
  unfold associations_well_formed.
  cbn [tbl_recording_release_group with_recording_release_group].
  apply NoDup_snoc; [exact Hnd|]. intros Hin.
  rewrite filter_nil_iff in Hrows. specialize (Hrows _ Hin).
  cbn [lk_recording_mbid lk_release_group_mbid] in Hrows.
  rewrite !String.eqb_refl in Hrows. discriminate.
Qed.

Lemma cache_release_groups_keeps_metadata (r : mbid) (rgs : list release_group_dict) :
  keeps (fun s => metadata_well_formed s /\ associations_well_formed s)
        (cache_release_groups r rgs).
Proof.
  induction rgs as [|rg rest IH]; simpl; [apply keeps_ret|].
  apply keeps_bind; [|intros _; apply keeps_bind; [|intros _; exact IH]].
  - intros s a s' [Hm Ha] E. split.
    + exact (add_release_group_meta_keeps_metadata rg s a s' Hm E).
    + unfold associations_well_formed.
      rewrite (add_release_group_meta_frame tbl_recording_release_group rg
                 ltac:(reflexivity) ltac:(reflexivity) _ _ _ E).
      exact Ha.
  - intros s a s' [(Hrm & Hrgm & Hrg) Ha] E. split.
    + unfold metadata_well_formed.
      rewrite (add_link_frame tbl_recording_meta r (rg_mbid rg)
                 ltac:(reflexivity) _ _ _ E).
      rewrite (add_link_frame tbl_release_group_meta r (rg_mbid rg)
                 ltac:(reflexivity) _ _ _ E).
      rewrite (add_link_frame tbl_release_group r (rg_mbid rg)
                 ltac:(reflexivity) _ _ _ E).
      split; [|split]; assumption.
    + exact (add_link_keeps_associations r (rg_mbid rg) s a s' Ha E).
Qed.

Lemma run_keeps_metadata_well_formed (uuid_parses : string -> bool) (o : op)
  (s : Store) :
  metadata_well_formed s /\ associations_well_formed s ->
  metadata_well_formed (run uuid_parses o s)
  /\ associations_well_formed (run uuid_parses o s).
Proof.
  intros [(Hrm & Hrgm & Hrg) Ha].
  unfold metadata_well_formed, associations_well_formed.
  destruct o;
    try (rewrite (run_unchanged tbl_recording_meta) by ignored;
         rewrite (run_unchanged tbl_release_group_meta) by ignored;
         rewrite (run_unchanged tbl_release_group) by ignored;
         rewrite (run_unchanged tbl_recording_release_group) by ignored;
         repeat split; assumption).
  cbn [run]. unfold cache_musicbrainz_metadata.
  apply (keeps_begin (fun s => metadata_well_formed s /\ associations_well_formed s));
    [|split; [split; [|split]|]; assumption].
  apply keeps_bind; [|intros _; apply cache_release_groups_keeps_metadata].
  intros s0 a s' [Hm Ha0] E. split.
  - exact (add_recording_meta_keeps_metadata recording s0 a s' Hm E).
  - unfold associations_well_formed.
    rewrite (add_recording_meta_frame tbl_recording_release_group recording
               ltac:(reflexivity) _ _ _ E).
    exact Ha0.
Qed.

(** In every store the calls of [data.py] lead to from the empty one, an
    mbid has at most one [recording_meta] row and at most one
    [release_group_meta] row, the [release_group] table lists the mbids of
    the release-group metadata row for row, and no link is stored twice. *)
Theorem reachable_metadata_well_formed (uuid_parses : string -> bool) (s : Store) :
  reachable_from uuid_parses empty_store s ->
  metadata_well_formed s /\ associations_well_formed s.
Proof.
  intros Hreach. induction Hreach as [|o s' _ IH].
  - split; [split; [|split]|]; constructor.
  - apply run_keeps_metadata_well_formed, IH.
Qed.

Lemma reachable_metadata_well_formed_witness :
  metadata_well_formed
    (run (fun _ => true) (CacheMusicbrainzMetadata sample_with_groups)
       release_group_store)
  /\ associations_well_formed
       (run (fun _ => true) (CacheMusicbrainzMetadata sample_with_groups)
          release_group_store).
Proof.
  apply (reachable_metadata_well_formed (fun _ => true)).
  apply reach_step.
  apply (reach_step (fun _ => true) empty_store
           (CacheMusicbrainzMetadata sample_with_groups)), reach_refl.
Defined.

(** ** The item ledger along the calls *)

(** What [add_item] returns and the store it leaves. *)
Lemma add_item_effect (scraper : scraper_dict) (m : mbid) (data : Py.pyvalue)
  (s : Store) :
  add_item scraper m data s
  = if no_rows (item_rows scraper m s) then
      (Returned true,
       with_item_data
         (fun t => t ++ (if Py.truthy data
                         then [{| itd_item_id := seq_item_id s + 1;
                                  itd_data := if Py.is_dict_or_list data
                                              then Py.PyStr (Py.json_dumps data)
                                              else data |}]
                         else []))%list
         (with_item
            (fun t => t ++ [{| it_id := seq_item_id s + 1;
                               it_scraper_id := sc_id scraper;
                               it_mbid := m |}])%list
            (seq_item_id s + 1) s))
    else (Returned false, s).
Proof.
  unfold add_item, begin, _add_item_w_connection, bind, query, item_rows.
  destruct (no_rows _); [|reflexivity].
  unfold insert_item. cbn [it_id].
  destruct (Py.truthy data); [reflexivity|].
  unfold ret. f_equal. destruct s; unfold with_item_data, with_item; simpl.
  rewrite app_nil_r. reflexivity.
Qed.

(** The text [json.dumps] gives for a list or a dictionary is not empty. *)
Lemma stored_payload_truthy (data : Py.pyvalue) :
  Py.truthy data = true ->
  Py.truthy (if Py.is_dict_or_list data
             then Py.PyStr (Py.json_dumps data) else data) = true.
Proof.
  intros H. destruct data; try exact H; reflexivity.
Qed.

Lemma run_keeps_ledger_well_formed (uuid_parses : string -> bool) (o : op)
  (s : Store) :
  ledger_well_formed s -> ledger_well_formed (run uuid_parses o s).
Proof.
  intros (Hpairs & Hids & Hseq & Hbound & Hdata & Hrows).
  unfold ledger_well_formed.
  destruct o as [tok adm|tok|name|mbids|src md ty ver descr|scraper m data|q a
                |recording];
    try (rewrite (run_unchanged tbl_item) by ignored;
         rewrite (run_unchanged seq_item_id) by ignored;
         rewrite (run_unchanged tbl_item_data) by ignored;
         repeat split; solve [assumption | apply Hbound; assumption
                             | apply Hrows; assumption]).
  cbn [run]. rewrite add_item_effect.
  destruct (item_rows scraper m s) as [|i0 rows] eqn:Hnone;
    cbn [no_rows rowcount List.length Nat.eqb snd];
    [|repeat split; solve [assumption | apply Hbound; assumption
                          | apply Hrows; assumption]].
  cbn [tbl_item seq_item_id tbl_item_data with_item with_item_data].
  assert (Hfresh : ~ In (seq_item_id s + 1) (map it_id (tbl_item s))).
  { intros Hin. apply in_map_iff in Hin as (i & E & Hi).
    specialize (Hbound i Hi). lia. }
  split; [|split; [|split; [|split; [|split]]]].
  - rewrite map_snoc. apply NoDup_snoc; [exact Hpairs|].
    intros Hin. apply in_map_iff in Hin as (i & E & Hi). inversion E.
    unfold item_rows in Hnone. rewrite filter_nil_iff in Hnone.
    specialize (Hnone i Hi). cbv beta in Hnone.
    rewrite H0, H1, String.eqb_refl, Z.eqb_refl in Hnone. discriminate.
  - rewrite map_snoc. apply NoDup_snoc; assumption.
  - lia.
  - intros i Hi. apply in_app_or in Hi as [Hi|[<-|[]]].
    + specialize (Hbound i Hi). lia.
    + cbn [it_id]. lia.
  - destruct (Py.truthy data); [|rewrite app_nil_r; exact Hdata].
    rewrite map_snoc. apply NoDup_snoc; [exact Hdata|].
    cbn [itd_item_id]. intros Hin. apply in_map_iff in Hin as (d & E & Hd).
    destruct (Hrows d Hd) as (_ & i & Hi & Eid).
    apply Hfresh. rewrite <- E, <- Eid. apply in_map, Hi.
  - intros d Hd. apply in_app_or in Hd as [Hd|Hd].
    + destruct (Hrows d Hd) as (Ht & i & Hi & Eid).
      split; [exact Ht|]. exists i. split; [apply in_or_app; left; exact Hi | exact Eid].
    + destruct (Py.truthy data) eqn:Ht; [|destruct Hd].
      destruct Hd as [<-|[]]. cbn [itd_data itd_item_id].
      split; [apply stored_payload_truthy; exact Ht|].
      eexists. split; [apply in_or_app; right; left; reflexivity | reflexivity].
Qed.

(** In every store the calls of [data.py] lead to from the empty one, a
    scraper has at most one item per mbid, item ids are positive, below the
    sequence and never shared, an item has at most one payload, and every
    stored payload belongs to an item and is not empty. *)
Theorem reachable_ledger_well_formed (uuid_parses : string -> bool) (s : Store) :
  reachable_from uuid_parses empty_store s -> ledger_well_formed s.
Proof.
  intros Hreach. induction Hreach as [|o s' _ IH].
  - unfold ledger_well_formed. simpl.
    repeat split; try constructor; try lia; intros ? [].
  - apply run_keeps_ledger_well_formed, IH.
Qed.

Lemma reachable_ledger_well_formed_witness :
  ledger_well_formed
    (run (fun _ => true) (AddItem queue_scraper "a" sample_payload)
       (run (fun _ => true) (AddItem queue_scraper "a" Py.PyNone) empty_store)).
Proof.
  apply (reachable_ledger_well_formed (fun _ => true)).
  apply reach_step, reach_step, reach_refl.
Defined.

(** ** Sources and scrapers *)

Lemma valid_mb_type (mb_type : string) :
  negb (existsb (String.eqb mb_type) ["recording"; "release_group"]) = false ->
  mb_type = "recording" \/ mb_type = "release_group".
Proof.
  cbn [existsb]. rewrite orb_false_r, negb_false_iff, orb_true_iff, !String.eqb_eq.
  tauto.
Qed.

Lemma run_keeps_registry_well_formed (uuid_parses : string -> bool) (o : op)
  (s : Store) :
  registry_well_formed s -> registry_well_formed (run uuid_parses o s).
Proof.
  intros (Hsrc & Hsseq & Hsb & Hsc & Hcseq & Hcb).
  unfold registry_well_formed.
  destruct o as [tok adm|tok|name|mbids|src md ty ver descr|scraper m data|q a
                |recording];
    try (rewrite (run_unchanged tbl_source) by ignored;
         rewrite (run_unchanged seq_source_id) by ignored;
         rewrite (run_unchanged tbl_scraper) by ignored;
         rewrite (run_unchanged seq_scraper_id) by ignored;
         repeat split; solve [assumption | apply Hsb; assumption
                             | apply Hcb; assumption]).
  - cbn [run add_source begin snd tbl_source seq_source_id tbl_scraper
         seq_scraper_id with_source].
    split; [|split; [lia|split; [|split; [exact Hsc|split; [exact Hcseq|exact Hcb]]]]].
    + rewrite map_snoc. apply NoDup_snoc; [exact Hsrc|]. cbn [src_id].
      intros Hin. apply in_map_iff in Hin as (r & E & Hr).
      specialize (Hsb r Hr). lia.
    + intros r Hr. apply in_app_or in Hr as [Hr|[<-|[]]].
      * specialize (Hsb r Hr). lia.
      * cbn [src_id]. lia.
  - cbn [run]. unfold add_scraper.
    destruct (negb _) eqn:Hvalid;
      [cbn [snd]; repeat split; solve [assumption | apply Hsb; assumption
                                      | apply Hcb; assumption]|].
    apply valid_mb_type in Hvalid.
    cbn [begin snd tbl_source seq_source_id tbl_scraper seq_scraper_id with_scraper].
    split; [exact Hsrc|]. split; [exact Hsseq|]. split; [exact Hsb|].
    split; [|split; [lia|]].
    + rewrite map_snoc. apply NoDup_snoc; [exact Hsc|]. cbn [sc_id].
      intros Hin. apply in_map_iff in Hin as (r & E & Hr).
      destruct (Hcb r Hr) as [Hb _]. lia.
    + intros r Hr. apply in_app_or in Hr as [Hr|[<-|[]]].
      * destruct (Hcb r Hr) as [Hb Hty]. split; [lia | exact Hty].
      * cbn [sc_id sc_mb_type]. split; [lia | exact Hvalid].
Qed.

(** In every store the calls of [data.py] lead to from the empty one, source
    ids and scraper ids are positive, below their sequences and never
    shared, and every scraper's [mb_type] is [recording] or
    [release_group]. *)
Theorem reachable_registry_well_formed (uuid_parses : string -> bool) (s : Store) :
  reachable_from uuid_parses empty_store s -> registry_well_formed s.
Proof.
  intros Hreach. induction Hreach as [|o s' _ IH].
  - unfold registry_well_formed. simpl.
    repeat split; try constructor; try lia; intros ? [].
  - apply run_keeps_registry_well_formed, IH.
Qed.

Lemma reachable_registry_well_formed_witness :
  registry_well_formed
    (run (fun _ => true)
       (AddScraper {| src_id := 1; src_name := "musicbrainz" |} "mod" "album" 1 "")
       (run (fun _ => true)
          (AddScraper {| src_id := 1; src_name := "musicbrainz" |} "mod"
             "recording" 1 "")
          (run (fun _ => true) (AddSource "musicbrainz") empty_store))).
Proof.
  apply (reachable_registry_well_formed (fun _ => true)).
  apply reach_step, reach_step, reach_step, reach_refl.
Defined.

(** [latest], started from [best]: the result is [best] or a row of the
    list, and no row and not [best] has a higher version. *)
Lemma fold_latest (rows : list scraper_row) (best : option scraper_row) :
  let step := fun best r =>
                match best with
                | None => Some r
                | Some b => if sc_version b <? sc_version r then Some r else Some b
                end in
  match fold_left step rows best with
  | None => best = None /\ rows = []
  | Some r =>
      (best = Some r \/ In r rows)
      /\ (forall b, best = Some b -> sc_version b <= sc_version r)
      /\ (forall r', In r' rows -> sc_version r' <= sc_version r)
  end.
Proof.
  intros step. revert best. induction rows as [|x rows IH]; intros best.
  - simpl. destruct best as [b|]; [|tauto].
    split; [left; reflexivity|]. split; [intros b' [= <-]; lia | intros r' []].
  - cbn [fold_left]. specialize (IH (step best x)).
    destruct (fold_left step rows (step best x)) as [r|].
    + destruct IH as (Hin & Hbest & Hrows).
      assert (Hx : sc_version x <= sc_version r).
      { destruct best as [b|]; cbn [step] in Hbest.
        - destruct (Z.ltb_spec (sc_version b) (sc_version x));
            [apply Hbest; reflexivity|].
          specialize (Hbest b eq_refl). lia.
        - apply Hbest. reflexivity. }
      split; [|split].
      * destruct Hin as [Hin|Hin]; [|right; right; exact Hin].
        destruct best as [b|]; cbn [step] in Hin.
        -- destruct (sc_version b <? sc_version x); inversion Hin; subst;
             [right; left; reflexivity | left; reflexivity].
        -- inversion Hin; subst. right. left. reflexivity.
      * intros b ->. cbn [step] in Hbest.
        destruct (Z.ltb_spec (sc_version b) (sc_version x)).
        -- specialize (Hbest x eq_refl). lia.
        -- apply Hbest. reflexivity.
      * intros r' [<-|Hr']; [exact Hx | apply Hrows, Hr'].
    + destruct IH as [Hnone _]. destruct best as [b|]; cbn [step] in Hnone.
      * destruct (sc_version b <? sc_version x); discriminate.
      * discriminate.
Qed.

Lemma latest_of_source (source : source_dict) (s : Store) :
  match load_latest_scraper_for_source source s with
  | None => Lookups.load_scrapers_for_source source s = []
  | Some r =>
      In r (tbl_scraper s)
      /\ sc_source_id r = src_id source
      /\ (forall r', In r' (tbl_scraper s) -> sc_source_id r' = src_id source ->
                     sc_version r' <= sc_version r)
  end.
Proof.
  unfold load_latest_scraper_for_source, latest, Lookups.load_scrapers_for_source.
  pose proof (fold_latest (filter (fun r => sc_source_id r =? src_id source)
                                  (tbl_scraper s)) None) as H.
  cbv zeta in H.
  destruct (fold_left _ _ None) as [r|].
  - destruct H as ([Hin|Hin] & _ & Hmax); [discriminate|].
    apply filter_In in Hin as [Hin Hsrc]. apply Z.eqb_eq in Hsrc.
    split; [exact Hin|]. split; [exact Hsrc|].
    intros r' Hr' Hs'. apply Hmax. apply filter_In. split; [exact Hr'|].
    apply Z.eqb_eq. exact Hs'.
  - exact (proj2 H).
Qed.

(** [load_latest_scraper_for_source] answers nothing exactly when the source
    has no scraper, and otherwise a scraper of the source whose version no
    scraper of the source exceeds. *)
Theorem load_latest_scraper_is_newest (source : source_dict) (s : Store) :
  (load_latest_scraper_for_source source s = None
   <-> forall r, In r (tbl_scraper s) -> sc_source_id r <> src_id source)
  /\ (forall r, load_latest_scraper_for_source source s = Some r ->
        In r (tbl_scraper s)
        /\ sc_source_id r = src_id source
        /\ (forall r', In r' (tbl_scraper s) -> sc_source_id r' = src_id source ->
                       sc_version r' <= sc_version r)).
Proof.
  pose proof (latest_of_source source s) as H.
  destruct (load_latest_scraper_for_source source s) as [r0|].
  - destruct H as (Hin & Hsrc & Hmax). split.
    + split; [discriminate|]. intros Hnone. exfalso. exact (Hnone r0 Hin Hsrc).
    + intros r [= <-]. split; [exact Hin|]. split; [exact Hsrc | exact Hmax].
  - split; [|discriminate]. split; [|reflexivity]. intros _ r Hr Hsrc.
    unfold Lookups.load_scrapers_for_source in H. rewrite filter_nil_iff in H.
    specialize (H r Hr). apply Z.eqb_neq in H. contradiction.
Qed.

(** A registration with a supported [mb_type] returns the row it appends,
    with the arguments as given and the next id of the sequence; the
    scrapers of the source are then the former ones followed by that row,
    and the latest scraper of the source has at least its version. *)
Theorem add_scraper_registers (source : source_dict) (module mb_type : string)
  (version : Z) (description : string) (s : Store) :
  mb_type = "recording" \/ mb_type = "release_group" ->
  let row := {| sc_id := seq_scraper_id s + 1; sc_source_id := src_id source;
                sc_module := module; sc_mb_type := mb_type;
                sc_version := version; sc_description := description |} in
  let s' := with_scraper (fun t => t ++ [row])%list (seq_scraper_id s + 1) s in
  add_scraper source module mb_type version description s = (Returned row, s')
  /\ Lookups.load_scrapers_for_source source s'
     = (Lookups.load_scrapers_for_source source s ++ [row])%list
  /\ exists newest,
       load_latest_scraper_for_source source s' = Some newest
       /\ version <= sc_version newest.
Proof.
  intros Hvalid row s'. split; [|split].
  - unfold add_scraper.
    destruct Hvalid as [-> | ->]; reflexivity.
  - unfold Lookups.load_scrapers_for_source. subst s'.
    cbn [tbl_scraper with_scraper]. rewrite filter_app_one.
    subst row. cbn [sc_source_id]. rewrite Z.eqb_refl. reflexivity.
  - pose proof (latest_of_source source s') as H.
    destruct (load_latest_scraper_for_source source s') as [newest|].
    + exists newest. split; [reflexivity|].
      destruct H as (_ & _ & Hmax).
      apply (Hmax row); [|reflexivity].
      subst s'. cbn [tbl_scraper with_scraper]. apply in_or_app. right. left.
      reflexivity.
    + exfalso. unfold Lookups.load_scrapers_for_source in H. subst s'.
      cbn [tbl_scraper with_scraper] in H. rewrite filter_app_one in H.
      subst row. cbn [sc_source_id] in H. rewrite Z.eqb_refl in H.
      apply app_eq_nil in H as [_ H]. discriminate.
Qed.

Lemma add_scraper_registers_witness :
  exists newest,
    load_latest_scraper_for_source {| src_id := 1; src_name := "musicbrainz" |}
      (snd (add_scraper {| src_id := 1; src_name := "musicbrainz" |} "mod"
              "release_group" 3 "third" empty_store))
    = Some newest
    /\ 3 <= sc_version newest.
Proof.
  destruct (add_scraper_registers {| src_id := 1; src_name := "musicbrainz" |}
              "mod" "release_group" 3 "third" empty_store
              (or_intror eq_refl)) as (_ & _ & H).
  exact H.
Defined.

Lemma load_latest_scraper_is_newest_witness :
  load_latest_scraper_for_source {| src_id := 7; src_name := "none" |}
    (snd (add_scraper {| src_id := 1; src_name := "musicbrainz" |} "mod"
            "recording" 1 "" empty_store))
  = None.
Proof.
  apply (proj1 (load_latest_scraper_is_newest {| src_id := 7; src_name := "none" |}
                  (snd (add_scraper {| src_id := 1; src_name := "musicbrainz" |}
                          "mod" "recording" 1 "" empty_store)))).
  intros r [<-|[]]. discriminate.
Defined.

(** ** Sources by name *)

(** For a name no source has yet: [load_source] answers nothing;
    [add_source] returns the row it appends, with the next id of the
    sequence; [load_source] of the name then answers that row, and every
    other name is answered as before. *)
Theorem add_source_then_load (name : string) (s : Store) :
  (forall r, In r (tbl_source s) -> src_name r <> name) ->
  let row := {| src_id := seq_source_id s + 1; src_name := name |} in
  let s' := with_source (fun t => t ++ [row])%list (seq_source_id s + 1) s in
  load_source name s = None
  /\ add_source name s = (Returned row, s')
  /\ load_source name s' = Some row
  /\ (forall other, other <> name -> load_source other s' = load_source other s).
Proof.
  intros Hnew row s'.
  assert (Hnone : filter (fun r => (src_name r =? name)%string) (tbl_source s) = []).
  { apply filter_nil_iff. intros r Hr. apply String.eqb_neq. exact (Hnew r Hr). }
  split; [|split; [reflexivity|split]].
  - unfold load_source. rewrite Hnone. reflexivity.
  - unfold load_source. subst s'. cbn [tbl_source with_source].
    rewrite filter_app_one, Hnone. subst row. cbn [src_name].
    rewrite String.eqb_refl. reflexivity.
  - intros other Hne. unfold load_source. subst s'. cbn [tbl_source with_source].
    rewrite filter_app_one. subst row. cbn [src_name].
    destruct (String.eqb_spec name other) as [E|_]; [congruence|].
    rewrite app_nil_r. reflexivity.
Qed.

Lemma add_source_then_load_witness :
  load_source "musicbrainz" (snd (add_source "musicbrainz" empty_store))
  = Some {| src_id := 1; src_name := "musicbrainz" |}
  /\ load_source "acousticbrainz" (snd (add_source "musicbrainz" empty_store))
     = None.
Proof.
  destruct (add_source_then_load "musicbrainz" empty_store) as (_ & _ & Hload & Hother).
  - intros r [].
  - split; [exact Hload|].
    exact (Hother "acousticbrainz" ltac:(discriminate)).
Defined.

(** ** Tokens *)

Section Tokens.
Variable uuid_parses : string -> bool.

(** A token that is no UUID is never found, and removing it leaves the
    store alone.  A well-formed token is found once added and is not found
    once removed, while every other token is answered as before the
    removal. *)
Theorem token_round_trip (token : string) (admin : bool) (s : Store) :
  (uuid_parses token = false ->
   Lookups.get_token uuid_parses token s = None
   /\ remove_token uuid_parses token s = (Returned tt, s))
  /\ (uuid_parses token = true ->
      (exists r, Lookups.get_token uuid_parses token (snd (add_token token admin s))
                 = Some r /\ tk_token r = token)
      /\ Lookups.get_token uuid_parses token (snd (remove_token uuid_parses token s))
         = None
      /\ (forall other, other <> token ->
            Lookups.get_token uuid_parses other (snd (remove_token uuid_parses token s))
            = Lookups.get_token uuid_parses other s)).
Proof.
  split.
  - intros Hbad. unfold Lookups.get_token, remove_token. rewrite Hbad.
    split; reflexivity.
  - intros Hok. split; [|split].
    + unfold Lookups.get_token, add_token. rewrite Hok.
      cbn [begin bind execute ret snd tbl_token with_token].
      rewrite filter_app_one. cbn [tk_token]. rewrite String.eqb_refl.
      destruct (filter _ (tbl_token s)) as [|r rows] eqn:Hrows.
      * eexists. split; reflexivity.
      * exists r. split; [reflexivity|].
        assert (Hin : In r (filter (fun r => (tk_token r =? token)%string)
                                   (tbl_token s)))
          by (rewrite Hrows; left; reflexivity).
        apply filter_In in Hin as [_ Hin]. apply String.eqb_eq. exact Hin.
    + unfold Lookups.get_token, remove_token. rewrite Hok.
      cbn [begin execute snd tbl_token with_token].
      replace (filter (fun r => (tk_token r =? token)%string)
                 (filter (fun r => negb (tk_token r =? token)%string) (tbl_token s)))
        with (@nil token_row); [reflexivity|].
      symmetry. apply filter_nil_iff. intros r Hr.
      apply filter_In in Hr as [_ Hr]. apply negb_true_iff. exact Hr.
    + intros other Hne. unfold Lookups.get_token, remove_token. rewrite Hok.
      cbn [begin execute snd tbl_token with_token].
      destruct (uuid_parses other); [|reflexivity].
      replace (filter (fun r => (tk_token r =? other)%string)
                 (filter (fun r => negb (tk_token r =? token)%string) (tbl_token s)))
        with (filter (fun r => (tk_token r =? other)%string) (tbl_token s));
        [reflexivity|].
      induction (tbl_token s) as [|r t IH]; [reflexivity|]. simpl.
      destruct (String.eqb_spec (tk_token r) token) as [E|N]; simpl.
      * destruct (String.eqb_spec (tk_token r) other) as [E'|_]; [congruence|].
        exact IH.
      * destruct (tk_token r =? other)%string; [rewrite IH|]; [reflexivity|exact IH].
Qed.

End Tokens.

Lemma token_round_trip_witness :
  Lookups.get_token (fun t => String.length t =? 36)%nat "not-a-uuid"
    (snd (add_token "not-a-uuid" false empty_store)) = None
  /\ Lookups.get_token (fun t => String.length t =? 36)%nat
       "8f14e45f-ceea-467f-a9d6-02d7c4b0a1f3"
       (snd (remove_token (fun t => String.length t =? 36)%nat
               "8f14e45f-ceea-467f-a9d6-02d7c4b0a1f3"
               (snd (add_token "8f14e45f-ceea-467f-a9d6-02d7c4b0a1f3" true
                       empty_store))))
     = None.
Proof.
  split.
  - apply (proj1 (token_round_trip (fun t => String.length t =? 36)%nat
                    "not-a-uuid" false
                    (snd (add_token "not-a-uuid" false empty_store)))).
    reflexivity.
  - apply (proj2 (token_round_trip (fun t => String.length t =? 36)%nat
                    "8f14e45f-ceea-467f-a9d6-02d7c4b0a1f3" true
                    (snd (add_token "8f14e45f-ceea-467f-a9d6-02d7c4b0a1f3" true
                            empty_store)))).
    reflexivity.
Defined.

(** ** The work queues, row by row *)

Lemma filter_filter {A} (p q : A -> bool) (l : list A) :
  filter q (filter p l) = filter (fun x => p x && q x) l.
Proof.
  induction l as [|x l IH]; simpl; [reflexivity|].
  destruct (p x); simpl; [destruct (q x)|]; rewrite IH; reflexivity.
Qed.

Lemma mbid_filter_iff (wanted : option mbid) (m : mbid) :
  mbid_filter wanted m = true <-> forall w, wanted = Some w -> m = w.
Proof.
  destruct wanted as [w|]; simpl.
  - rewrite String.eqb_eq. split; [intros -> w' [= <-]; reflexivity|].
    intros H. apply H. reflexivity.
  - split; [intros _ w [=] | reflexivity].
Qed.

(** The rows of [get_unprocessed_recordings_for_scraper]. *)
Lemma in_unprocessed_recordings (scraper : scraper_dict) (wanted : option mbid)
  (s : Store) (x : unprocessed_recording) :
  In x (get_unprocessed_recordings_for_scraper scraper wanted s)
  <-> In (ur_mbid x) (tbl_recording s)
      /\ (exists t, In {| rm_mbid := ur_mbid x; rm_name := ur_name x;
                          rm_artist_credit := ur_artist_credit x;
                          rm_last_updated := t |} (tbl_recording_meta s))
      /\ (forall rr, In rr (tbl_recording_redirect s) -> rr_mbid rr <> ur_mbid x)
      /\ (forall it, In it (tbl_item s) -> it_scraper_id it = sc_id scraper ->
                     it_mbid it <> ur_mbid x)
      /\ (forall w, wanted = Some w -> ur_mbid x = w).
Proof.
  unfold get_unprocessed_recordings_for_scraper. rewrite in_map_iff. split.
  - intros ([[[r m] orr] oit] & <- & Hrow). cbn [fst snd ur_mbid ur_name ur_artist_credit].
    apply filter_In in Hrow as [Hrow Hwhere]. cbn [fst snd] in Hwhere.
    apply andb_prop in Hwhere as [Hwhere Hwanted].
    apply andb_prop in Hwhere as [Hit Hrr].
    destruct oit as [it|]; [discriminate|]. destruct orr as [rr|]; [discriminate|].
    apply in_left_join_null in Hrow as [Hrow Hitems]. cbn [fst snd] in Hitems.
    apply in_left_join_null in Hrow as [Hrow Hredirects]. cbn [fst snd] in Hredirects.
    apply in_inner_join in Hrow as (Hr & Hm & Hon). apply String.eqb_eq in Hon.
    subst r. split; [exact Hr|]. split; [|split; [|split]].
    + exists (rm_last_updated m). destruct m; exact Hm.
    + intros rr Hin E. specialize (Hredirects rr Hin).
      rewrite E, String.eqb_refl in Hredirects. discriminate.
    + intros it Hin Es Em. specialize (Hitems it Hin).
      rewrite Em, Es, String.eqb_refl, Z.eqb_refl in Hitems. discriminate.
    + apply mbid_filter_iff. exact Hwanted.
  - intros (Hr & (t & Hm) & Hredirects & Hitems & Hwanted).
    exists (((ur_mbid x,
              {| rm_mbid := ur_mbid x; rm_name := ur_name x;
                 rm_artist_credit := ur_artist_credit x; rm_last_updated := t |}),
             None), None).
    split; [destruct x; reflexivity|].
    apply filter_In. cbn [fst snd is_null andb]. split.
    + apply in_left_join_null. cbn [fst snd]. split.
      * apply in_left_join_null. cbn [fst snd]. split.
        -- apply in_inner_join. cbn [rm_mbid]. split; [exact Hr|].
           split; [exact Hm | apply String.eqb_refl].
        -- intros rr Hin. apply String.eqb_neq. intros E.
           apply (Hredirects rr Hin). symmetry. exact E.
      * intros it Hin. apply andb_false_iff.
        destruct (String.eqb_spec (ur_mbid x) (it_mbid it)) as [Em|_];
          [|left; reflexivity].
        right. apply Z.eqb_neq. intros Es. apply (Hitems it Hin Es). symmetry.
        exact Em.
    + apply mbid_filter_iff. exact Hwanted.
Qed.

(** The rows of [get_unprocessed_release_groups_for_scraper]. *)
Lemma in_unprocessed_release_groups (scraper : scraper_dict)
  (wanted : option mbid) (s : Store) (x : unprocessed_release_group) :
  In x (get_unprocessed_release_groups_for_scraper scraper wanted s)
  <-> In (urg_mbid x) (tbl_release_group s)
      /\ (exists t, In {| rgm_mbid := urg_mbid x; rgm_name := urg_name x;
                          rgm_artist_credit := urg_artist_credit x;
                          rgm_first_release_date := urg_first_release_date x;
                          rgm_last_updated := t |} (tbl_release_group_meta s))
      /\ (forall it, In it (tbl_item s) -> it_scraper_id it = sc_id scraper ->
                     it_mbid it <> urg_mbid x)
      /\ (forall w, wanted = Some w -> urg_mbid x = w).
Proof.
  unfold get_unprocessed_release_groups_for_scraper. rewrite in_map_iff. split.
  - intros ([[r m] oit] & <- & Hrow).
    cbn [fst snd urg_mbid urg_name urg_artist_credit urg_first_release_date].
    apply filter_In in Hrow as [Hrow Hwhere]. cbn [fst snd] in Hwhere.
    apply andb_prop in Hwhere as [Hit Hwanted].
    destruct oit as [it|]; [discriminate|].
    apply in_left_join_null in Hrow as [Hrow Hitems]. cbn [fst snd] in Hitems.
    apply in_inner_join in Hrow as (Hr & Hm & Hon). apply String.eqb_eq in Hon.
    subst r. split; [exact Hr|]. split; [|split].
    + exists (rgm_last_updated m). destruct m; exact Hm.
    + intros it Hin Es Em. specialize (Hitems it Hin).
      rewrite Em, Es, String.eqb_refl, Z.eqb_refl in Hitems. discriminate.
    + apply mbid_filter_iff. exact Hwanted.
  - intros (Hr & (t & Hm) & Hitems & Hwanted).
    exists ((urg_mbid x,
             {| rgm_mbid := urg_mbid x; rgm_name := urg_name x;
                rgm_artist_credit := urg_artist_credit x;
                rgm_first_release_date := urg_first_release_date x;
                rgm_last_updated := t |}), None).
    split; [destruct x; reflexivity|].
    apply filter_In. cbn [fst snd is_null andb]. split.
    + apply in_left_join_null. cbn [fst snd]. split.
      * apply in_inner_join. cbn [rgm_mbid]. split; [exact Hr|].
        split; [exact Hm | apply String.eqb_refl].
      * intros it Hin. apply andb_false_iff.
        destruct (String.eqb_spec (urg_mbid x) (it_mbid it)) as [Em|_];
          [|left; reflexivity].
        right. apply Z.eqb_neq. intros Es. apply (Hitems it Hin Es). symmetry.
        exact Em.
    + apply mbid_filter_iff. exact Hwanted.
Qed.

(** The mbids [get_recordings_missing_meta] reports. *)
Lemma in_recordings_missing_meta (R : mbid) (s : Store) :
  In R (get_recordings_missing_meta s)
  <-> In R (tbl_recording s)
      /\ (forall m, In m (tbl_recording_meta s) -> rm_mbid m <> R)
      /\ (forall rr, In rr (tbl_recording_redirect s) -> rr_mbid rr <> R).
Proof.
  unfold get_recordings_missing_meta. rewrite in_map_iff. split.
  - intros ([[r om] orr] & <- & Hrow). cbn [fst snd].
    apply filter_In in Hrow as [Hrow Hwhere]. cbn [fst snd] in Hwhere.
    apply andb_prop in Hwhere as [Hm Hrr].
    destruct om as [m|]; [discriminate|]. destruct orr as [rr|]; [discriminate|].
    apply in_left_join_null in Hrow as [Hrow Hredirects]. cbn [fst snd] in Hredirects.
    apply in_left_join_null in Hrow as [Hr Hmeta].
    split; [exact Hr|]. split.
    + intros m Hin E. specialize (Hmeta m Hin).
      rewrite E, String.eqb_refl in Hmeta. discriminate.
    + intros rr Hin E. specialize (Hredirects rr Hin).
      rewrite E, String.eqb_refl in Hredirects. discriminate.
  - intros (Hr & Hmeta & Hredirects). exists ((R, None), None).
    split; [reflexivity|]. apply filter_In. split; [|reflexivity].
    apply in_left_join_null. cbn [fst snd]. split.
    + apply in_left_join_null. split; [exact Hr|].
      intros m Hin. apply String.eqb_neq. intros E. apply (Hmeta m Hin).
      symmetry. exact E.
    + intros rr Hin. apply String.eqb_neq. intros E. apply (Hredirects rr Hin).
      symmetry. exact E.
Qed.

(** A recording is listed for a scraper exactly when it is known, has
    metadata (whose name and artist credit the row carries), is the source
    of no redirect and has no item of that scraper; with an mbid given, the
    list is the unfiltered list cut down to that mbid. *)
Theorem unprocessed_recordings_characterised (scraper : scraper_dict)
  (wanted : option mbid) (s : Store) :
  (forall x,
      In x (get_unprocessed_recordings_for_scraper scraper wanted s)
      <-> In (ur_mbid x) (tbl_recording s)
          /\ (exists t, In {| rm_mbid := ur_mbid x; rm_name := ur_name x;
                              rm_artist_credit := ur_artist_credit x;
                              rm_last_updated := t |} (tbl_recording_meta s))
          /\ (forall rr, In rr (tbl_recording_redirect s) ->
                         rr_mbid rr <> ur_mbid x)
          /\ (forall it, In it (tbl_item s) -> it_scraper_id it = sc_id scraper ->
                         it_mbid it <> ur_mbid x)
          /\ (forall w, wanted = Some w -> ur_mbid x = w))
  /\ (forall w,
        get_unprocessed_recordings_for_scraper scraper (Some w) s
        = filter (fun x => (ur_mbid x =? w)%string)
                 (get_unprocessed_recordings_for_scraper scraper None s)).
Proof.
  split; [intros x; apply in_unprocessed_recordings|].
  intros w. unfold get_unprocessed_recordings_for_scraper.
  rewrite filter_map_swap, filter_filter. f_equal.
  apply filter_ext. intros row. cbn [mbid_filter ur_mbid]. rewrite andb_true_r.
  reflexivity.
Qed.

(** A release group is listed for a scraper exactly when it is known, has
    metadata and has no item of that scraper; redirects play no part.  With
    an mbid given, the list is the unfiltered list cut down to that mbid. *)
Theorem unprocessed_release_groups_characterised (scraper : scraper_dict)
  (wanted : option mbid) (s : Store) :
  (forall x,
      In x (get_unprocessed_release_groups_for_scraper scraper wanted s)
      <-> In (urg_mbid x) (tbl_release_group s)
          /\ (exists t, In {| rgm_mbid := urg_mbid x; rgm_name := urg_name x;
                              rgm_artist_credit := urg_artist_credit x;
                              rgm_first_release_date := urg_first_release_date x;
                              rgm_last_updated := t |} (tbl_release_group_meta s))
          /\ (forall it, In it (tbl_item s) -> it_scraper_id it = sc_id scraper ->
                         it_mbid it <> urg_mbid x)
          /\ (forall w, wanted = Some w -> urg_mbid x = w))
  /\ (forall f,
        get_unprocessed_release_groups_for_scraper scraper wanted
          (with_recording_redirect f s)
        = get_unprocessed_release_groups_for_scraper scraper wanted s)
  /\ (forall w,
        get_unprocessed_release_groups_for_scraper scraper (Some w) s
        = filter (fun x => (urg_mbid x =? w)%string)
                 (get_unprocessed_release_groups_for_scraper scraper None s)).
Proof.
  split; [intros x; apply in_unprocessed_release_groups|].
  split; [reflexivity|].
  intros w. unfold get_unprocessed_release_groups_for_scraper.
  rewrite filter_map_swap, filter_filter. f_equal.
  apply filter_ext. intros row. cbn [mbid_filter urg_mbid]. rewrite andb_true_r.
  reflexivity.
Qed.

(** ** Items and the work queues *)

(** [add_item] touches the item tables only; the item rows it leaves are the
    former ones and at most one more, for the scraper and mbid given, and
    one such row is there afterwards. *)
Lemma add_item_tables (scraper : scraper_dict) (m : mbid) (data : Py.pyvalue)
  (s : Store) :
  let s' := snd (add_item scraper m data s) in
  tbl_recording s' = tbl_recording s
  /\ tbl_recording_meta s' = tbl_recording_meta s
  /\ tbl_recording_redirect s' = tbl_recording_redirect s
  /\ tbl_release_group s' = tbl_release_group s
  /\ tbl_release_group_meta s' = tbl_release_group_meta s
  /\ (forall it, In it (tbl_item s) -> In it (tbl_item s'))
  /\ (forall it, In it (tbl_item s') ->
        In it (tbl_item s) \/ (it_scraper_id it = sc_id scraper /\ it_mbid it = m))
  /\ (exists it, In it (tbl_item s')
                 /\ it_scraper_id it = sc_id scraper /\ it_mbid it = m).
Proof.
  intros s'. subst s'. rewrite add_item_effect.
  destruct (item_rows scraper m s) as [|i0 rows] eqn:Hrows;
    cbn [no_rows rowcount List.length Nat.eqb snd].
  - cbn [tbl_recording tbl_recording_meta tbl_recording_redirect tbl_release_group
         tbl_release_group_meta tbl_item with_item with_item_data].
    repeat (split; [reflexivity|]). split; [|split].
    + intros it Hit. apply in_or_app. left. exact Hit.
    + intros it Hit. apply in_app_or in Hit as [Hit|[<-|[]]];
        [left; exact Hit | right; split; reflexivity].
    + eexists. split; [apply in_or_app; right; left; reflexivity|].
      split; reflexivity.
  - repeat (split; [reflexivity|]). split; [tauto|]. split; [tauto|].
    assert (Hin : In i0 (item_rows scraper m s)) by (rewrite Hrows; left; reflexivity).
    unfold item_rows in Hin. apply filter_In in Hin as [Hin Hmatch].
    apply andb_prop in Hmatch as [Hm Hs].
    apply String.eqb_eq in Hm. apply Z.eqb_eq in Hs.
    exists i0. split; [exact Hin|]. split; assumption.
Qed.

(** Once [add_item] has run for a scraper and an mbid, the scraper's lists
    of unprocessed recordings and release groups hold what they held before
    except the rows of that mbid, and the lists of every scraper with
    another id hold what they held before. *)
Theorem add_item_takes_mbid_off_the_queue (scraper : scraper_dict) (m : mbid)
  (data : Py.pyvalue) (wanted : option mbid) (s : Store) :
  let s' := snd (add_item scraper m data s) in
  (forall x,
      In x (get_unprocessed_recordings_for_scraper scraper wanted s')
      <-> In x (get_unprocessed_recordings_for_scraper scraper wanted s)
          /\ ur_mbid x <> m)
  /\ (forall x,
        In x (get_unprocessed_release_groups_for_scraper scraper wanted s')
        <-> In x (get_unprocessed_release_groups_for_scraper scraper wanted s)
            /\ urg_mbid x <> m)
  /\ (forall other, sc_id other <> sc_id scraper ->
        (forall x,
            In x (get_unprocessed_recordings_for_scraper other wanted s')
            <-> In x (get_unprocessed_recordings_for_scraper other wanted s))
        /\ (forall x,
              In x (get_unprocessed_release_groups_for_scraper other wanted s')
              <-> In x (get_unprocessed_release_groups_for_scraper other wanted s))).
Proof.
  intros s'.
  destruct (add_item_tables scraper m data s)
    as (Hr & Hm & Hrr & Hrg & Hrgm & Hold & Hnew & (i1 & Hi1 & Hs1 & Hm1)).
  fold s' in Hr, Hm, Hrr, Hrg, Hrgm, Hold, Hnew, Hi1.
  split; [|split; [|intros other Hother; split]]; intros x.
  - rewrite !in_unprocessed_recordings, Hr, Hm, Hrr. split.
    + intros (H1 & H2 & H3 & H4 & H5). split.
      * repeat split; try assumption. intros it Hit. apply H4, Hold, Hit.
      * intros E. apply (H4 i1 Hi1 Hs1). congruence.
    + intros [(H1 & H2 & H3 & H4 & H5) Hne]. repeat split; try assumption.
      intros it Hit Hs E. destruct (Hnew it Hit) as [Hin|[_ Hmm]].
      * exact (H4 it Hin Hs E).
      * apply Hne. congruence.
  - rewrite !in_unprocessed_release_groups, Hrg, Hrgm. split.
    + intros (H1 & H2 & H4 & H5). split.
      * repeat split; try assumption. intros it Hit. apply H4, Hold, Hit.
      * intros E. apply (H4 i1 Hi1 Hs1). congruence.
    + intros [(H1 & H2 & H4 & H5) Hne]. repeat split; try assumption.
      intros it Hit Hs E. destruct (Hnew it Hit) as [Hin|[_ Hmm]].
      * exact (H4 it Hin Hs E).
      * apply Hne. congruence.
  - rewrite !in_unprocessed_recordings, Hr, Hm, Hrr. split.
    + intros (H1 & H2 & H3 & H4 & H5). repeat split; try assumption.
      intros it Hit. apply H4, Hold, Hit.
    + intros (H1 & H2 & H3 & H4 & H5). repeat split; try assumption.
      intros it Hit Hs E. destruct (Hnew it Hit) as [Hin|[Hss _]].
      * exact (H4 it Hin Hs E).
      * apply Hother. congruence.
  - rewrite !in_unprocessed_release_groups, Hrg, Hrgm. split.
    + intros (H1 & H2 & H4 & H5). repeat split; try assumption.
      intros it Hit. apply H4, Hold, Hit.
    + intros (H1 & H2 & H4 & H5). repeat split; try assumption.
      intros it Hit Hs E. destruct (Hnew it Hit) as [Hin|[Hss _]].
      * exact (H4 it Hin Hs E).
      * apply Hother. congruence.
Qed.

Lemma add_item_takes_mbid_off_the_queue_witness :
  In {| ur_mbid := "a"; ur_name := "Song"; ur_artist_credit := "Band" |}
     (get_unprocessed_recordings_for_scraper second_scraper None
        (snd (add_item queue_scraper "a" Py.PyNone queue_store))).
Proof.
  apply (proj1 (proj2 (proj2 (add_item_takes_mbid_off_the_queue queue_scraper "a"
                                Py.PyNone None queue_store))
                  second_scraper ltac:(discriminate))).
  left. reflexivity.
Defined.

(** ** Caching a recording with its release groups *)

Lemma recording_meta_at_least_kept (m : mbid) (t : timestamp)
  (recording : recording_dict) :
  keeps (recording_meta_at_least m t) (_add_recording_meta recording).
Proof.
  intros s a s' (row & rest & Hrows & Hle) E.
  unfold _add_recording_meta, _get_recording_meta, bind, query, execute, ret in E.
  unfold recording_meta_at_least, recording_meta_rows in *.
  destruct (filter (fun r => (rm_mbid r =? rec_mbid recording)%string)
                   (tbl_recording_meta s)) as [|e erest] eqn:Hmine;
    cbn [fetchone hd_error] in E.
  - inversion E; subst; clear E. cbn [tbl_recording_meta with_recording_meta].
    rewrite filter_app_one, Hrows. exists row. eexists. split; [reflexivity | exact Hle].
  - destruct (Z.geb_spec (rm_last_updated e) (rec_last_updated recording));
      inversion E; subst; clear E; [exists row, rest; split; assumption|].
    cbn [tbl_recording_meta with_recording_meta].
    destruct (string_dec m (rec_mbid recording)) as [->|Hne].
    + rewrite rows_after_update_same, Hmine. cbn [map].
      eexists _, _. split; [reflexivity|].
      rewrite Hmine in Hrows. inversion Hrows; subst. cbn [recording_meta_of rm_last_updated].
      lia.
    + rewrite rows_after_update_other by exact Hne.
      exists row, rest. split; assumption.
Qed.

Lemma release_group_rows_after_update_other (release_group : release_group_dict)
  (m : mbid) (t : list release_group_meta_row) :
  m <> rg_mbid release_group ->
  filter (fun r => (rgm_mbid r =? m)%string)
         (map (update_release_group_meta release_group) t)
  = filter (fun r => (rgm_mbid r =? m)%string) t.
Proof.
  intros Hm. induction t as [|r t IH]; simpl; [reflexivity|].
  destruct (String.eqb_spec (rgm_mbid r) (rg_mbid release_group)) as [E|N].
  - rewrite (update_release_group_meta_hit _ _ E). simpl.
    destruct (String.eqb_spec (rg_mbid release_group) m) as [E'|_]; [congruence|].
    destruct (String.eqb_spec (rgm_mbid r) m) as [E'|_]; [congruence | exact IH].
  - rewrite (update_release_group_meta_miss _ _ N), IH. reflexivity.
Qed.

Lemma release_group_meta_at_least_kept (m : mbid) (t : timestamp)
  (release_group : release_group_dict) :
  keeps (release_group_meta_at_least m t) (_add_release_group_meta release_group).
Proof.
  intros s a s' (row & rest & Hrows & Hle) E.
  unfold _add_release_group_meta, _get_release_group_meta, bind, query, execute,
    ret in E.
  unfold release_group_meta_at_least, release_group_meta_rows in *.
  destruct (filter (fun r => (rgm_mbid r =? rg_mbid release_group)%string)
                   (tbl_release_group_meta s)) as [|e erest] eqn:Hmine;
    cbn [fetchone hd_error] in E.
  - inversion E; subst; clear E.
    cbn [tbl_release_group_meta with_release_group_meta with_release_group].
    rewrite filter_app_one, Hrows. exists row. eexists.
    split; [reflexivity | exact Hle].
  - destruct (Z.geb_spec (rgm_last_updated e) (rg_last_updated release_group));
      inversion E; subst; clear E; [exists row, rest; split; assumption|].
    cbn [tbl_release_group_meta with_release_group_meta].
    destruct (string_dec m (rg_mbid release_group)) as [->|Hne].
    + rewrite release_group_rows_after_update, Hmine. cbn [map].
      eexists _, _. split; [reflexivity|].
      rewrite Hmine in Hrows. inversion Hrows; subst.
      cbn [release_group_meta_of rgm_last_updated]. lia.
    + rewrite release_group_rows_after_update_other by exact Hne.
      exists row, rest. split; assumption.
Qed.

Lemma linked_after_link (r g : mbid) (s s' : Store) (a : unit) :
  _add_link_recording_release_group r g s = inr (a, s') -> linked r g s'.
Proof.
  intros E.
  unfold _add_link_recording_release_group, bind, query, execute, ret in E.
  unfold linked.
  destruct (filter _ (tbl_recording_release_group s)) as [|e rest] eqn:Hrows;
    cbn [no_rows rowcount List.length Nat.eqb] in E; inversion E; subst; clear E.
  - cbn [tbl_recording_release_group with_recording_release_group].
    apply in_or_app. right. left. reflexivity.
  - assert (Hin : In e (filter (fun l => (lk_recording_mbid l =? r)%string
                                         && (lk_release_group_mbid l =? g)%string)
                               (tbl_recording_release_group s')))
      by (rewrite Hrows; left; reflexivity).
    apply filter_In in Hin as [Hin Hmatch]. apply andb_prop in Hmatch as [H1 H2].
    apply String.eqb_eq in H1, H2. destruct e; simpl in *; subst. exact Hin.
Qed.

Lemma link_when_linked (r g : mbid) (s : Store) :
  linked r g s -> _add_link_recording_release_group r g s = inr (tt, s).
Proof.
  intros Hl. unfold _add_link_recording_release_group, bind, query.
  destruct (filter _ (tbl_recording_release_group s)) as [|e rest] eqn:Hrows;
    [|reflexivity].
  rewrite filter_nil_iff in Hrows. specialize (Hrows _ Hl).
  cbn [lk_recording_mbid lk_release_group_mbid] in Hrows.
  rewrite !String.eqb_refl in Hrows. discriminate.
Qed.

Lemma linked_kept_by_link (r g r' g' : mbid) :
  keeps (linked r g) (_add_link_recording_release_group r' g').
Proof.
  intros s a s' Hl E.
  unfold _add_link_recording_release_group, bind, query, execute, ret in E.
  destruct (no_rows _); inversion E; subst; clear E; [|exact Hl].
  unfold linked. cbn [tbl_recording_release_group with_recording_release_group].
  apply in_or_app. left. exact Hl.
Qed.

(** A release group is settled for the recording [r]: its stored metadata is
    as new as it says and the link to [r] is there. *)
Lemma cache_release_groups_settled (r : mbid) (rgs : list release_group_dict)
  (s : Store) :
  (forall rg, In rg rgs ->
      release_group_meta_at_least (rg_mbid rg) (rg_last_updated rg) s
      /\ linked r (rg_mbid rg) s) ->
  cache_release_groups r rgs s = inr (tt, s).
Proof.
  induction rgs as [|rg rest IH]; intros H; [reflexivity|].
  cbn [cache_release_groups]. unfold bind.
  destruct (H rg (or_introl eq_refl)) as [(row & rows & Hrows & Hle) Hl].
  rewrite (add_release_group_meta_stale rg s row rows Hrows Hle).
  rewrite (link_when_linked _ _ _ Hl).
  apply IH. intros rg' Hin. apply H. right. exact Hin.
Qed.

Lemma cache_release_groups_settles (r : mbid) (rgs : list release_group_dict) :
  forall s s' a,
    cache_release_groups r rgs s = inr (a, s') ->
    forall rg, In rg rgs ->
      release_group_meta_at_least (rg_mbid rg) (rg_last_updated rg) s'
      /\ linked r (rg_mbid rg) s'.
Proof.
  induction rgs as [|rg0 rest IH]; intros s s' a E rg Hin; [destruct Hin|].
  cbn [cache_release_groups] in E. unfold bind in E.
  destruct (_add_release_group_meta rg0 s) as [e|[u s1]] eqn:E1; [discriminate|].
  destruct (_add_link_recording_release_group r (rg_mbid rg0) s1)
    as [e|[u2 s2]] eqn:E2; [discriminate|].
  destruct Hin as [<-|Hin]; [|exact (IH s2 s' a E rg Hin)].
  assert (H1 : release_group_meta_at_least (rg_mbid rg0) (rg_last_updated rg0) s1).
  { destruct (add_release_group_meta_stored rg0 s) as (s1' & row & rows & E' & Hr & Hle).
    rewrite E1 in E'. inversion E'; subst. exists row, rows. split; assumption. }
  assert (H2 : release_group_meta_at_least (rg_mbid rg0) (rg_last_updated rg0) s2).
  { destruct H1 as (row & rows & Hr & Hle). exists row, rows. split; [|exact Hle].
    unfold release_group_meta_rows in *.
    rewrite (add_link_frame tbl_release_group_meta r (rg_mbid rg0)
               ltac:(reflexivity) _ _ _ E2).
    exact Hr. }
  assert (H3 : linked r (rg_mbid rg0) s2) by exact (linked_after_link _ _ _ _ _ E2).
  clear E1 E2 IH. revert s2 s' a E H2 H3.
  induction rest as [|rg1 rest IH]; intros s2 s' a E H2 H3.
  - inversion E; subst. split; assumption.
  - cbn [cache_release_groups] in E. unfold bind in E.
    destruct (_add_release_group_meta rg1 s2) as [e|[v3 s3]] eqn:E3; [discriminate|].
    destruct (_add_link_recording_release_group r (rg_mbid rg1) s3)
      as [e|[v4 s4]] eqn:E4; [discriminate|].
    apply (IH s4 s' a E).
    + pose proof (release_group_meta_at_least_kept (rg_mbid rg0)
                    (rg_last_updated rg0) rg1 s2 v3 s3 H2 E3)
        as (row & rows & Hr & Hle).
      exists row, rows. split; [|exact Hle]. unfold release_group_meta_rows in *.
      rewrite (add_link_frame tbl_release_group_meta r (rg_mbid rg1)
                 ltac:(reflexivity) _ _ _ E4).
      exact Hr.
    + apply (linked_kept_by_link r (rg_mbid rg0) r (rg_mbid rg1) s3 v4 s4);
        [|exact E4].
      unfold linked.
      rewrite (add_release_group_meta_frame tbl_recording_release_group rg1
                 ltac:(reflexivity) ltac:(reflexivity) _ _ _ E3).
      exact H3.
Qed.

Lemma link_returns (r g : mbid) (s : Store) :
  exists s', _add_link_recording_release_group r g s = inr (tt, s').
Proof.
  unfold _add_link_recording_release_group, bind, query, execute, ret.
  destruct (no_rows _); eexists; reflexivity.
Qed.

Lemma cache_release_groups_returns (r : mbid) (rgs : list release_group_dict) :
  forall s, exists s', cache_release_groups r rgs s = inr (tt, s').
Proof.
  induction rgs as [|rg rest IH]; intros s; [exists s; reflexivity|].
  cbn [cache_release_groups]. unfold bind.
  destruct (add_release_group_meta_stored rg s) as (s1 & _ & _ & E1 & _).
  rewrite E1. destruct (link_returns r (rg_mbid rg) s1) as (s2 & E2).
  rewrite E2. apply IH.
Qed.

(** The caching call never raises; in the store it leaves, the recording's
    metadata and the metadata of each release group of its map are as new as
    the call said, and each of those release groups is linked to the
    recording. *)
Lemma cache_settles (recording : recording_dict) (s : Store) :
  exists s',
    cache_musicbrainz_metadata recording s = (Returned tt, s')
    /\ recording_meta_at_least (rec_mbid recording) (rec_last_updated recording) s'
    /\ (forall rg, In rg (map snd (rec_release_group_map recording)) ->
          release_group_meta_at_least (rg_mbid rg) (rg_last_updated rg) s'
          /\ linked (rec_mbid recording) (rg_mbid rg) s').
Proof.
  unfold cache_musicbrainz_metadata, begin, bind.
  destruct (add_recording_meta_stored recording s) as (s1 & row & rows & E1 & Hr & Hle).
  rewrite E1.
  destruct (cache_release_groups_returns (rec_mbid recording)
              (map snd (rec_release_group_map recording)) s1) as (s2 & E2).
  rewrite E2. exists s2. split; [reflexivity|]. split.
  - exists row, rows. split; [|exact Hle]. unfold recording_meta_rows in *.
    rewrite (cache_release_groups_frame tbl_recording_meta _ _
               ltac:(reflexivity) ltac:(reflexivity) ltac:(reflexivity)
               _ _ _ E2).
    exact Hr.
  - exact (cache_release_groups_settles _ _ _ _ _ E2).
Qed.

(** Replaying a caching call, or calling again with the same mbids and
    nothing newer, leaves the store as the first call left it. *)
Theorem cache_replay_changes_nothing (recording replay : recording_dict)
  (s : Store) :
  let s1 := snd (cache_musicbrainz_metadata recording s) in
  cache_musicbrainz_metadata recording s1 = (Returned tt, s1)
  /\ (rec_mbid replay = rec_mbid recording ->
      rec_last_updated replay <= rec_last_updated recording ->
      (forall rg', In rg' (map snd (rec_release_group_map replay)) ->
                   covered (map snd (rec_release_group_map recording)) rg') ->
      cache_musicbrainz_metadata replay s1 = (Returned tt, s1)).
Proof.
  intros s1.
  assert (Hreplay : forall again,
            rec_mbid again = rec_mbid recording ->
            rec_last_updated again <= rec_last_updated recording ->
            (forall rg', In rg' (map snd (rec_release_group_map again)) ->
                         covered (map snd (rec_release_group_map recording)) rg') ->
            cache_musicbrainz_metadata again s1 = (Returned tt, s1)).
  { intros again Hmbid Hle Hcov. subst s1.
    destruct (cache_settles recording s) as (s1 & E & (row & rows & Hr & Hrow) & Hrgs).
    rewrite E. cbn [snd]. unfold cache_musicbrainz_metadata, begin, bind.
    rewrite (add_recording_meta_stale again s1 row rows);
      [|rewrite Hmbid; exact Hr | lia].
    rewrite cache_release_groups_settled; [reflexivity|].
    intros rg' Hin. destruct (Hcov rg' Hin) as (rg & Hrg & Hsame & Hle').
    destruct (Hrgs rg Hrg) as [(row' & rows' & Hr' & Hrow') Hl].
    rewrite Hmbid, Hsame. split; [|exact Hl].
    exists row', rows'. split; [exact Hr' | lia]. }
  split; [|exact (Hreplay replay)].
  apply Hreplay; [reflexivity | lia |].
  intros rg' Hin. exists rg'. split; [exact Hin|]. split; [reflexivity | lia].
Qed.

Lemma cache_replay_changes_nothing_witness :
  cache_musicbrainz_metadata
    {| rec_mbid := "a"; rec_name := "Song (old)"; rec_artist_credit := "Band";
       rec_last_updated := 1;
       rec_release_group_map := [("g1", sample_release_group_older)] |}
    release_group_store
  = (Returned tt, release_group_store).
Proof.
  apply (proj2 (cache_replay_changes_nothing sample_with_groups
                  {| rec_mbid := "a"; rec_name := "Song (old)";
                     rec_artist_credit := "Band"; rec_last_updated := 1;
                     rec_release_group_map := [("g1", sample_release_group_older)] |}
                  empty_store)).
  - reflexivity.
  - simpl. lia.
  - intros rg' [<-|[]]. exists sample_release_group.
    split; [left; reflexivity|]. split; [reflexivity | simpl; lia].
Defined.

Lemma add_recording_meta_lookup (recording : recording_dict) (s s' : Store)
  (a : unit) :
  _add_recording_meta recording s = inr (a, s') ->
  fetchone (recording_meta_rows (rec_mbid recording) s')
  = Some match fetchone (recording_meta_rows (rec_mbid recording) s) with
         | Some old =>
             if rm_last_updated old >=? rec_last_updated recording
             then old else recording_meta_of recording
         | None => recording_meta_of recording
         end
  /\ (forall m, m <> rec_mbid recording ->
        recording_meta_rows m s' = recording_meta_rows m s).
Proof.
  intros E.
  unfold _add_recording_meta, _get_recording_meta, bind, query, execute, ret in E.
  unfold recording_meta_rows.
  destruct (filter (fun r => (rm_mbid r =? rec_mbid recording)%string)
                   (tbl_recording_meta s)) as [|e rest] eqn:Hrows;
    cbn [fetchone hd_error] in E |- *.
  - inversion E; subst; clear E. cbn [tbl_recording_meta with_recording_meta]. split.
    + rewrite filter_app_one, Hrows. cbn [recording_meta_of rm_mbid].
      rewrite String.eqb_refl. reflexivity.
    + intros m Hm. rewrite filter_app_one. cbn [recording_meta_of rm_mbid].
      destruct (String.eqb_spec (rec_mbid recording) m) as [E|_]; [congruence|].
      apply app_nil_r.
  - destruct (rm_last_updated e >=? rec_last_updated recording);
      inversion E; subst; clear E.
    + rewrite Hrows. split; reflexivity.
    + cbn [tbl_recording_meta with_recording_meta]. split.
      * rewrite rows_after_update_same, Hrows. reflexivity.
      * intros m Hm. apply rows_after_update_other. exact Hm.
Qed.

(** After a caching call on a store whose release-group metadata has its
    identity rows: [get_recording_meta] of the recording answers the stored
    row when that was as new as the call or newer, and the call's own fields
    otherwise; every other recording is answered as before; and each release
    group of the map has metadata as new as the call said, an identity row,
    and is among the release groups of the recording. *)
Theorem cache_then_lookup (recording : recording_dict) (s : Store) :
  release_group_identities_present s ->
  let m := rec_mbid recording in
  let s1 := snd (cache_musicbrainz_metadata recording s) in
  fst (Lookups.get_recording_meta m s1)
  = Returned (Some match fst (Lookups.get_recording_meta m s) with
                   | Returned (Some old) =>
                       if rm_last_updated old >=? rec_last_updated recording
                       then old
                       else {| rm_mbid := m; rm_name := rec_name recording;
                               rm_artist_credit := rec_artist_credit recording;
                               rm_last_updated := rec_last_updated recording |}
                   | _ => {| rm_mbid := m; rm_name := rec_name recording;
                             rm_artist_credit := rec_artist_credit recording;
                             rm_last_updated := rec_last_updated recording |}
                   end)
  /\ (forall other, other <> m ->
        fst (Lookups.get_recording_meta other s1)
        = fst (Lookups.get_recording_meta other s))
  /\ (forall rg, In rg (map snd (rec_release_group_map recording)) ->
        (exists row, Lookups.get_release_group_meta (rg_mbid rg) s1 = Some row
                     /\ rgm_mbid row = rg_mbid rg
                     /\ rg_last_updated rg <= rgm_last_updated row)
        /\ In (rg_mbid rg) (tbl_release_group s1)
        /\ In (rg_mbid rg) (Lookups.get_release_groups_for_recording m s1)).
Proof.
  intros Hids m s1.
  assert (Hids1 : release_group_identities_present s1).
  { subst s1. unfold cache_musicbrainz_metadata.
    apply (keeps_begin release_group_identities_present); [|exact Hids].
    apply keeps_bind; [|intros _; apply cache_release_groups_keeps_identities].
    apply unchanged_keeps_identities; apply add_recording_meta_frame; reflexivity. }
  destruct (cache_settles recording s) as (s1' & E & _ & Hrgs).
  assert (Es1 : s1 = s1') by (subst s1; rewrite E; reflexivity).
  assert (Hmeta : exists s0 a, _add_recording_meta recording s = inr (a, s0)
                               /\ tbl_recording_meta s1 = tbl_recording_meta s0).
  { subst s1. unfold cache_musicbrainz_metadata, begin, bind.
    destruct (add_recording_meta_stored recording s) as (s0 & _ & _ & E0 & _).
    rewrite E0.
    destruct (cache_release_groups_returns (rec_mbid recording)
                (map snd (rec_release_group_map recording)) s0) as (s2 & E2).
    rewrite E2. exists s0, tt. split; [reflexivity|]. cbn [snd].
    exact (cache_release_groups_frame tbl_recording_meta _ _
             ltac:(reflexivity) ltac:(reflexivity) ltac:(reflexivity) _ _ _ E2). }
  destruct Hmeta as (s0 & a & E0 & Htbl).
  destruct (add_recording_meta_lookup recording s s0 a E0) as [Hmine Hothers].
  unfold Lookups.get_recording_meta, begin, _get_recording_meta, query.
  cbn [fst]. unfold recording_meta_rows in Hmine, Hothers.
  split; [|split].
  - rewrite Htbl. fold m in Hmine. rewrite Hmine. reflexivity.
  - intros other Hne. rewrite Htbl, (Hothers other Hne). reflexivity.
  - intros rg Hin. rewrite Es1.
    destruct (Hrgs rg Hin) as [(row & rows & Hr & Hle) Hl].
    assert (Hrow : In row (tbl_release_group_meta s1') /\ rgm_mbid row = rg_mbid rg).
    { assert (Hin' : In row (release_group_meta_rows (rg_mbid rg) s1'))
        by (rewrite Hr; left; reflexivity).
      apply filter_In in Hin' as [Hin' Hm]. apply String.eqb_eq in Hm. tauto. }
    split; [|split].
    + exists row. unfold Lookups.get_release_group_meta.
      unfold release_group_meta_rows in Hr. rewrite Hr.
      split; [reflexivity|]. split; [tauto | exact Hle].
    + rewrite <- (proj2 Hrow). rewrite <- Es1. apply Hids1. rewrite Es1. tauto.
    + unfold Lookups.get_release_groups_for_recording. apply in_map_iff.
      exists {| lk_recording_mbid := m; lk_release_group_mbid := rg_mbid rg |}.
      split; [reflexivity|]. apply filter_In. split; [exact Hl|].
      apply String.eqb_refl.
Qed.

Lemma cache_then_lookup_witness :
  fst (Lookups.get_recording_meta "a" release_group_store)
  = Returned (Some {| rm_mbid := "a"; rm_name := "Song"; rm_artist_credit := "Band";
                      rm_last_updated := 2 |})
  /\ In "g1" (Lookups.get_release_groups_for_recording "a" release_group_store).
Proof.
  destruct (cache_then_lookup sample_with_groups empty_store) as (Hmeta & _ & Hrgs).
  - intros row [].
  - split; [exact Hmeta|].
    exact (proj2 (proj2 (Hrgs sample_release_group (or_introl eq_refl)))).
Defined.

(** ** The missing-metadata report *)

(** [get_recordings_missing_meta] reports exactly the known recordings that
    have no metadata row and are the source of no redirect; a recording
    leaves the report once metadata has been cached for it, and the source
    of a redirect is in no report of any later store. *)
Theorem missing_meta_report (uuid_parses : string -> bool) (R : mbid) (s : Store) :
  (In R (get_recordings_missing_meta s)
   <-> In R (tbl_recording s)
       /\ (forall m, In m (tbl_recording_meta s) -> rm_mbid m <> R)
       /\ (forall rr, In rr (tbl_recording_redirect s) -> rr_mbid rr <> R))
  /\ (forall recording, rec_mbid recording = R ->
        ~ In R (get_recordings_missing_meta
                  (snd (cache_musicbrainz_metadata recording s))))
  /\ (forall B s', R <> B ->
        reachable_from uuid_parses (snd (musicbrainz_check_mbid_redirect R B s)) s' ->
        ~ In R (get_recordings_missing_meta s')).
Proof.
  split; [apply in_recordings_missing_meta|]. split.
  - intros recording <- Hin.
    apply in_recordings_missing_meta in Hin as (_ & Hnone & _).
    destruct (cache_settles recording s) as (s1 & E & (row & rows & Hr & _) & _).
    rewrite E in Hnone. cbn [snd] in Hnone.
    assert (Hin : In row (recording_meta_rows (rec_mbid recording) s1))
      by (rewrite Hr; left; reflexivity).
    apply filter_In in Hin as [Hin Hm]. apply String.eqb_eq in Hm.
    exact (Hnone row Hin Hm).
  - intros B s' Hne Hreach Hin.
    apply in_recordings_missing_meta in Hin as (_ & _ & Hnone).
    destruct (redirect_recorded R B s Hne) as (r & Hr & HR & _).
    apply (reachable_keeps_redirects uuid_parses _ _ r Hreach) in Hr.
    exact (Hnone r Hr HR).
Qed.

Lemma missing_meta_report_witness :
  ~ In "a" (get_recordings_missing_meta
              (snd (cache_musicbrainz_metadata sample_with_groups
                      (snd (add_recording_mbids ["a"] empty_store)))))
  /\ ~ In "a" (get_recordings_missing_meta
                 (snd (musicbrainz_check_mbid_redirect "a" "b"
                         (snd (add_recording_mbids ["a"] empty_store))))).
Proof.
  split.
  - apply (proj1 (proj2 (missing_meta_report (fun _ => true) "a"
                           (snd (add_recording_mbids ["a"] empty_store))))
             sample_with_groups eq_refl).
  - apply (proj2 (proj2 (missing_meta_report (fun _ => true) "a"
                           (snd (add_recording_mbids ["a"] empty_store))))
             "b").
    + discriminate.
    + apply reach_refl.
Defined.

(** ** What the calls never take away *)

Lemma grows_refl {T} (proj : Store -> list T) (s : Store) : grows proj s s.
Proof. exists []. symmetry. apply app_nil_r. Qed.

Lemma grows_trans {T} (proj : Store -> list T) (s1 s2 s3 : Store) :
  grows proj s1 s2 -> grows proj s2 s3 -> grows proj s1 s3.
Proof.
  intros [e1 E1] [e2 E2]. exists (e1 ++ e2)%list. rewrite E2, E1, app_assoc.
  reflexivity.
Qed.

Lemma grows_kept_by_execute {T} (proj : Store -> list T) (s0 : Store)
  (f : Store -> Store) :
  (forall s, grows proj s (f s)) -> keeps (grows proj s0) (execute f).
Proof.
  intros Hf s a s' Hs E. inversion E; subst.
  exact (grows_trans proj _ _ _ Hs (Hf s)).
Qed.

Lemma cache_release_groups_grows (r : mbid) (rgs : list release_group_dict)
  (s0 : Store) :
  keeps (fun s => grows tbl_release_group s0 s
                  /\ grows tbl_recording_release_group s0 s)
        (cache_release_groups r rgs).
Proof.
  induction rgs as [|rg rest IH]; simpl; [apply keeps_ret|].
  apply keeps_bind; [|intros _; apply keeps_bind; [|intros _; exact IH]].
  - intros s a s' [Hg Hl] E. split.
    + apply (grows_trans _ _ _ _ Hg).
      unfold _add_release_group_meta, _get_release_group_meta, bind, query,
        execute, ret in E.
      destruct (fetchone _) as [e|]; [destruct (_ >=? _)|];
        inversion E; subst; clear E;
        solve [ apply grows_refl
              | exists []; symmetry; apply app_nil_r
              | exists [rg_mbid rg]; reflexivity ].
    + unfold grows.
      rewrite (add_release_group_meta_frame tbl_recording_release_group rg
                 ltac:(reflexivity) ltac:(reflexivity) _ _ _ E).
      exact Hl.
  - intros s a s' [Hg Hl] E. split.
    + unfold grows.
      rewrite (add_link_frame tbl_release_group r (rg_mbid rg)
                 ltac:(reflexivity) _ _ _ E).
      exact Hg.
    + apply (grows_trans _ _ _ _ Hl).
      unfold _add_link_recording_release_group, bind, query, execute, ret in E.
      destruct (no_rows _); inversion E; subst; clear E; [|apply grows_refl].
      eexists. reflexivity.
Qed.

Lemma cache_release_groups_keeps_at_least (r : mbid)
  (rgs : list release_group_dict) (m : mbid) (t : timestamp) :
  keeps (release_group_meta_at_least m t) (cache_release_groups r rgs).
Proof.
  induction rgs as [|rg rest IH]; simpl; [apply keeps_ret|].
  apply keeps_bind; [apply release_group_meta_at_least_kept|].
  intros _. apply keeps_bind; [|intros _; exact IH].
  intros s a s' (row & rows & Hr & Hle) E. exists row, rows. split; [|exact Hle].
  unfold release_group_meta_rows in *.
  rewrite (add_link_frame tbl_release_group_meta r (rg_mbid rg)
             ltac:(reflexivity) _ _ _ E).
  exact Hr.
Qed.

(** Closes the goals about a table or a metadata stamp the call does not
    write. *)
Ltac untouched :=
  match goal with
  | |- grows ?proj _ _ =>
      exists []; rewrite app_nil_r; apply (run_unchanged proj); ignored
  | |- forall m t, recording_meta_at_least m t _ -> _ =>
      let H := fresh in
      intros ? ? H; unfold recording_meta_at_least, recording_meta_rows in *;
      rewrite (run_unchanged tbl_recording_meta) by ignored; exact H
  | |- forall m t, release_group_meta_at_least m t _ -> _ =>
      let H := fresh in
      intros ? ? H; unfold release_group_meta_at_least, release_group_meta_rows in *;
      rewrite (run_unchanged tbl_release_group_meta) by ignored; exact H
  end.

Lemma run_loses_nothing (uuid_parses : string -> bool) (o : op) (s : Store) :
  nothing_lost s (run uuid_parses o s).
Proof.
  unfold nothing_lost.
  destruct o as [tok adm|tok|name|mbids|src md ty ver descr|scraper m data|q a
                |recording];
    repeat split; try untouched.
  - eexists. reflexivity.
  - cbn [run]. destruct (add_recording_mbids_effect mbids s) as (added & E & _).
    rewrite E. exists added. reflexivity.
  - cbn [run]. unfold add_scraper.
    destruct (negb _); [apply grows_refl | eexists; reflexivity].
  - cbn [run]. rewrite add_item_effect.
    destruct (no_rows _); [eexists; reflexivity | apply grows_refl].
  - cbn [run]. rewrite add_item_effect.
    destruct (no_rows _); [eexists; reflexivity | apply grows_refl].
  - cbn [run]. rewrite check_mbid_redirect_effect. cbn [snd].
    destruct (_ || _); [apply grows_refl | eexists; reflexivity].
  - cbn [run]. rewrite check_mbid_redirect_effect. cbn [snd].
    destruct (_ || _); [apply grows_refl | eexists; reflexivity].
  - cbn [run]. unfold cache_musicbrainz_metadata.
    apply (keeps_begin (fun s' => grows tbl_release_group s s'
                                  /\ grows tbl_recording_release_group s s'));
      [|split; apply grows_refl].
    apply keeps_bind; [|intros _; apply cache_release_groups_grows].
    intros s0 a0 s' [Hg Hl] E. unfold grows.
    rewrite (add_recording_meta_frame tbl_release_group recording
               ltac:(reflexivity) _ _ _ E).
    rewrite (add_recording_meta_frame tbl_recording_release_group recording
               ltac:(reflexivity) _ _ _ E).
    split; assumption.
  - cbn [run]. unfold cache_musicbrainz_metadata.
    apply (keeps_begin (fun s' => grows tbl_release_group s s'
                                  /\ grows tbl_recording_release_group s s'));
      [|split; apply grows_refl].
    apply keeps_bind; [|intros _; apply cache_release_groups_grows].
    intros s0 a0 s' [Hg Hl] E. unfold grows.
    rewrite (add_recording_meta_frame tbl_release_group recording
               ltac:(reflexivity) _ _ _ E).
    rewrite (add_recording_meta_frame tbl_recording_release_group recording
               ltac:(reflexivity) _ _ _ E).
    split; assumption.
  - intros m t H. cbn [run]. unfold cache_musicbrainz_metadata.
    apply (keeps_begin (recording_meta_at_least m t)); [|exact H].
    apply keeps_bind; [apply recording_meta_at_least_kept|].
    intros _ s0 a0 s' (row & rows & Hr & Hle) E. exists row, rows.
    split; [|exact Hle]. unfold recording_meta_rows in *.
    rewrite (cache_release_groups_frame tbl_recording_meta _ _
               ltac:(reflexivity) ltac:(reflexivity) ltac:(reflexivity) _ _ _ E).
    exact Hr.
  - intros m t H. cbn [run]. unfold cache_musicbrainz_metadata.
    apply (keeps_begin (release_group_meta_at_least m t)); [|exact H].
    apply keeps_bind; [|intros _; apply cache_release_groups_keeps_at_least].
    intros s0 a0 s' (row & rows & Hr & Hle) E. exists row, rows.
    split; [|exact Hle]. unfold release_group_meta_rows in *.
    rewrite (add_recording_meta_frame tbl_release_group_meta recording
               ltac:(reflexivity) _ _ _ E).
    exact Hr.
Qed.

(** Along the calls of [data.py] only tokens are ever removed: sources,
    scrapers, recordings, redirects, release groups, links, items and
    payloads stay as stored, in order, with new rows after them, and the
    metadata stored for an mbid stays and is never stamped earlier. *)
Theorem reachable_loses_nothing (uuid_parses : string -> bool) (s s' : Store) :
  reachable_from uuid_parses s s' -> nothing_lost s s'.
Proof.
  intros Hreach. induction Hreach as [|o s' _ IH].
  - unfold nothing_lost. repeat split; try apply grows_refl; intros m t H; exact H.
  - destruct IH as (H1 & H2 & H3 & H4 & H5 & H6 & H7 & H8 & H9 & H10).
    destruct (run_loses_nothing uuid_parses o s')
      as (G1 & G2 & G3 & G4 & G5 & G6 & G7 & G8 & G9 & G10).
    unfold nothing_lost.
    repeat split; try (eapply grows_trans; eassumption).
    + intros m t H. apply G9, H9, H.
    + intros m t H. apply G10, H10, H.
Qed.

Lemma reachable_loses_nothing_witness :
  nothing_lost release_group_store
    (run (fun _ => true) (RemoveToken "t")
       (run (fun _ => true) (CacheMusicbrainzMetadata sample_older)
          release_group_store)).
Proof.
  apply (reachable_loses_nothing (fun _ => true)).
  apply reach_step, reach_step, reach_refl.
Defined.

(** ** Loading an item *)

Lemma left_join_left {A B} (on : A -> B -> bool) (l : list A) (r : list B)
  (a : A) (o : option B) :
  In (a, o) (left_join on l r) -> In a l.
Proof.
  unfold left_join. rewrite in_flat_map. intros (a' & Ha' & Hin).
  destruct (filter (on a') r) as [|b0 ms].
  - destruct Hin as [Heq|[]]. inversion Heq; subst. exact Ha'.
  - apply in_map_iff in Hin as (b' & Heq & _). inversion Heq; subst. exact Ha'.
Qed.

Lemma left_join_snoc {A B} (on : A -> B -> bool) (l : list A) (x : A) (r : list B) :
  left_join on (l ++ [x]) r = (left_join on l r ++ left_join on [x] r)%list.
Proof. unfold left_join. apply flat_map_app. Qed.

(** The rows [load_item] reads once [add_item] has added the item. *)
Lemma load_item_rows (scraper : scraper_dict) (m : mbid) (data : Py.pyvalue)
  (s : Store) :
  ledger_well_formed s ->
  item_rows scraper m s = [] ->
  let s' := snd (add_item scraper m data s) in
  let item := {| it_id := seq_item_id s + 1; it_scraper_id := sc_id scraper;
                 it_mbid := m |} in
  filter (fun row => (it_mbid (fst row) =? m)%string
                     && (it_scraper_id (fst row) =? sc_id scraper))
         (left_join (fun i d => itd_item_id d =? it_id i)
                    (tbl_item s') (tbl_item_data s'))
  = if Py.truthy data
    then [(item, Some {| itd_item_id := seq_item_id s + 1;
                         itd_data := if Py.is_dict_or_list data
                                     then Py.PyStr (Py.json_dumps data)
                                     else data |})]
    else [(item, None)].
Proof.
  intros (_ & _ & _ & Hbound & _ & Hrows) Hnone s' item. subst s'.
  rewrite add_item_effect, Hnone.
  cbn [no_rows rowcount List.length Nat.eqb snd tbl_item tbl_item_data with_item
       with_item_data].
  rewrite left_join_snoc, filter_app.
  match goal with
  | |- (?old ++ _)%list = _ => replace old with (@nil (item_row * option item_data_row))
  end.
  2:{ symmetry. apply filter_nil_iff. intros [i o] Hin. cbn [fst].
      apply left_join_left in Hin. unfold item_rows in Hnone.
      rewrite filter_nil_iff in Hnone. exact (Hnone i Hin). }
  cbn [app left_join flat_map]. rewrite app_nil_r.
  assert (Hold : filter (fun d => itd_item_id d =? seq_item_id s + 1)
                        (tbl_item_data s) = []).
  { apply filter_nil_iff. intros d Hd. apply Z.eqb_neq.
    destruct (Hrows d Hd) as (_ & i & Hi & <-). specialize (Hbound i Hi). lia. }
  fold item. cbn [it_id item]. rewrite filter_app, Hold. cbn [app].
  destruct (Py.truthy data); cbn [filter itd_item_id].
  - rewrite Z.eqb_refl. cbn [map filter fst it_mbid it_scraper_id item].
    rewrite String.eqb_refl, Z.eqb_refl. reflexivity.
  - cbn [filter fst it_mbid it_scraper_id item].
    rewrite String.eqb_refl, Z.eqb_refl. reflexivity.
Qed.

(** [load_item] raises [TypeError] when no source has the name given, and
    when the source has no scraper.  With the source and its latest scraper
    found it answers nothing for an mbid the scraper has no item for, and,
    right after [add_item] has added the item, the item with its new id; its
    data is what the column reads back for the value [add_item] bound (the
    JSON text of a dictionary or a list, any other payload itself), and
    there is none when the payload given counted as false. *)
Theorem load_item_after_add_item (column_value : Py.pyvalue -> Py.pyvalue)
  (scraper : scraper_dict) (m : mbid) (source_name : string) (data : Py.pyvalue)
  (s : Store) :
  (load_source source_name s = None ->
   exists msg, Lookups.load_item column_value m source_name s = Raised (TypeError msg))
  /\ (forall src, load_source source_name s = Some src ->
        load_latest_scraper_for_source src s = None ->
        exists msg,
          Lookups.load_item column_value m source_name s = Raised (TypeError msg))
  /\ (forall src, load_source source_name s = Some src ->
        load_latest_scraper_for_source src s = Some scraper ->
        item_rows scraper m s = [] ->
        Lookups.load_item column_value m source_name s = Returned None
        /\ (ledger_well_formed s ->
            Lookups.load_item column_value m source_name
              (snd (add_item scraper m data s))
            = Returned
                (Some {| Lookups.item_id := seq_item_id s + 1;
                         Lookups.item_mbid := m;
                         Lookups.item_data :=
                           if falsy_payload data then None
                           else Some (column_value
                                        match data with
                                        | Py.PyDict _ | Py.PyList _ =>
                                            Py.PyStr (Py.json_dumps data)
                                        | _ => data
                                        end) |}))).
Proof.
  split; [|split].
  - intros Hsrc. unfold Lookups.load_item. rewrite Hsrc. eexists. reflexivity.
  - intros src Hsrc Hnone. unfold Lookups.load_item. rewrite Hsrc, Hnone.
    eexists. reflexivity.
  - intros src Hsrc Hlatest Hnone. split.
    + unfold Lookups.load_item. rewrite Hsrc, Hlatest.
      match goal with
      | |- match fetchone ?rows with _ => _ end = _ =>
          replace rows with (@nil (item_row * option item_data_row))
      end; [reflexivity|].
      symmetry. apply filter_nil_iff. intros [i o] Hin. cbn [fst].
      apply left_join_left in Hin. unfold item_rows in Hnone.
      rewrite filter_nil_iff in Hnone. exact (Hnone i Hin).
    + intros Hwf. unfold Lookups.load_item.
      assert (Hsrc' : load_source source_name (snd (add_item scraper m data s))
                      = Some src).
      { unfold load_source, add_item.
        rewrite (unchanged_begin tbl_source (_add_item_w_connection scraper m data) s);
          [exact Hsrc | apply add_item_frame; reflexivity]. }
      assert (Hlatest' : load_latest_scraper_for_source src
                           (snd (add_item scraper m data s)) = Some scraper).
      { unfold load_latest_scraper_for_source, add_item.
        rewrite (unchanged_begin tbl_scraper (_add_item_w_connection scraper m data) s);
          [exact Hlatest | apply add_item_frame; reflexivity]. }
      rewrite Hsrc', Hlatest'.
      rewrite (load_item_rows scraper m data s Hwf Hnone).
      rewrite truthy_not_falsy.
      destruct (falsy_payload data); [reflexivity|].
      destruct data; reflexivity.
Qed.

Lemma load_item_after_add_item_witness :
  (exists msg,
      Lookups.load_item text_column "a" "nowhere" queue_store = Raised (TypeError msg))
  /\ (exists msg,
         Lookups.load_item text_column "a" "musicbrainz"
           (snd (add_source "musicbrainz" queue_store))
         = Raised (TypeError msg))
  /\ Lookups.load_item text_column "a" "musicbrainz" item_store = Returned None
  /\ Lookups.load_item text_column "a" "musicbrainz"
       (snd (add_item queue_scraper "a" sample_payload item_store))
     = Returned (Some {| Lookups.item_id := 1; Lookups.item_mbid := "a";
                         Lookups.item_data :=
                           Some (Py.PyStr
                                   ("{" ++ quoted "title" ++ ": " ++ quoted "Song"
                                    ++ ", " ++ quoted "fetched" ++ ": "
                                    ++ quoted "2017-03-04T05:06:07+00:00" ++ "}")) |})
  /\ Lookups.load_item text_column "a" "musicbrainz"
       (snd (add_item queue_scraper "a" (Py.PyInt 5) item_store))
     = Returned (Some {| Lookups.item_id := 1; Lookups.item_mbid := "a";
                         Lookups.item_data := Some (Py.PyStr "5") |})
  /\ Lookups.load_item text_column "a" "musicbrainz"
       (snd (add_item queue_scraper "a" Py.PyNone item_store))
     = Returned (Some {| Lookups.item_id := 1; Lookups.item_mbid := "a";
                         Lookups.item_data := None |}).
Proof.
  assert (Hwf : ledger_well_formed item_store).
  { unfold ledger_well_formed. simpl.
    repeat split; try constructor; try lia; intros ? []. }
  split; [|split; [|split; [|split; [|split]]]].
  - apply (proj1 (load_item_after_add_item text_column queue_scraper "a" "nowhere"
                    Py.PyNone queue_store)).
    reflexivity.
  - apply (proj1 (proj2 (load_item_after_add_item text_column queue_scraper "a"
                           "musicbrainz" Py.PyNone
                           (snd (add_source "musicbrainz" queue_store))))
             {| src_id := 1; src_name := "musicbrainz" |}); reflexivity.
  - apply (proj2 (proj2 (load_item_after_add_item text_column queue_scraper "a"
                           "musicbrainz" Py.PyNone item_store))
             {| src_id := 1; src_name := "musicbrainz" |}); reflexivity.
  - destruct (proj2 (proj2 (load_item_after_add_item text_column queue_scraper "a"
                              "musicbrainz" sample_payload item_store))
                {| src_id := 1; src_name := "musicbrainz" |}
                eq_refl eq_refl eq_refl) as [_ Hloaded].
    exact (Hloaded Hwf).
  - destruct (proj2 (proj2 (load_item_after_add_item text_column queue_scraper "a"
                              "musicbrainz" (Py.PyInt 5) item_store))
                {| src_id := 1; src_name := "musicbrainz" |}
                eq_refl eq_refl eq_refl) as [_ Hloaded].
    exact (Hloaded Hwf).
  - destruct (proj2 (proj2 (load_item_after_add_item text_column queue_scraper "a"
                              "musicbrainz" Py.PyNone item_store))
                {| src_id := 1; src_name := "musicbrainz" |}
                eq_refl eq_refl eq_refl) as [_ Hloaded].
    exact (Hloaded Hwf).
Defined.

(** ** Linking a recording to a release group *)

Lemma link_row_dec (a b : link_row) : {a = b} + {a <> b}.
Proof. decide equality; apply string_dec. Qed.

Lemma count_release_groups (r g : mbid) (t : list link_row) :
  count_occ string_dec
    (map lk_release_group_mbid
         (filter (fun l => (lk_recording_mbid l =? r)%string) t)) g
  = count_occ link_row_dec t
      {| lk_recording_mbid := r; lk_release_group_mbid := g |}.
Proof.
  induction t as [|[r0 g0] t IH]; [reflexivity|].
  cbn [filter lk_recording_mbid].
  destruct (String.eqb_spec r0 r) as [->|Hr].
  - cbn [map lk_release_group_mbid count_occ].
    destruct (string_dec g0 g) as [->|Hg].
    + destruct (link_row_dec _ _) as [_|N]; [rewrite IH; reflexivity|].
      exfalso. apply N. reflexivity.
    + destruct (link_row_dec _ _) as [E|_]; [inversion E; contradiction | exact IH].
  - cbn [count_occ].
    destruct (link_row_dec _ _) as [E|_]; [inversion E; contradiction | exact IH].
Qed.

(** [_add_link_recording_release_group] returns with the pair linked; the
    same call again changes nothing; the release groups of every other
    recording are as before; and on a table without repeated links the
    release group is listed for the recording exactly once. *)
Theorem link_recording_release_group_once (r g : mbid) (s : Store) :
  exists s',
    _add_link_recording_release_group r g s = inr (tt, s')
    /\ _add_link_recording_release_group r g s' = inr (tt, s')
    /\ (forall r', r' <> r ->
          Lookups.get_release_groups_for_recording r' s'
          = Lookups.get_release_groups_for_recording r' s)
    /\ (associations_well_formed s ->
        count_occ string_dec (Lookups.get_release_groups_for_recording r s') g
        = 1%nat).
Proof.
  destruct (link_returns r g s) as (s' & E). exists s'.
  pose proof (linked_after_link r g s s' tt E) as Hl.
  split; [exact E|]. split; [apply link_when_linked; exact Hl|]. split.
  - intros r' Hne. unfold Lookups.get_release_groups_for_recording.
    unfold _add_link_recording_release_group, bind, query, execute, ret in E.
    destruct (no_rows _); inversion E; subst; clear E; [|reflexivity].
    cbn [tbl_recording_release_group with_recording_release_group].
    rewrite filter_app_one. cbn [lk_recording_mbid].
    destruct (String.eqb_spec r r') as [Heq|_]; [congruence|].
    rewrite app_nil_r. reflexivity.
  - intros Hwf. unfold Lookups.get_release_groups_for_recording.
    rewrite count_release_groups.
    pose proof (add_link_keeps_associations r g s tt s' Hwf E) as Hnd.
    unfold associations_well_formed in Hnd.
    rewrite (NoDup_count_occ link_row_dec) in Hnd.
    specialize (Hnd {| lk_recording_mbid := r; lk_release_group_mbid := g |}).
    unfold linked in Hl. rewrite (count_occ_In link_row_dec) in Hl. lia.
Qed.

Lemma link_recording_release_group_once_witness :
  exists s',
    _add_link_recording_release_group "a" "g1" release_group_store = inr (tt, s')
    /\ count_occ string_dec (Lookups.get_release_groups_for_recording "a" s') "g1"
       = 1%nat.
Proof.
  destruct (link_recording_release_group_once "a" "g1" release_group_store)
    as (s' & E & _ & _ & Hcount).
  exists s'. split; [exact E|]. apply Hcount.
  unfold associations_well_formed. simpl. repeat constructor. intros [].
Defined.

(** ** Scripts run one after the other *)

Lemma is_statement_empty : Db.is_statement "" = false.
Proof. reflexivity. Qed.

(** The statements of [a], a line feed and [b] are those of [a] followed by
    those of [b]. *)
Lemma statements_of_joined_scripts (b : string) (n : nat) :
  forall (a cur : string),
    (String.length a <= n)%nat ->
    filter Db.is_statement (Db.splitlines_from (a ++ newline ++ b) cur)
    = (filter Db.is_statement (Db.splitlines_from a cur)
       ++ filter Db.is_statement (Db.splitlines b))%list.
Proof.
  induction n as [|n IH]; intros a cur Hlen.
  - destruct a; [|simpl in Hlen; lia].
    cbn [append newline Db.splitlines_from Db.is_cr Db.is_line_boundary].
    change (Db.is_cr (ascii_of_nat 10)) with false.
    change (Db.is_line_boundary (ascii_of_nat 10)) with true. cbv iota.
    cbn [filter]. unfold Db.splitlines.
    destruct (String.eqb_spec cur "") as [->|Hne].
    + rewrite is_statement_empty. reflexivity.
    + cbn [filter]. destruct (Db.is_statement cur); rewrite ?app_nil_r; reflexivity.
  - destruct a as [|c a].
    + apply (IH "" cur). simpl. lia.
    + assert (Ha : (String.length a <= n)%nat) by (simpl in Hlen; lia).
      cbn [append Db.splitlines_from].
      destruct (Db.is_cr c).
      * destruct a as [|c2 a2].
        -- cbn [append newline].
           change (Db.is_lf (ascii_of_nat 10)) with true. cbv iota.
           cbn [filter]. unfold Db.splitlines.
           destruct (Db.is_statement cur); rewrite ?app_nil_r; reflexivity.
        -- cbn [append]. destruct (Db.is_lf c2).
           ++ cbn [filter].
              rewrite (IH a2 ""); [|simpl in Ha; lia].
              destruct (Db.is_statement cur); reflexivity.
           ++ cbn [filter].
              change (String c2 (a2 ++ newline ++ b))
                with (String c2 a2 ++ newline ++ b).
              rewrite (IH (String c2 a2) "" Ha).
              destruct (Db.is_statement cur); reflexivity.
      * destruct (Db.is_line_boundary c).
        -- cbn [filter]. rewrite (IH a "" Ha).
           destruct (Db.is_statement cur); reflexivity.
        -- apply (IH a _ Ha).
Qed.

Section RunnerComposition.
Import Db.
Variable DB : Type.
Variable connection_execute : string -> DB -> store_error + DB.

Lemma run_lines_statements (lines done : list string) (d : DB) :
  run_lines connection_execute lines done d
  = run_lines connection_execute (filter is_statement lines) done d.
Proof.
  revert done d. induction lines as [|line lines IH]; intros done d; [reflexivity|].
  cbn [run_lines filter]. destruct (is_statement line) eqn:Hst.
  - cbn [run_lines]. rewrite Hst.
    destruct (connection_execute line d); [reflexivity | apply IH].
  - apply IH.
Qed.

Lemma run_lines_done (lines done : list string) (d : DB) :
  run_lines connection_execute lines done d
  = let r := run_lines connection_execute lines [] d in
    {| executed := (done ++ executed r)%list; store_after := store_after r;
       raised := raised r |}.
Proof.
  revert done d. induction lines as [|line lines IH]; intros done d.
  - cbn. rewrite app_nil_r. reflexivity.
  - cbn [run_lines]. destruct (is_statement line); [|apply IH].
    destruct (connection_execute line d) as [e|d']; [reflexivity|].
    rewrite (IH (done ++ [line])%list), (IH ([] ++ [line])%list). cbn.
    rewrite <- app_assoc. reflexivity.
Qed.

Lemma run_lines_app (l1 l2 done : list string) (d : DB) :
  run_lines connection_execute (l1 ++ l2) done d
  = let r1 := run_lines connection_execute l1 done d in
    match raised r1 with
    | None => run_lines connection_execute l2 (executed r1) (store_after r1)
    | Some _ => r1
    end.
Proof.
  revert done d. induction l1 as [|line l1 IH]; intros done d; [reflexivity|].
  cbn [app run_lines]. destruct (is_statement line); [|apply IH].
  destruct (connection_execute line d) as [e|d']; [reflexivity | apply IH].
Qed.

(** Running the script [a], a line feed and [b] in one call: when the run of
    [a] alone ends with an error the joint run is that run; otherwise the
    joint run executes the statements of [a] and then does what the run of
    [b] does on the store [a] left, with the same result and report. *)
Theorem scripts_run_in_sequence (a b : string) (d : DB) :
  let first := run_sql_script_without_transaction connection_execute a d in
  let joint := run_sql_script_without_transaction connection_execute
                 (a ++ newline ++ b) d in
  (forall e, raised (loop first) = Some e -> joint = first)
  /\ (raised (loop first) = None ->
      let second := run_sql_script_without_transaction connection_execute b
                      (store_after (loop first)) in
      executed (loop joint)
      = (executed (loop first) ++ executed (loop second))%list
      /\ store_after (loop joint) = store_after (loop second)
      /\ raised (loop joint) = raised (loop second)
      /\ result joint = result second
      /\ printed joint = printed second).
Proof.
  intros first joint.
  assert (Hloop : forall sql d0,
             loop (run_sql_script_without_transaction connection_execute sql d0)
             = run_lines connection_execute (splitlines sql) [] d0).
  { intros sql d0. unfold run_sql_script_without_transaction.
    destruct (raised _) as [e|]; [destruct (is_ProgrammingError e)|]; reflexivity. }
  assert (Hjoint : run_lines connection_execute (splitlines (a ++ newline ++ b)) [] d
                   = let r1 := run_lines connection_execute (splitlines a) [] d in
                     match raised r1 with
                     | None => run_lines connection_execute (splitlines b)
                                 (executed r1) (store_after r1)
                     | Some _ => r1
                     end).
  { rewrite run_lines_statements. unfold splitlines at 1.
    rewrite (statements_of_joined_scripts b (String.length a) a "" (le_n _)).
    rewrite run_lines_app. cbv zeta.
    rewrite <- !(run_lines_statements (splitlines_from a "")).
    fold (splitlines a).
    destruct (raised (run_lines connection_execute (splitlines a) [] d));
      [reflexivity|].
    rewrite <- run_lines_statements. reflexivity. }
  cbv zeta in Hjoint. split.
  - intros e He. subst first joint. rewrite Hloop in He.
    unfold run_sql_script_without_transaction. rewrite Hjoint, He. cbv iota.
    rewrite He. reflexivity.
  - intros Hnone second. subst first joint second.
    rewrite Hloop in Hnone.
    assert (E : run_sql_script_without_transaction connection_execute
                  (a ++ newline ++ b) d
                = let r := run_sql_script_without_transaction connection_execute b
                             (store_after (run_lines connection_execute
                                             (splitlines a) [] d)) in
                  {| loop := {| executed := (executed (run_lines connection_execute
                                                         (splitlines a) [] d)
                                             ++ executed (loop r))%list;
                                store_after := store_after (loop r);
                                raised := raised (loop r) |};
                     printed := printed r; isolation_level := isolation_level r;
                     connection_open := connection_open r; result := result r |}).
    { unfold run_sql_script_without_transaction at 1. rewrite Hjoint, Hnone.
      rewrite run_lines_done. cbv zeta. cbn [raised].
      unfold run_sql_script_without_transaction.
      destruct (raised (run_lines connection_execute (splitlines b) [] _))
        as [e|] eqn:Er;
        [destruct (is_ProgrammingError e)|];
        cbn [loop printed isolation_level connection_open result executed
             store_after raised];
        rewrite ?Er; reflexivity. }
    rewrite E. cbv zeta.
    cbn [loop executed store_after raised result printed].
    rewrite ?Hloop. repeat split; reflexivity.
Qed.

End RunnerComposition.

Lemma scripts_run_in_sequence_witness :
  Db.executed
    (Db.loop (Db.run_sql_script_without_transaction picky_execute
                ("-- first" ++ newline ++ "CREATE EXTENSION cube;" ++ newline
                 ++ script_with_typo) []))
  = ["CREATE EXTENSION cube;"; "CREATE EXTENSION cube;"; "CREATE EXTENSION cube;";
     "CRAETE TABLE t (id INT);"].
Proof.
  pose proof (proj2 (scripts_run_in_sequence (list string) picky_execute
                       ("-- first" ++ newline ++ "CREATE EXTENSION cube;")
                       script_with_typo []) eq_refl) as H.
  cbv zeta in H. destruct H as (Hexec & _).
  exact Hexec.
Defined.
